(** * Court case tracker: a shallow embedding of [court_case/app.py]

    The development follows the source file from top to bottom: the values
    a JSON request can carry, the string formatting the scrapers rely on,
    the three database models and the session that writes them, the
    scraper classes, the analytics engine and finally the [/api/search]
    route.

    Conventions of the embedding.
    - Python [str] is [string]; the text handled here is ASCII: the case
      conversion of [str.upper] is modelled on the letters a-z and [int()]
      on the ASCII digits and white space, and the statements that depend
      on either say so.
    - Python [float] arithmetic is carried out on exact rationals [Q].
    - A value bound to a column of TEXT affinity is stored as its text,
      as SQLite does.
    - The module-level [random] generator is a tape of raw draws read in
      order; [time.time] differences and [datetime.utcnow] come from the
      environment.
    - The database is the default SQLite store behind a SQLAlchemy
      session: objects are added to the session, written inside a
      transaction by [flush], and made durable by [commit]. *)

From Stdlib Require Import ZArith QArith Qminmax Qabs String Ascii List Lia DecimalString.
From Stdlib Require DecimalFacts DecimalPos.
From stdpp Require Import base gmap strings list.

Open Scope string_scope.
Open Scope Z_scope.
Open Scope list_scope.

(** ** Python values reaching the application through [request.get_json] *)

(** A JSON document decodes to [None], a [bool], an [int], a [float], a
    [str], a [list] or a [dict].  Floats and containers are kept by what
    the application can observe of them: their [str()] rendering and, for
    a float, the integer [int()] truncates it to (absent for [nan] and the
    infinities) and the text SQLite makes of it in a column of TEXT
    affinity (absent for [nan], which SQLite takes as NULL). *)
Inductive pyval : Type :=
  | PyNone
  | PyBool (b : bool)
  | PyInt (z : Z)
  | PyFloat (repr : string) (trunc : option Z) (text : option string)
  | PyStr (s : string)
  | PyList (repr : string)
  | PyDict (repr : string).

#[global] Instance pyval_eq_dec : EqDecision pyval.
Proof. solve_decision. Defined.

(** Exceptions carry the class name and the message [str(e)] returns. *)
Record exn : Type := Raise { exn_class : string; exn_msg : string }.

Definition type_name (v : pyval) : string :=
  match v with
  | PyNone => "NoneType"
  | PyBool _ => "bool"
  | PyInt _ => "int"
  | PyFloat _ _ _ => "float"
  | PyStr _ => "str"
  | PyList _ => "list"
  | PyDict _ => "dict"
  end.

(** ** Strings *)

Definition str_of_int (z : Z) : string := NilZero.string_of_int (Z.to_int z).

(** [str(v)], which is also what an f-string field [{v}] renders. *)
Definition py_str (v : pyval) : string :=
  match v with
  | PyNone => "None"
  | PyBool true => "True"
  | PyBool false => "False"
  | PyInt z => str_of_int z
  | PyFloat r _ _ => r
  | PyStr s => s
  | PyList r => r
  | PyDict r => r
  end.

(** The format specification [:02d]: sign first, then zeros up to a total
    width of two. *)
Definition fmt_02d (z : Z) : string :=
  if (z <? 0) then str_of_int z
  else if (z <? 10) then "0" +:+ str_of_int z
  else str_of_int z.

Definition upper_ascii (c : ascii) : ascii :=
  let n := nat_of_ascii c in
  if ((97 <=? n) && (n <=? 122))%nat then ascii_of_nat (n - 32) else c.

Fixpoint upper (s : string) : string :=
  match s with
  | EmptyString => EmptyString
  | String c s' => String (upper_ascii c) (upper s')
  end.

(** Text of the ASCII range.  [upper] above is [str.upper] and
    [int_of_str] below is [int] on such text; the letters, digits and
    white space Unicode has beyond it are outside the model, and the
    statements that depend on either function are about ASCII text. *)
Fixpoint ascii_text (s : string) : bool :=
  match s with
  | EmptyString => true
  | String c s' => (nat_of_ascii c <? 128)%nat && ascii_text s'
  end.

Definition ascii_value (v : pyval) : bool :=
  match v with
  | PyStr s => ascii_text s
  | _ => true
  end.

(** [v.upper()]: only [str] has the attribute. *)
Definition py_upper (v : pyval) : exn + string :=
  match v with
  | PyStr s => inr (upper s)
  | _ => inl (Raise "AttributeError"
                ("'" +:+ type_name v +:+ "' object has no attribute 'upper'"))
  end.

(** *** [int(v)] *)

(** The white space [int()] strips from ASCII text: the space and the
    characters 9 to 13. *)
Definition is_space (c : ascii) : bool :=
  let n := nat_of_ascii c in
  ((n =? 32) || ((9 <=? n) && (n <=? 13)))%nat.

Definition digit_of (c : ascii) : option Z :=
  let n := nat_of_ascii c in
  if ((48 <=? n) && (n <=? 57))%nat then Some (Z.of_nat (n - 48)) else None.

Fixpoint lstrip (s : string) : string :=
  match s with
  | String c s' => if is_space c then lstrip s' else s
  | EmptyString => EmptyString
  end.

Fixpoint all_space (s : string) : bool :=
  match s with
  | EmptyString => true
  | String c s' => is_space c && all_space s'
  end.

(** Digits of a decimal literal, a single underscore allowed between two
    digits; trailing white space ends the literal.  [after_digit] tells
    whether the previous character was a digit. *)
Fixpoint int_digits (s : string) (acc : Z) (after_digit : bool) : option Z :=
  match s with
  | EmptyString => if after_digit then Some acc else None
  | String c s' =>
      match digit_of c with
      | Some d => int_digits s' (acc * 10 + d) true
      | None =>
          if (nat_of_ascii c =? 95)%nat then
            if after_digit then
              match s' with
              | String c' _ =>
                  match digit_of c' with
                  | Some _ => int_digits s' acc false
                  | None => None
                  end
              | EmptyString => None
              end
            else None
          else if after_digit && all_space s then Some acc else None
      end
  end.

(** [sys.get_int_max_str_digits()] as it is by default: a literal of
    more digits is refused. *)
Definition int_max_str_digits : nat := 4300.

Fixpoint count_digits (s : string) : nat :=
  match s with
  | EmptyString => 0
  | String c s' =>
      match digit_of c with
      | Some _ => S (count_digits s')
      | None => count_digits s'
      end
  end.

Definition int_of_str (s : string) : option Z :=
  if (int_max_str_digits <? count_digits s)%nat then None
  else
    match lstrip s with
    | String "-" s' => Z.opp <$> int_digits s' 0 false
    | String "+" s' => int_digits s' 0 false
    | s' => int_digits s' 0 false
    end.

Definition py_int (v : pyval) : exn + Z :=
  match v with
  | PyBool b => inr (if b then 1 else 0)
  | PyInt z => inr z
  | PyFloat r (Some z) _ => inr z
  | PyFloat r None _ =>
      inl (Raise "OverflowError" ("cannot convert float " +:+ r +:+ " to integer"))
  | PyStr s =>
      match int_of_str s with
      | Some z => inr z
      | None =>
          inl (Raise "ValueError"
                 ("invalid literal for int() with base 10: '" +:+ s +:+ "'"))
      end
  | _ =>
      inl (Raise "TypeError"
             ("int() argument must be a string, a bytes-like object or a real number, not '"
                +:+ type_name v +:+ "'"))
  end.

(** [hash(v)] succeeds on everything but the containers. *)
Definition hashable (v : pyval) : bool :=
  match v with
  | PyList _ | PyDict _ => false
  | _ => true
  end.

(** ** Dictionaries and calendar dates *)

(** A Python [dict] with [str] keys. *)
Abbreviation pydict := (gmap string pyval).

(** [d.get(k)]: [None] when the key is absent. *)
Definition dict_get (d : pydict) (k : string) : pyval := default PyNone (d !! k).

(** [d.get(k, dflt)]. *)
Definition dict_get_default (d : pydict) (k : string) (dflt : pyval) : pyval :=
  default dflt (d !! k).

(** [d[k]]. *)
Definition dict_item (d : pydict) (k : string) : exn + pyval :=
  match d !! k with
  | Some v => inr v
  | None => inl (Raise "KeyError" ("'" +:+ k +:+ "'"))
  end.

Record date : Type := Date { year : Z; month : Z; day : Z }.

#[global] Instance date_eq_dec : EqDecision date.
Proof. solve_decision. Defined.

(** A [datetime]: the calendar day and the microseconds since midnight. *)
Record datetime : Type := DateTime { dt_date : date; dt_time : Z }.

(** Chronological order on days. *)
Definition date_leb (a b : date) : bool :=
  (year a <? year b)
  || ((year a =? year b)
      && ((month a <? month b) || ((month a =? month b) && (day a <=? day b)))).

Definition is_leap (y : Z) : bool :=
  ((y mod 4 =? 0) && negb (y mod 100 =? 0)) || (y mod 400 =? 0).

Definition days_in_month (y m : Z) : Z :=
  if (m =? 2) then (if is_leap y then 29 else 28)
  else if (m =? 4) || (m =? 6) || (m =? 9) || (m =? 11) then 30
  else 31.

Definition two_digits (a b : ascii) : option Z :=
  match digit_of a, digit_of b with
  | Some x, Some y => Some (10 * x + y)
  | _, _ => None
  end.

(** The month field of [%m]: [1[0-2]|0[1-9]|[1-9]], closed by the dash. *)
Definition month_field (s : string) : option (Z * string) :=
  match s with
  | String a (String "-" r) =>
      match digit_of a with
      | Some m => if (1 <=? m) then Some (m, r) else None
      | None => None
      end
  | String a (String b (String "-" r)) =>
      match two_digits a b with
      | Some m => if (1 <=? m) && (m <=? 12) then Some (m, r) else None
      | None => None
      end
  | _ => None
  end.

(** The day field of [%d]: [3[01]|[12]\d|0[1-9]|[1-9]| [1-9]], which must
    end the text. *)
Definition day_field (s : string) : option Z :=
  match s with
  | String a EmptyString =>
      match digit_of a with
      | Some d => if (1 <=? d) then Some d else None
      | None => None
      end
  | String a (String b EmptyString) =>
      if (nat_of_ascii a =? 32)%nat then
        match digit_of b with
        | Some d => if (1 <=? d) then Some d else None
        | None => None
        end
      else
        match two_digits a b with
        | Some d => if (1 <=? d) && (d <=? 31) then Some d else None
        | None => None
        end
  | _ => None
  end.

Definition strptime_error (s : string) : exn :=
  Raise "ValueError"
    ("time data '" +:+ s +:+ "' does not match format '%Y-%m-%d'").

(** [datetime.strptime(v, '%Y-%m-%d').date()]: four digits of year, a
    month, a day, and the three must name a day of the calendar. *)
Definition strptime_ymd (v : pyval) : exn + date :=
  match v with
  | PyStr s =>
      match s with
      | String a (String b (String c (String d (String "-" r)))) =>
          match two_digits a b, two_digits c d with
          | Some hi, Some lo =>
              let y := 100 * hi + lo in
              match month_field r with
              | Some (m, r') =>
                  match day_field r' with
                  | Some dd =>
                      if (1 <=? y) && (dd <=? days_in_month y m)
                      then inr (Date y m dd)
                      else inl (Raise "ValueError" "day is out of range for month")
                  | None => inl (strptime_error s)
                  end
              | None => inl (strptime_error s)
              end
          | _, _ => inl (strptime_error s)
          end
      | _ => inl (strptime_error s)
      end
  | _ =>
      inl (Raise "TypeError"
             ("strptime() argument 1 must be str, not " +:+ type_name v))
  end.

(** ** Payloads *)

(** The dictionary [predict_case_outcome] returns. *)
Module Prediction.
Record t : Type := Build {
  favorable_probability : Q;
  estimated_disposal_days : Z;
  confidence : Q;
  key_factors : list string
}.
End Prediction.

(** The [result] dictionary a scraper builds; [ai_prediction] is the key
    the route adds before answering. *)
Module Result.
Record t : Type := Build {
  case_data : pydict;
  orders : list pydict;
  response_time_ms : Z;
  success : bool;
  ai_prediction : option Prediction.t
}.
End Result.

(** ** Database models *)

(** Attributes the database fills in ([id], defaulted timestamps) are
    [None] on an object until the session has flushed it. *)
Module CaseQuery.
Record t : Type := Build {
  id : option Z;
  court_name : pyval;
  case_type : pyval;
  case_number : pyval;
  filing_year : Z;
  query_timestamp : option datetime;
  success : bool;
  response_time_ms : option Z;
  raw_response : option string;
  parsed_data : option Result.t
}.
End CaseQuery.

Module CaseData.
Record t : Type := Build {
  id : option Z;
  case_number : pyval;
  court_name : pyval;
  petitioner : pyval;
  respondent : pyval;
  filing_date : date;
  next_hearing_date : date;
  case_status : pyval;
  judge_name : pyval;
  last_updated : option datetime
}.
End CaseData.

Module CaseOrder.
Record t : Type := Build {
  id : option Z;
  case_id : option Z;
  order_date : date;
  order_description : pyval;
  pdf_link : option string;
  judge_name : option string
}.
End CaseOrder.

(** The three tables, rows in insertion order. *)
Module DB.
Record t : Type := Build {
  case_query : list CaseQuery.t;
  case_data : list CaseData.t;
  case_order : list CaseOrder.t
}.
Definition empty : t := Build [] [] [].
End DB.

(** An object handed to [db.session.add]. *)
Inductive obj : Type :=
  | OQuery (q : CaseQuery.t)
  | OCase (c : CaseData.t)
  | OOrder (o : CaseOrder.t).

(** ** Process state and environment *)

(** What outlives a request: the committed database, the module-level
    [ecourts_scraper] (its mutable [district]) and the position of the
    module-level random generator. *)
Record Process : Type := MkProcess {
  db : DB.t;
  ecourts_district : string;
  rng : nat
}.

(** A request in flight adds the session: [txn] is the transaction's view
    of the tables, [pending] the objects added but not yet flushed. *)
Record State : Type := MkState {
  proc : Process;
  txn : DB.t;
  pending : list obj
}.

(** What the process reads from outside: the raw random draws, the
    wall-clock time one scrape takes, the clocks ([datetime.utcnow] and
    [datetime.now]), and whether the store fails on a read, a flush or a
    commit. *)
Record Env : Type := MkEnv {
  tape : nat -> Z;
  elapsed_ms : Z;
  utcnow : datetime;
  now : datetime;
  select_fault : bool;
  flush_fault : bool;
  commit_fault : bool
}.

(** ** Computations that may raise *)

Definition ES (S A : Type) : Type := S -> (exn + A) * S.

Definition ret {S A} (a : A) : ES S A := fun s => (inr a, s).

Definition bind {S A B} (c : ES S A) (k : A -> ES S B) : ES S B :=
  fun s => match c s with
           | (inr a, s') => k a s'
           | (inl e, s') => (inl e, s')
           end.

Definition raise {S A} (e : exn) : ES S A := fun s => (inl e, s).

(** A pure step that may raise. *)
Definition lift_exn {S A} (r : exn + A) : ES S A := fun s => (r, s).

(** [try: c  except Exception as e: h e]. *)
Definition try_except {S A} (c : ES S A) (h : exn -> ES S A) : ES S A :=
  fun s => match c s with
           | (inr a, s') => (inr a, s')
           | (inl e, s') => h e s'
           end.

Notation "x <- c ;; k" := (bind c (fun x => k))
  (at level 100, c at next level, right associativity).
Notation "c ;; k" := (bind c (fun _ => k))
  (at level 100, right associativity).

(** [for x in xs: body x]. *)
Fixpoint for_each {S A} (xs : list A) (body : A -> ES S unit) : ES S unit :=
  match xs with
  | [] => ret tt
  | x :: xs' => body x ;; for_each xs' body
  end.

Abbreviation Rnd := (ES nat).
Abbreviation M := (ES State).

Definition set_rng (n : nat) (st : State) : State :=
  MkState (MkProcess (db (proc st)) (ecourts_district (proc st)) n)
          (txn st) (pending st).

Definition set_district (d : string) (st : State) : State :=
  MkState (MkProcess (db (proc st)) d (rng (proc st))) (txn st) (pending st).

(** Run a computation on the generator inside the process state. *)
Definition lift_rng {A} (c : Rnd A) : M A :=
  fun st => let '(r, n) := c (rng (proc st)) in (r, set_rng n st).

(** ** The [random] module *)

(** A value below [n], read off the next raw draw. *)
Definition randbelow (env : Env) (n : Z) : Rnd Z :=
  fun p => (inr (tape env p mod n), S p).

(** [random.randint(a, b)], both ends included. *)
Definition randint (env : Env) (a b : Z) : Rnd Z :=
  k <- randbelow env (b - a + 1) ;; ret (a + k).

(** [random.choice(seq)]. *)
Definition choice (env : Env) (seq : list string) : Rnd string :=
  k <- randbelow env (Z.of_nat (length seq)) ;;
  ret (nth (Z.to_nat k) seq "").

(** [random.random()]: 53 random bits over [2**53]. *)
Definition random (env : Env) : Rnd Q :=
  k <- randbelow env (2 ^ 53) ;; ret (k # 2 ^ 53)%Q.

(** [random.uniform(a, b)]. *)
Definition uniform (env : Env) (a b : Q) : Rnd Q :=
  u <- random env ;; ret (a + (b - a) * u)%Q.

(** ** The session *)

(** The key SQLite gives a new row: one more than the largest in use. *)
Definition next_id (ids : list (option Z)) : Z :=
  1 + fold_right (fun i acc => Z.max (default 0 i) acc) 0 ids.

Definition is_none (v : pyval) : bool :=
  match v with PyNone => true | _ => false end.

Definition integrity_error (column : string) : exn :=
  Raise "IntegrityError" ("NOT NULL constraint failed: " +:+ column).

Definition binding_error : exn :=
  Raise "InterfaceError" "Error binding parameter - probably unsupported type.".

Definition overflow_error : exn :=
  Raise "OverflowError" "Python int too large to convert to SQLite INTEGER".

Definition int64 (z : Z) : bool := (- 2 ^ 63 <=? z) && (z <? 2 ^ 63).

(** Binding a value to a statement parameter: the driver takes [None],
    [bool], [int] within 64 bits, [float] and [str]. *)
Definition bind_error (v : pyval) : option exn :=
  match v with
  | PyList _ | PyDict _ => Some binding_error
  | PyInt z => if int64 z then None else Some overflow_error
  | _ => None
  end.

Definition bindable (v : pyval) : bool :=
  match v with
  | PyList _ | PyDict _ => false
  | PyInt z => int64 z
  | _ => true
  end.

(** The parameters are bound in order; the first that cannot be bound
    raises. *)
Fixpoint first_bind_error (vs : list pyval) : option exn :=
  match vs with
  | [] => None
  | v :: vs' =>
      match bind_error v with
      | Some e => Some e
      | None => first_bind_error vs'
      end
  end.

(** What a column of TEXT affinity holds once a value has been bound to
    it: text as it is, a number in its text form, NULL for [None] and for
    [nan]. *)
Definition column_text (v : pyval) : pyval :=
  match v with
  | PyBool b => PyStr (if b then "1" else "0")
  | PyInt z => PyStr (str_of_int z)
  | PyFloat _ _ (Some text) => PyStr text
  | PyFloat _ _ None => PyNone
  | _ => v
  end.

(** An [Integer] column that may be NULL, as a parameter. *)
Definition int_param (z : option Z) : pyval :=
  match z with
  | Some z => PyInt z
  | None => PyNone
  end.

(** One INSERT inside the transaction: the parameters are bound, the
    column constraints of the model are checked, the key and the
    defaulted timestamp filled in.  What comes back is the row as the
    table now holds it. *)
Definition insert (env : Env) (o : obj) (d : DB.t) : exn + (obj * DB.t) :=
  match o with
  | OQuery q =>
      match first_bind_error
              [ CaseQuery.court_name q; CaseQuery.case_type q; CaseQuery.case_number q;
                PyInt (CaseQuery.filing_year q);
                int_param (CaseQuery.response_time_ms q) ] with
      | Some e => inl e
      | None =>
          let court_name := column_text (CaseQuery.court_name q) in
          let case_type := column_text (CaseQuery.case_type q) in
          let case_number := column_text (CaseQuery.case_number q) in
          if is_none court_name then inl (integrity_error "case_query.court_name")
          else if is_none case_type then inl (integrity_error "case_query.case_type")
          else if is_none case_number then inl (integrity_error "case_query.case_number")
          else
            let q' := CaseQuery.Build
                        (Some (next_id (CaseQuery.id <$> DB.case_query d)))
                        court_name case_type case_number (CaseQuery.filing_year q)
                        (Some (default (utcnow env) (CaseQuery.query_timestamp q)))
                        (CaseQuery.success q) (CaseQuery.response_time_ms q)
                        (CaseQuery.raw_response q) (CaseQuery.parsed_data q) in
            inr (OQuery q',
                 DB.Build (DB.case_query d ++ [q']) (DB.case_data d) (DB.case_order d))
      end
  | OCase c =>
      match first_bind_error
              [ CaseData.case_number c; CaseData.court_name c; CaseData.petitioner c;
                CaseData.respondent c; CaseData.case_status c; CaseData.judge_name c ] with
      | Some e => inl e
      | None =>
          let case_number := column_text (CaseData.case_number c) in
          let court_name := column_text (CaseData.court_name c) in
          if is_none case_number then inl (integrity_error "case_data.case_number")
          else if is_none court_name then inl (integrity_error "case_data.court_name")
          else if bool_decide (case_number ∈ CaseData.case_number <$> DB.case_data d)
          then inl (Raise "IntegrityError" "UNIQUE constraint failed: case_data.case_number")
          else
            let c' := CaseData.Build
                        (Some (next_id (CaseData.id <$> DB.case_data d)))
                        case_number court_name
                        (column_text (CaseData.petitioner c))
                        (column_text (CaseData.respondent c))
                        (CaseData.filing_date c) (CaseData.next_hearing_date c)
                        (column_text (CaseData.case_status c))
                        (column_text (CaseData.judge_name c))
                        (Some (default (utcnow env) (CaseData.last_updated c))) in
            inr (OCase c',
                 DB.Build (DB.case_query d) (DB.case_data d ++ [c']) (DB.case_order d))
      end
  | OOrder o =>
      match bind_error (CaseOrder.order_description o) with
      | Some e => inl e
      | None =>
          match CaseOrder.case_id o with
          | None => inl (integrity_error "case_order.case_id")
          | Some _ =>
              let o' := CaseOrder.Build
                          (Some (next_id (CaseOrder.id <$> DB.case_order d)))
                          (CaseOrder.case_id o) (CaseOrder.order_date o)
                          (column_text (CaseOrder.order_description o))
                          (CaseOrder.pdf_link o) (CaseOrder.judge_name o) in
              inr (OOrder o',
                   DB.Build (DB.case_query d) (DB.case_data d) (DB.case_order d ++ [o']))
          end
      end
  end.

Fixpoint insert_all (env : Env) (os : list obj) (d : DB.t) : exn + (list obj * DB.t) :=
  match os with
  | [] => inr ([], d)
  | o :: os' =>
      match insert env o d with
      | inl e => inl e
      | inr (o', d') =>
          match insert_all env os' d' with
          | inl e => inl e
          | inr (os'', d'') => inr (o' :: os'', d'')
          end
      end
  end.

(** [db.session.add(o)]. *)
Definition session_add (o : obj) : M unit :=
  fun st => (inr tt, MkState (proc st) (txn st) (pending st ++ [o])).

(** [db.session.flush()]: the pending objects are written inside the
    transaction; the result lists them as they now stand, keys filled
    in.  With nothing pending no statement is sent. *)
Definition session_flush (env : Env) : M (list obj) :=
  fun st =>
    match pending st with
    | [] => (inr [], st)
    | _ :: _ =>
        if flush_fault env
        then (inl (Raise "OperationalError" "disk I/O error"), st)
        else match insert_all env (pending st) (txn st) with
             | inl e => (inl e, st)
             | inr (os, d) => (inr os, MkState (proc st) d [])
             end
    end.

(** [db.session.commit()]: flush, then the transaction becomes the
    committed database, all of it or nothing. *)
Definition session_commit (env : Env) : M unit :=
  session_flush env ;;
  fun st =>
    if commit_fault env
    then (inl (Raise "OperationalError" "database is locked"), st)
    else (inr tt,
          MkState (MkProcess (txn st) (ecourts_district (proc st)) (rng (proc st)))
                  (txn st) (pending st)).

(** [session.remove()] when the request ends: what was not committed is
    rolled back. *)
Definition teardown (st : State) : Process := proc st.

(** [CaseData.query.filter_by(case_number=label).first()]; the query
    flushes the session first. *)
Definition case_by_number (env : Env) (label : pyval) : M (option CaseData.t) :=
  session_flush env ;;
  fun st =>
    if select_fault env
    then (inl (Raise "OperationalError" "no such table: case_data"), st)
    else if bindable label
    then (inr (head (filter (fun c => CaseData.case_number c = label)
                            (DB.case_data (txn st)))), st)
    else (inl binding_error, st).

(** [new_case.id] once the flush has written [new_case]. *)
Definition flushed_case_id (os : list obj) : option Z :=
  match os with
  | OCase c :: _ => CaseData.id c
  | _ => None
  end.

(** ** Scrapers *)

Module BaseScraper.

Definition case_types : gmap string string :=
  list_to_map
    [ ("civil", "Civil Suit");
      ("criminal", "Criminal Case");
      ("writ", "Writ Petition");
      ("appeal", "Civil Appeal");
      ("revision", "Civil Revision");
      ("bail", "Bail Application");
      ("pil", "Public Interest Litigation") ].

Definition petitioners : list string :=
  [ "Rajesh Kumar & Associates";
    "Priya Enterprises Pvt. Ltd.";
    "State of Delhi";
    "Municipal Corporation";
    "ABC Manufacturing Co.";
    "XYZ Corporation";
    "Local Authority";
    "Private Individual" ].

Definition respondents : list string :=
  [ "Union of India";
    "State Government";
    "XYZ Corporation";
    "Local Authority";
    "Private Individual";
    "Municipal Corporation";
    "State of Delhi" ].

Definition judges : list string :=
  [ "Hon'ble Justice A.K. Sharma";
    "Hon'ble Justice P.R. Mehta";
    "Hon'ble Justice S.K. Singh";
    "Hon'ble Justice R.N. Patel";
    "Hon'ble Justice M.S. Kumar";
    "Hon'ble Justice Priya Singh";
    "Hon'ble Justice R.K. Gupta" ].

Definition order_descriptions : list string :=
  [ "Notice issued to respondents. Matter adjourned to next date of hearing.";
    "Counter affidavit filed by respondents. Rejoinder affidavit to be filed within two weeks.";
    "Interim relief granted. Respondents restrained from taking any coercive action.";
    "Matter heard at length. Judgment reserved for pronouncement.";
    "Petition allowed. Respondents directed to comply with the directions within four weeks.";
    "Matter disposed of in terms of the settlement reached between parties.";
    "Interim application disposed of. Main matter to be listed for final hearing.";
    "Notice of motion disposed of. Main petition to be heard on merits.";
    "Bail application allowed. Petitioner directed to furnish surety bonds.";
    "Revision petition dismissed. Lower court order upheld.";
    "Appeal admitted. Stay granted on the impugned order.";
    "Writ petition disposed of with directions to the authorities." ].

(** [case_types.get(case_type, 'Civil Suit')]: the key is hashed, then
    looked up; only a [str] can equal one of the keys. *)
Definition case_types_get (case_type : pyval) (dflt : string) : exn + string :=
  if hashable case_type then
    match case_type with
    | PyStr s => inr (default dflt (case_types !! s))
    | _ => inr dflt
    end
  else inl (Raise "TypeError" ("unhashable type: '" +:+ type_name case_type +:+ "'")).

(** The case-number label, by court. *)
Definition case_num (case_type case_number : pyval) (filing_year : Z)
    (court_name : string) : exn + string :=
  if decide (court_name = "delhi-high") then
    match case_types_get case_type "Civil Suit" with
    | inr label =>
        inr (label +:+ " " +:+ py_str case_number +:+ "/" +:+ str_of_int filing_year)
    | inl e => inl e
    end
  else if decide (court_name = "supreme") then
    inr ("Civil Appeal No. " +:+ py_str case_number +:+ " of " +:+ str_of_int filing_year)
  else if decide (court_name = "bombay-high") then
    inr ("Writ Petition No. " +:+ py_str case_number +:+ " of " +:+ str_of_int filing_year)
  else
    match py_upper case_type with
    | inr up =>
        inr (up +:+ "/" +:+ py_str case_number +:+ "/" +:+ str_of_int filing_year)
    | inl e => inl e
    end.

Definition generate_mock_data (env : Env) (case_type case_number : pyval) (filing_year : Z)
    (court_name : string) : Rnd (pydict * list pydict) :=
  label <- lift_exn (case_num case_type case_number filing_year court_name) ;;
  petitioner <- choice env petitioners ;;
  respondent <- choice env respondents ;;
  filing_month <- randint env 1 12 ;;
  filing_day <- randint env 1 28 ;;
  hearing_month <- randint env 8 12 ;;
  hearing_day <- randint env 1 28 ;;
  status <- choice env ["pending"; "disposed"] ;;
  judge <- choice env judges ;;
  let filing_date :=
    str_of_int filing_year +:+ "-" +:+ fmt_02d filing_month +:+ "-" +:+ fmt_02d filing_day in
  let case_data : pydict :=
    <["case_number" := PyStr label]>
    (<["petitioner" := PyStr petitioner]>
    (<["respondent" := PyStr respondent]>
    (<["filing_date" := PyStr filing_date]>
    (<["next_hearing" :=
         PyStr ("2025-" +:+ fmt_02d hearing_month +:+ "-" +:+ fmt_02d hearing_day)]>
    (<["status" := PyStr status]>
    (<["judge" := PyStr judge]> ∅)))))) in
  order_day <- randint env 1 30 ;;
  description <- choice env order_descriptions ;;
  let orders : list pydict :=
    [ <["date" := PyStr ("2025-07-" +:+ fmt_02d order_day)]>
      (<["description" := PyStr description]> ∅);
      <["date" := PyStr filing_date]>
      (<["description" := PyStr "Petition filed. Urgent hearing requested."]> ∅) ] in
  ret (case_data, orders).

(** [time.sleep(seconds)]: the time that passes is the environment's. *)
Definition sleep (seconds : Q) : Rnd unit := ret tt.

(** The body the four [scrape_case_data] methods share: sleep for
    [base + random.uniform(lo, hi)] seconds, generate, time the call;
    any exception becomes the error string of the pair. *)
Definition scrape (env : Env) (base lo hi : Q) (court_name : string)
    (case_type case_number : pyval) (filing_year : Z)
    : Rnd (option Result.t * option string) :=
  try_except
    (jitter <- uniform env lo hi ;;
     sleep (base + jitter) ;;
     generated <- generate_mock_data env case_type case_number filing_year court_name ;;
     let response_time := elapsed_ms env in
     ret (Some (Result.Build (fst generated) (snd generated) response_time true None),
          None))
    (fun e => ret (None, Some (exn_msg e))).

End BaseScraper.

Module DelhiHighCourtScraper.
Definition scrape_case_data (env : Env) :=
  BaseScraper.scrape env 2 0.5 1.5 "delhi-high".
End DelhiHighCourtScraper.

Module SupremeCourtScraper.
Definition scrape_case_data (env : Env) :=
  BaseScraper.scrape env 1.5 0.5 1.0 "supreme".
End SupremeCourtScraper.

Module BombayHighCourtScraper.
Definition scrape_case_data (env : Env) :=
  BaseScraper.scrape env 1.8 0.5 1.2 "bombay-high".
End BombayHighCourtScraper.

(** [self.district] is the attribute the route overwrites before each
    call. *)
Module ECourtsScraper.
Definition scrape_case_data (env : Env) (district : string) :=
  BaseScraper.scrape env 1 0.5 1.0 (district +:+ "-district").
End ECourtsScraper.

(** ** Analytics engine *)

Module Stats.
Record t : Type := Build {
  total_searches : Z;
  success_rate : Q;
  avg_response_time : Z
}.
End Stats.

Module Trend.
Record t : Type := Build { month : string; count : Z }.
End Trend.

(** [round(x, 1)]: to the nearest tenth, a tie going to the even one. *)
Definition round_half_even (x : Q) : Z :=
  let n := Qnum x in
  let d := Zpos (Qden x) in
  let lo := n / d in
  let r := n mod d in
  if (2 * r <? d) then lo
  else if (d <? 2 * r) then lo + 1
  else if Z.even lo then lo else lo + 1.

Definition round1 (x : Q) : Q := (round_half_even (x * 10) # 10)%Q.

(** [int(x)] on a float: towards zero. *)
Definition int_of_Q (x : Q) : Z := Z.quot (Qnum x) (Zpos (Qden x)).

(** The day before. *)
Definition prev_day (d : date) : date :=
  if (1 <? day d) then Date (year d) (month d) (day d - 1)
  else if (1 <? month d)
       then Date (year d) (month d - 1) (days_in_month (year d) (month d - 1))
       else Date (year d - 1) 12 31.

(** [d - timedelta(days=n)]; the calendar starts with year 1. *)
Definition minus_days (d : date) (n : nat) : exn + date :=
  let d' := Nat.iter n prev_day d in
  if (1 <=? year d') then inr d'
  else inl (Raise "OverflowError" "date value out of range").

(** [d.strftime('%Y-%m')]. *)
Definition strftime_ym (d : date) : string :=
  str_of_int (year d) +:+ "-" +:+ fmt_02d (month d).

(** The [range(6)] loop of [get_case_trends], from index [i] on. *)
Fixpoint trends_loop (env : Env) (current_date : date) (i n : nat)
    : Rnd (list Trend.t) :=
  match n with
  | O => ret []
  | S n' =>
      month_date <- lift_exn (minus_days current_date (30 * i)%nat) ;;
      let month_str := strftime_ym month_date in
      c <- randint env 50 200 ;;
      rest <- trends_loop env current_date (S i) n' ;;
      ret (Trend.Build month_str c :: rest)
  end.

Module CaseAnalytics.

(** Rows of the query log with [query_timestamp >= today]. *)
Definition since (today : date) (q : CaseQuery.t) : bool :=
  match CaseQuery.query_timestamp q with
  | Some t => date_leb today (dt_date t)
  | None => false
  end.

(** SQL [AVG]: the mean of the values that are not NULL, NULL when
    there is none. *)
Definition sql_avg (xs : list (option Z)) : option Q :=
  let vals : list Z := omap id xs in
  match vals with
  | [] => None
  | _ => Some (Qmake (fold_right Z.add 0 vals) (Pos.of_nat (length vals)))
  end.

Definition get_dashboard_stats (env : Env) (d : DB.t) : Stats.t :=
  let today := dt_date (now env) in
  let total_searches :=
    Z.of_nat (length (filter (fun q => since today q = true) (DB.case_query d))) in
  let successful :=
    filter (fun q => since today q && CaseQuery.success q = true) (DB.case_query d) in
  let successful_searches := Z.of_nat (length successful) in
  let success_rate :=
    if (0 <? total_searches)
    then ((successful_searches # 1) / (total_searches # 1) * 100)%Q
    else 0%Q in
  let avg_response_time :=
    match sql_avg (CaseQuery.response_time_ms <$> successful) with
    | Some a => if Qeq_bool a 0 then 0%Q else a
    | None => 0%Q
    end in
  Stats.Build total_searches (round1 success_rate) (int_of_Q avg_response_time).

Definition get_case_trends (env : Env) : Rnd (list Trend.t) :=
  trends <- trends_loop env (dt_date (now env)) 0 6 ;;
  ret (rev trends).

Definition case_age_days : Z := 100.

Definition predict_case_outcome (env : Env) (case_data : pydict) : Rnd Prediction.t :=
  let score := 0.5%Q in
  let case_type := dict_get_default case_data "case_type" (PyStr "civil") in
  court_load <- randint env 50 200 ;;
  let score := if (365 <? case_age_days) then (score + 0.2)%Q else score in
  let score :=
    if bool_decide (case_type = PyStr "bail") || bool_decide (case_type = PyStr "writ")
    then (score + 0.1)%Q else score in
  let score := if (court_load <? 100) then (score + 0.1)%Q else score in
  disposal <- randint env 30 180 ;;
  conf <- uniform env 0.7 0.9 ;;
  ret (Prediction.Build (Qmin score 0.95) disposal conf
         ["Case age"; "Court efficiency"; "Case type complexity"]).

End CaseAnalytics.

(** ** The [/api/search] route *)

(** What [request.get_json()] makes of the request: a JSON object, some
    other JSON document, or an exception (wrong content type, malformed
    JSON). *)
Inductive Body : Type :=
  | BodyObject (data : pydict)
  | BodyOther (v : pyval)
  | BodyInvalid.

(** A response: [jsonify(result)] with status 200, or
    [jsonify({'error': msg}), status]. *)
Inductive Response : Type :=
  | JsonResult (result : Result.t)
  | JsonError (msg : string) (status : Z).

Definition status_code (r : Response) : Z :=
  match r with
  | JsonResult _ => 200
  | JsonError _ s => s
  end.

(** [data = request.get_json()], as far as [data.get] needs it. *)
Definition get_json (request : Body) : exn + pydict :=
  match request with
  | BodyObject data => inr data
  | BodyOther v =>
      inl (Raise "AttributeError"
             ("'" +:+ type_name v +:+ "' object has no attribute 'get'"))
  | BodyInvalid => inl (Raise "BadRequest" "400 Bad Request")
  end.

Definition supported_courts : list string :=
  ["delhi-high"; "supreme"; "bombay-high"; "delhi-district"; "faridabad-district"].

(** The [if]/[elif] chain choosing the scraper; [None] is the final
    [else]. *)
Definition choose_scraper (env : Env) (court case_type case_number : pyval)
    (filing_year : Z) : M (option (option Result.t * option string)) :=
  if decide (court = PyStr "delhi-high") then
    r <- lift_rng (DelhiHighCourtScraper.scrape_case_data env case_type case_number filing_year) ;;
    ret (Some r)
  else if decide (court = PyStr "supreme") then
    r <- lift_rng (SupremeCourtScraper.scrape_case_data env case_type case_number filing_year) ;;
    ret (Some r)
  else if decide (court = PyStr "bombay-high") then
    r <- lift_rng (BombayHighCourtScraper.scrape_case_data env case_type case_number filing_year) ;;
    ret (Some r)
  else if bool_decide (court = PyStr "delhi-district")
          || bool_decide (court = PyStr "faridabad-district") then
    let district :=
      if decide (court = PyStr "delhi-district") then "delhi" else "faridabad" in
    (fun st => (inr tt, set_district district st)) ;;
    self <- (fun st => (inr (ecourts_district (proc st)), st)) ;;
    r <- lift_rng (ECourtsScraper.scrape_case_data env self case_type case_number filing_year) ;;
    ret (Some r)
  else ret None.

(** One turn of the loop over [result['orders']]; [case_id] is
    [new_case.id]. *)
Definition save_order (case_id : option Z) (order : pydict) : M unit :=
  date_text <- lift_exn (dict_item order "date") ;;
  order_date <- lift_exn (strptime_ymd date_text) ;;
  description <- lift_exn (dict_item order "description") ;;
  session_add
    (OOrder (CaseOrder.Build None case_id order_date description None None)).

(** The block under [if not existing_case]. *)
Definition save_new_case (env : Env) (court : pyval) (result : Result.t) : M unit :=
  let case_data := Result.case_data result in
  label <- lift_exn (dict_item case_data "case_number") ;;
  filing_text <- lift_exn (dict_item case_data "filing_date") ;;
  filing_date <- lift_exn (strptime_ymd filing_text) ;;
  hearing_text <- lift_exn (dict_item case_data "next_hearing") ;;
  next_hearing_date <- lift_exn (strptime_ymd hearing_text) ;;
  let new_case :=
    CaseData.Build None label court
      (dict_get case_data "petitioner") (dict_get case_data "respondent")
      filing_date next_hearing_date
      (dict_get case_data "status") (dict_get case_data "judge") None in
  session_add (OCase new_case) ;;
  flushed <- session_flush env ;;
  for_each (Result.orders result) (save_order (flushed_case_id flushed)).

(** The body of the [try] block. *)
Definition search_case_body (env : Env) (request : Body) : M Response :=
  data <- lift_exn (get_json request) ;;
  let court := dict_get data "court" in
  let case_type := dict_get data "case_type" in
  let case_number := dict_get data "case_number" in
  filing_year <- lift_exn (py_int (dict_get data "filing_year")) ;;
  let query_record :=
    CaseQuery.Build None court case_type case_number filing_year None false None None None in
  chosen <- choose_scraper env court case_type case_number filing_year ;;
  match chosen with
  | None => ret (JsonError "Unsupported court selected" 400)
  | Some (result, error) =>
      match error with
      | Some (String c msg) =>
          let error := String c msg in
          let query_record :=
            CaseQuery.Build None court case_type case_number filing_year None
              false None (Some error) None in
          session_add (OQuery query_record) ;;
          session_commit env ;;
          ret (JsonError error 500)
      | _ =>
          match result with
          | None =>
              raise (Raise "TypeError" "'NoneType' object is not subscriptable")
          | Some result =>
              let query_record :=
                CaseQuery.Build None court case_type case_number filing_year None
                  true (Some (Result.response_time_ms result)) None (Some result) in
              let case_data := Result.case_data result in
              label <- lift_exn (dict_item case_data "case_number") ;;
              existing_case <- case_by_number env label ;;
              match existing_case with
              | None => save_new_case env court result
              | Some _ => ret tt
              end ;;
              session_add (OQuery query_record) ;;
              session_commit env ;;
              prediction <- lift_rng (CaseAnalytics.predict_case_outcome env case_data) ;;
              ret (JsonResult
                     (Result.Build (Result.case_data result) (Result.orders result)
                        (Result.response_time_ms result) (Result.success result)
                        (Some prediction)))
          end
      end
  end.

(** The route: a request starts a session on the committed database;
    whatever the [try] block raises is answered by the [except] clause;
    when the request ends the session is removed. *)
Definition search_case (env : Env) (request : Body) (p : Process) : Response * Process :=
  let '(r, st) := search_case_body env request (MkState p (db p) []) in
  let response :=
    match r with
    | inr response => response
    | inl _ => JsonError "Internal server error" 500
    end in
  (response, teardown st).

(** ** The remaining analytics and routes *)

Module StatusCount.
Record t : Type := Build { status : string; count : Z }.
End StatusCount.

(** [CaseAnalytics.get_status_distribution]: the list literal is built
    left to right, one draw per entry. *)
Definition get_status_distribution (env : Env) : Rnd (list StatusCount.t) :=
  pending <- randint env 100 300 ;;
  disposed <- randint env 50 150 ;;
  transferred <- randint env 10 50 ;;
  adjourned <- randint env 20 80 ;;
  ret [ StatusCount.Build "Pending" pending;
        StatusCount.Build "Disposed" disposed;
        StatusCount.Build "Transferred" transferred;
        StatusCount.Build "Adjourned" adjourned ].

Module Analytics.
Record t : Type := Build {
  trends : list Trend.t;
  status_distribution : list StatusCount.t
}.
End Analytics.

(** The answer of [/api/analytics]: the two series with status 200, or
    the error of the [except] clause. *)
Inductive AnalyticsResponse : Type :=
  | AnalyticsJson (a : Analytics.t)
  | AnalyticsError (msg : string) (status : Z).

(** The route [/api/analytics]; the draws come from the generator of the
    process. *)
Definition get_analytics (env : Env) (p : Process) : AnalyticsResponse * Process :=
  let body : Rnd Analytics.t :=
    trends <- CaseAnalytics.get_case_trends env ;;
    status_dist <- get_status_distribution env ;;
    ret (Analytics.Build trends status_dist) in
  let '(r, n) := body (rng p) in
  (match r with
   | inr a => AnalyticsJson a
   | inl _ => AnalyticsError "Failed to get analytics" 500
   end,
   MkProcess (db p) (ecourts_district p) n).

Module Court.
Record t : Type := Build { id : string; name : string; type : string }.
End Court.

(** The list [/api/courts] answers with. *)
Definition get_courts : list Court.t :=
  [ Court.Build "delhi-high" "Delhi High Court" "High Court";
    Court.Build "supreme" "Supreme Court of India" "Supreme Court";
    Court.Build "bombay-high" "Bombay High Court" "High Court";
    Court.Build "delhi-district" "Delhi District Courts" "District Court";
    Court.Build "faridabad-district" "Faridabad District Court" "District Court" ].

(** * Specification vocabulary *)

(** The notions the properties below are stated with: what a transaction
    wrote, what a scraper returned, what a request left behind, and sample
    requests to run the route on. *)

(** The rows of each kind among the objects of a transaction. *)
Definition queries_of (os : list obj) : list CaseQuery.t :=
  omap (fun o => match o with OQuery q => Some q | _ => None end) os.

Definition cases_of (os : list obj) : list CaseData.t :=
  omap (fun o => match o with OCase c => Some c | _ => None end) os.

Definition orders_of (os : list obj) : list CaseOrder.t :=
  omap (fun o => match o with OOrder o => Some o | _ => None end) os.

(** The tables after the rows [os] have been appended. *)
Definition db_add_all (os : list obj) (d : DB.t) : DB.t :=
  DB.Build (DB.case_query d ++ queries_of os)
           (DB.case_data d ++ cases_of os)
           (DB.case_order d ++ orders_of os).

(** The case numbers in use. *)
Definition case_numbers (d : DB.t) : list pyval :=
  CaseData.case_number <$> DB.case_data d.

(** An object and the row the INSERT made of it: the columns hold what
    the application set, the text columns as text, and the key is new. *)
Inductive persisted (d : DB.t) : obj -> obj -> Prop :=
  | persisted_query q q' :
      CaseQuery.success q' = CaseQuery.success q ->
      CaseQuery.raw_response q' = CaseQuery.raw_response q ->
      CaseQuery.parsed_data q' = CaseQuery.parsed_data q ->
      CaseQuery.response_time_ms q' = CaseQuery.response_time_ms q ->
      CaseQuery.court_name q' = column_text (CaseQuery.court_name q) ->
      CaseQuery.case_type q' = column_text (CaseQuery.case_type q) ->
      CaseQuery.case_number q' = column_text (CaseQuery.case_number q) ->
      CaseQuery.filing_year q' = CaseQuery.filing_year q ->
      is_none (CaseQuery.court_name q') = false ->
      is_none (CaseQuery.case_type q') = false ->
      is_none (CaseQuery.case_number q') = false ->
      persisted d (OQuery q) (OQuery q')
  | persisted_case c c' :
      CaseData.case_number c' = column_text (CaseData.case_number c) ->
      CaseData.court_name c' = column_text (CaseData.court_name c) ->
      CaseData.filing_date c' = CaseData.filing_date c ->
      CaseData.next_hearing_date c' = CaseData.next_hearing_date c ->
      CaseData.id c' = Some (next_id (CaseData.id <$> DB.case_data d)) ->
      CaseData.case_number c' ∉ case_numbers d ->
      persisted d (OCase c) (OCase c')
  | persisted_order o o' :
      CaseOrder.case_id o' = CaseOrder.case_id o ->
      CaseOrder.order_date o' = CaseOrder.order_date o ->
      CaseOrder.order_description o' = column_text (CaseOrder.order_description o) ->
      persisted d (OOrder o) (OOrder o').

(** The rows of a flush, each persisted on top of the ones before it. *)
Inductive persisted_all : DB.t -> list obj -> list obj -> Prop :=
  | persisted_nil d : persisted_all d [] []
  | persisted_cons d o o' os os' :
      persisted d o o' ->
      persisted_all (db_add_all [o'] d) os os' ->
      persisted_all d (o :: os) (o' :: os').

(** The keys of the [case_data] dictionary [generate_mock_data] builds. *)
Definition payload_keys : gset string :=
  {[ "case_number"; "petitioner"; "respondent"; "filing_date"; "next_hearing";
     "status"; "judge" ]}.

(** The two shapes of the pair [scrape_case_data] returns. *)
Inductive scraped : option Result.t * option string -> Prop :=
  | scraped_result r label :
      Result.case_data r !! "case_number" = Some (PyStr label) ->
      dom (Result.case_data r) = payload_keys ->
      Result.case_data r !! "case_type" = None ->
      Result.success r = true ->
      Result.ai_prediction r = None ->
      length (Result.orders r) = 2%nat ->
      scraped (Some r, None)
  | scraped_error c msg :
      c <> "I"%char ->
      scraped (None, Some (String c msg)).

Definition supported (court : pyval) : Prop := court ∈ PyStr <$> supported_courts.

#[global] Instance supported_dec court : Decision (supported court).
Proof. unfold supported. apply _. Defined.

(** The session as a request left it: same committed database, same
    transaction, same pending objects. *)
Definition same_session (st st' : State) : Prop :=
  db (proc st') = db (proc st) /\ txn st' = txn st /\ pending st' = pending st.

(** A successful answer: the payload carries the label and no case type,
    and the prediction added to it was computed from that payload. *)
Definition answered (env : Env) (r : Result.t) (label : pyval) : Prop :=
  Result.case_data r !! "case_number" = Some label
  /\ dom (Result.case_data r) = payload_keys
  /\ Result.case_data r !! "case_type" = None
  /\ Result.success r = true
  /\ exists prediction n n',
       Result.ai_prediction r = Some prediction
       /\ CaseAnalytics.predict_case_outcome env (Result.case_data r) n
          = (inr prediction, n').

(** The row of the query log a request leaves: its columns are the
    request's fields, the case type and number in the text form their
    columns hold, none of them NULL, the court a supported one. *)
Definition logged (request : Body) (q : CaseQuery.t) : Prop :=
  exists data,
    request = BodyObject data
    /\ CaseQuery.court_name q = dict_get data "court"
    /\ CaseQuery.case_type q = column_text (dict_get data "case_type")
    /\ CaseQuery.case_number q = column_text (dict_get data "case_number")
    /\ py_int (dict_get data "filing_year") = inr (CaseQuery.filing_year q)
    /\ supported (CaseQuery.court_name q)
    /\ is_none (CaseQuery.case_type q) = false
    /\ is_none (CaseQuery.case_number q) = false.

(** Everything a request can answer, with what it leaves in the
    database. *)
Inductive search_outcome (env : Env) (request : Body) (p : Process)
    : Response -> Process -> Prop :=
  | outcome_internal_error p' :
      db p' = db p ->
      search_outcome env request p (JsonError "Internal server error" 500) p'
  | outcome_unsupported data filing_year :
      request = BodyObject data ->
      py_int (dict_get data "filing_year") = inr filing_year ->
      ~ supported (dict_get data "court") ->
      search_outcome env request p (JsonError "Unsupported court selected" 400) p
  | outcome_scrape_error c msg q p' :
      flush_fault env = false -> commit_fault env = false ->
      c <> "I"%char ->
      logged request q ->
      db p' = db_add_all [OQuery q] (db p) ->
      CaseQuery.success q = false ->
      CaseQuery.raw_response q = Some (String c msg) ->
      search_outcome env request p (JsonError (String c msg) 500) p'
  | outcome_known_case r label q p' :
      flush_fault env = false -> commit_fault env = false ->
      select_fault env = false ->
      answered env r label ->
      logged request q ->
      label ∈ case_numbers (db p) ->
      db p' = db_add_all [OQuery q] (db p) ->
      CaseQuery.success q = true ->
      search_outcome env request p (JsonResult r) p'
  | outcome_new_case r label q c os p' :
      flush_fault env = false -> commit_fault env = false ->
      select_fault env = false ->
      answered env r label ->
      logged request q ->
      label ∉ case_numbers (db p) ->
      db p' = db_add_all (OCase c :: (OOrder <$> os) ++ [OQuery q]) (db p) ->
      CaseQuery.success q = true ->
      CaseData.case_number c = label ->
      CaseData.id c = Some (next_id (CaseData.id <$> DB.case_data (db p))) ->
      Forall (fun o => CaseOrder.case_id o = CaseData.id c) os ->
      length os = length (Result.orders r) ->
      search_outcome env request p (JsonResult r) p'.

(** A sample environment (no storage fault) and a process starting on an
    empty database. *)
Definition sample_env : Env :=
  MkEnv (fun n => Z.of_nat n * 7 + 3) 2600
        (DateTime (Date 2025 1 31) 36000000000)
        (DateTime (Date 2025 1 31) 55800000000)
        false false false.

Definition fresh_process : Process := MkProcess DB.empty "faridabad" 0.

(** The JSON object [{court, case_type, case_number, filing_year}]. *)
Definition search_request (court case_type case_number filing_year : pyval) : Body :=
  BodyObject
    (<["court" := court]>
     (<["case_type" := case_type]>
      (<["case_number" := case_number]>
       (<["filing_year" := filing_year]> ∅)))).

(** [filing_year = int(data.get('filing_year'))] on the decoded body. *)
Definition request_year (request : Body) : exn + Z :=
  match get_json request with
  | inl e => inl e
  | inr data => py_int (dict_get data "filing_year")
  end.

(** The label [generate_mock_data] puts under ['case_number']. *)
Definition generated_label (env : Env) (case_type case_number : pyval)
    (filing_year : Z) (court_name : string) (n : nat) : option pyval :=
  match BaseScraper.generate_mock_data env case_type case_number filing_year
          court_name n with
  | (inr (case_data, _), _) => case_data !! "case_number"
  | (inl _, _) => None
  end.

(** A scrape that returned a result and no error. *)
Definition scrape_succeeds
    (out : (exn + (option Result.t * option string)) * nat) : Prop :=
  exists r n', out = (inr (Some r, None), n') /\ Result.success r = true.

(** A first search for writ petition 123 of 2023 at the Delhi High Court. *)
Definition sample_request : Body :=
  search_request (PyStr "delhi-high") (PyStr "writ") (PyStr "123") (PyInt 2023).

Definition sample_search : Response * Process :=
  search_case sample_env sample_request fresh_process.

Definition sample_result : Result.t :=
  match sample_search.1 with
  | JsonResult r => r
  | JsonError _ _ => Result.Build ∅ [] 0 false None
  end.

(** The log rows the dashboard counts for the current day. *)
Definition todays (env : Env) (d : DB.t) : list CaseQuery.t :=
  filter (fun q => CaseAnalytics.since (dt_date (now env)) q = true) (DB.case_query d).

(** The response times on record, rows without one left out. *)
Definition response_times (qs : list CaseQuery.t) : list Z :=
  omap CaseQuery.response_time_ms qs.

Definition sum_Z (xs : list Z) : Z := fold_right Z.add 0 xs.

(** A sequence of requests served one after the other. *)
Fixpoint run (steps : list (Env * Body)) (p : Process) : Process :=
  match steps with
  | [] => p
  | (env, request) :: rest => run rest (search_case env request p).2
  end.

(** The case records carrying a label, and the orders owned by a record. *)
Definition cases_labelled (label : pyval) (d : DB.t) : list CaseData.t :=
  filter (fun c => CaseData.case_number c = label) (DB.case_data d).

Definition orders_of_case (c : CaseData.t) (d : DB.t) : list CaseOrder.t :=
  filter (fun o => CaseOrder.case_id o = CaseData.id c) (DB.case_order d).

(** What later requests may do to the case and order tables: the cases
    on file stay, with the rows of their label and the orders owned by
    them as they are, and the labels stay unique. *)
Definition db_grows (d d' : DB.t) : Prop :=
  (forall c, c ∈ DB.case_data d -> c ∈ DB.case_data d')
  /\ (forall label, label ∈ case_numbers d ->
        cases_labelled label d' = cases_labelled label d)
  /\ (forall c, c ∈ DB.case_data d -> orders_of_case c d' = orders_of_case c d)
  /\ (NoDup (case_numbers d) -> NoDup (case_numbers d')).

(** A second request for the same case, after a search at another court. *)
Definition other_request : Body :=
  search_request (PyStr "supreme") (PyStr "appeal") (PyStr "77") (PyInt 2021).

Definition sample_search_again : Response * Process :=
  search_case sample_env sample_request
    (run [(sample_env, other_request)] sample_search.2).

Definition sample_result_again : Result.t :=
  match sample_search_again.1 with
  | JsonResult r => r
  | JsonError _ _ => Result.Build ∅ [] 0 false None
  end.

(** ** Rows as the database stores them *)

(** The row an INSERT makes of an object on the tables [d]: the next key
    of its table, the text columns as text, and the current UTC time
    where the model defaults a timestamp. *)
Definition stamp (env : Env) (d : DB.t) (o : obj) : obj :=
  match o with
  | OQuery q =>
      OQuery (CaseQuery.Build
                (Some (next_id (CaseQuery.id <$> DB.case_query d)))
                (column_text (CaseQuery.court_name q))
                (column_text (CaseQuery.case_type q))
                (column_text (CaseQuery.case_number q)) (CaseQuery.filing_year q)
                (Some (default (utcnow env) (CaseQuery.query_timestamp q)))
                (CaseQuery.success q) (CaseQuery.response_time_ms q)
                (CaseQuery.raw_response q) (CaseQuery.parsed_data q))
  | OCase c =>
      OCase (CaseData.Build
               (Some (next_id (CaseData.id <$> DB.case_data d)))
               (column_text (CaseData.case_number c))
               (column_text (CaseData.court_name c))
               (column_text (CaseData.petitioner c))
               (column_text (CaseData.respondent c))
               (CaseData.filing_date c) (CaseData.next_hearing_date c)
               (column_text (CaseData.case_status c))
               (column_text (CaseData.judge_name c))
               (Some (default (utcnow env) (CaseData.last_updated c))))
  | OOrder o =>
      OOrder (CaseOrder.Build
                (Some (next_id (CaseOrder.id <$> DB.case_order d)))
                (CaseOrder.case_id o) (CaseOrder.order_date o)
                (column_text (CaseOrder.order_description o)) (CaseOrder.pdf_link o)
                (CaseOrder.judge_name o))
  end.

(** The rows of a list of objects inserted one after the other. *)
Fixpoint stamp_all (env : Env) (d : DB.t) (os : list obj) : list obj :=
  match os with
  | [] => []
  | o :: os' =>
      stamp env d o :: stamp_all env (db_add_all [stamp env d o] d) os'
  end.

(** The [CaseOrder] object one turn of the order loop builds. *)
Definition order_of (case_id : option Z) (order : pydict) : exn + CaseOrder.t :=
  match dict_item order "date" with
  | inl e => inl e
  | inr date_text =>
      match strptime_ymd date_text with
      | inl e => inl e
      | inr order_date =>
          match dict_item order "description" with
          | inl e => inl e
          | inr description =>
              inr (CaseOrder.Build None case_id order_date description None None)
          end
      end
  end.

(** The [CaseData] object built for a first sighting. *)
Definition new_case_of (court : pyval) (case_data : pydict) (label : pyval)
    (filing_date next_hearing_date : date) : CaseData.t :=
  CaseData.Build None label court
    (dict_get case_data "petitioner") (dict_get case_data "respondent")
    filing_date next_hearing_date
    (dict_get case_data "status") (dict_get case_data "judge") None.

(** The [CaseQuery] object of a request, as it stands when it is added to
    the session. *)
Definition query_record_of (data : pydict) (filing_year : Z) (success : bool)
    (response_time_ms : option Z) (raw_response : option string)
    (parsed_data : option Result.t) : CaseQuery.t :=
  CaseQuery.Build None (dict_get data "court") (dict_get data "case_type")
    (dict_get data "case_number") filing_year None
    success response_time_ms raw_response parsed_data.

(** [result['ai_prediction'] = prediction]. *)
Definition with_prediction (r : Result.t) (prediction : Prediction.t) : Result.t :=
  Result.Build (Result.case_data r) (Result.orders r) (Result.response_time_ms r)
    (Result.success r) (Some prediction).

(** [datetime.strptime(d[key], '%Y-%m-%d').date()]. *)
Definition date_item (d : pydict) (key : string) : exn + date :=
  match dict_item d key with
  | inl e => inl e
  | inr text => strptime_ymd text
  end.

(** The rows of orders numbered from key [k] on. *)
Fixpoint number_orders (k : Z) (os : list CaseOrder.t) : list CaseOrder.t :=
  match os with
  | [] => []
  | o :: os' =>
      CaseOrder.Build (Some k) (CaseOrder.case_id o) (CaseOrder.order_date o)
        (column_text (CaseOrder.order_description o)) (CaseOrder.pdf_link o)
        (CaseOrder.judge_name o)
      :: number_orders (k + 1) os'
  end.

(** The three rows kinds a first sighting stores, as functions of the
    tables before the request. *)
Definition case_row (env : Env) (d : DB.t) (c : CaseData.t) : CaseData.t :=
  match stamp env d (OCase c) with
  | OCase c' => c'
  | _ => c
  end.

Definition query_row (env : Env) (d : DB.t) (q : CaseQuery.t) : CaseQuery.t :=
  match stamp env d (OQuery q) with
  | OQuery q' => q'
  | _ => q
  end.

Definition order_rows (d : DB.t) (os : list CaseOrder.t) : list CaseOrder.t :=
  number_orders (next_id (CaseOrder.id <$> DB.case_order d)) os.

(** ** Integrity of the tables *)

(** Every order refers to a case on file. *)
Definition orders_resolve (d : DB.t) : Prop :=
  forall o, o ∈ DB.case_order d ->
    exists c k, c ∈ DB.case_data d
                /\ CaseData.id c = Some k /\ CaseOrder.case_id o = Some k.

(** The keys of a table: all assigned, no two alike. *)
Definition keys_distinct (ids : list (option Z)) : Prop :=
  NoDup ids /\ Forall is_Some ids.

Definition primary_keys (d : DB.t) : Prop :=
  keys_distinct (CaseQuery.id <$> DB.case_query d)
  /\ keys_distinct (CaseData.id <$> DB.case_data d)
  /\ keys_distinct (CaseOrder.id <$> DB.case_order d).

(** ** What the stored rows say *)

(** An order row against the order dictionary it was made from. *)
Definition order_mirrors (case_id : option Z) (order : pydict) (o : CaseOrder.t) : Prop :=
  date_item order "date" = inr (CaseOrder.order_date o)
  /\ order !! "description" = Some (CaseOrder.order_description o)
  /\ CaseOrder.case_id o = case_id
  /\ CaseOrder.pdf_link o = None
  /\ CaseOrder.judge_name o = None.

(** The result as the scraper returned it, before the prediction was
    attached. *)
Definition without_prediction (r : Result.t) : Result.t :=
  Result.Build (Result.case_data r) (Result.orders r) (Result.response_time_ms r)
    (Result.success r) None.

(** A clock on which the UTC day is still the day before the local
    day. *)
Definition late_evening_utc_env : Env :=
  MkEnv (fun n => Z.of_nat n * 7 + 3) 2600
        (DateTime (Date 2025 1 30) 84600000000)
        (DateTime (Date 2025 1 31) 18000000000)
        false false false.

(** ** Generated payloads *)

(** The [case_data] and order dictionaries [generate_mock_data] builds
    from the values it drew. *)
Definition mock_case_data
    (label petitioner respondent filing_date next_hearing status judge : string)
    : pydict :=
  <["case_number" := PyStr label]>
  (<["petitioner" := PyStr petitioner]>
  (<["respondent" := PyStr respondent]>
  (<["filing_date" := PyStr filing_date]>
  (<["next_hearing" := PyStr next_hearing]>
  (<["status" := PyStr status]>
  (<["judge" := PyStr judge]> ∅)))))).

Definition mock_order (date description : string) : pydict :=
  <["date" := PyStr date]> (<["description" := PyStr description]> ∅).

(** The text [f'{year}-{month:02d}-{day:02d}']. *)
Definition date_text (year : string) (month day : Z) : string :=
  year +:+ "-" +:+ fmt_02d month +:+ "-" +:+ fmt_02d day.

(** A result of the shape every scraper returns: names drawn from the
    fixed tables, a filing day in the filing year (month 1-12, day 1-28),
    a next hearing from August to December 2025, a first order in July
    2025 and a second order on the filing day. *)
Definition mock_payload (env : Env) (filing_year : Z) (label : string)
    (r : Result.t) : Prop :=
  exists petitioner respondent status judge description fm fd hm hd od,
    petitioner ∈ BaseScraper.petitioners
    /\ respondent ∈ BaseScraper.respondents
    /\ status ∈ ["pending"; "disposed"]
    /\ judge ∈ BaseScraper.judges
    /\ description ∈ BaseScraper.order_descriptions
    /\ 1 <= fm <= 12 /\ 1 <= fd <= 28
    /\ 8 <= hm <= 12 /\ 1 <= hd <= 28
    /\ 1 <= od <= 30
    /\ r = Result.Build
             (mock_case_data label petitioner respondent
                (date_text (str_of_int filing_year) fm fd)
                (date_text "2025" hm hd) status judge)
             [ mock_order (date_text "2025" 7 od) description;
               mock_order (date_text (str_of_int filing_year) fm fd)
                 "Petition filed. Urgent hearing requested." ]
             (elapsed_ms env) true None.

(** The court name each branch of the dispatch hands to
    [generate_mock_data]. *)
Definition court_key (court : pyval) : option string :=
  if decide (court = PyStr "delhi-high") then Some "delhi-high"
  else if decide (court = PyStr "supreme") then Some "supreme"
  else if decide (court = PyStr "bombay-high") then Some "bombay-high"
  else if decide (court = PyStr "delhi-district") then Some "delhi-district"
  else if decide (court = PyStr "faridabad-district") then Some "faridabad-district"
  else None.

(** ** What a search leaves behind *)

(** What a request answers and writes, row for row.  Either nothing is
    written and the answer is not a success; or the court is one of the
    dispatch and the label could not be built, the error text is
    answered and logged; or the label was built, the payload generated
    and the log row written, together with the case and its orders when
    the label was not on file. *)
Inductive search_effect (env : Env) (request : Body) (p : Process)
    : Response -> Process -> Prop :=
  | effect_nothing response p' :
      db p' = db p ->
      status_code response <> 200 ->
      search_effect env request p response p'
  | effect_scrape_error data filing_year key e p' :
      request = BodyObject data ->
      py_int (dict_get data "filing_year") = inr filing_year ->
      court_key (dict_get data "court") = Some key ->
      BaseScraper.case_num (dict_get data "case_type") (dict_get data "case_number")
        filing_year key = inl e ->
      db p' = db_add_all
                (stamp_all env (db p)
                   [OQuery (query_record_of data filing_year false None
                              (Some (exn_msg e)) None)])
                (db p) ->
      search_effect env request p (JsonError (exn_msg e) 500) p'
  | effect_known_case data filing_year key r label prediction n n' p' :
      request = BodyObject data ->
      py_int (dict_get data "filing_year") = inr filing_year ->
      court_key (dict_get data "court") = Some key ->
      BaseScraper.case_num (dict_get data "case_type") (dict_get data "case_number")
        filing_year key = inr label ->
      mock_payload env filing_year label r ->
      PyStr label ∈ case_numbers (db p) ->
      CaseAnalytics.predict_case_outcome env (Result.case_data r) n
      = (inr prediction, n') ->
      db p' = db_add_all
                (stamp_all env (db p)
                   [OQuery (query_record_of data filing_year true
                              (Some (Result.response_time_ms r)) None (Some r))])
                (db p) ->
      search_effect env request p (JsonResult (with_prediction r prediction)) p'
  | effect_new_case data filing_year key r label filing_date next_hearing_date os
      prediction n n' p' :
      request = BodyObject data ->
      py_int (dict_get data "filing_year") = inr filing_year ->
      court_key (dict_get data "court") = Some key ->
      BaseScraper.case_num (dict_get data "case_type") (dict_get data "case_number")
        filing_year key = inr label ->
      mock_payload env filing_year label r ->
      PyStr label ∉ case_numbers (db p) ->
      date_item (Result.case_data r) "filing_date" = inr filing_date ->
      date_item (Result.case_data r) "next_hearing" = inr next_hearing_date ->
      Forall2
        (fun order o =>
           order_of (Some (next_id (CaseData.id <$> DB.case_data (db p)))) order
           = inr o)
        (Result.orders r) os ->
      CaseAnalytics.predict_case_outcome env (Result.case_data r) n
      = (inr prediction, n') ->
      db p' = db_add_all
                (stamp_all env (db p)
                   (OCase (new_case_of (dict_get data "court") (Result.case_data r)
                             (PyStr label) filing_date next_hearing_date)
                    :: (OOrder <$> os)
                    ++ [OQuery (query_record_of data filing_year true
                                  (Some (Result.response_time_ms r)) None (Some r))]))
                (db p) ->
      search_effect env request p (JsonResult (with_prediction r prediction)) p'.

(** ** Years and dates as text *)

(** The decimal text of [y] is four digits that read [y]. *)
Definition four_digit_text (y : Z) : bool :=
  match str_of_int y with
  | String a (String b (String c (String d EmptyString))) =>
      match two_digits a b, two_digits c d with
      | Some hi, Some lo => 100 * hi + lo =? y
      | _, _ => false
      end
  | _ => false
  end.

(** The decimal text of [y] has fewer than four characters. *)
Definition short_text (y : Z) : bool := (String.length (str_of_int y) <? 4)%nat.

(** ** Further sample requests *)

(** A district-court search whose case type is the number 5. *)
Definition numeric_type_data : pydict :=
  <["court" := PyStr "delhi-district"]>
  (<["case_type" := PyInt 5]>
  (<["case_number" := PyStr "123"]>
  (<["filing_year" := PyInt 2023]> ∅))).

Definition numeric_type_search : Response * Process :=
  search_case sample_env (BodyObject numeric_type_data) fresh_process.

(** The body of [sample_request]. *)
Definition sample_data : pydict :=
  <["court" := PyStr "delhi-high"]>
  (<["case_type" := PyStr "writ"]>
  (<["case_number" := PyStr "123"]>
  (<["filing_year" := PyInt 2023]> ∅))).

(** A Supreme Court search for an appeal filed in the year 999. *)
Definition early_year_data : pydict :=
  <["court" := PyStr "supreme"]>
  (<["case_type" := PyStr "appeal"]>
  (<["case_number" := PyStr "77"]>
  (<["filing_year" := PyInt 999]> ∅))).

(** Two requests served one after the other. *)
Definition sample_steps : list (Env * Body) :=
  [(sample_env, sample_request); (sample_env, other_request)].

(** ** Requests in ASCII text *)

(** The filing year of the request, when it is a string, is of ASCII
    text: [int()] is modelled on such text. *)
Definition ascii_year (request : Body) : bool :=
  match request with
  | BodyObject data => ascii_value (dict_get data "filing_year")
  | _ => true
  end.

(** A filing year that opens with the unit separator, which [int()] does
    not take for white space, at a court outside the dispatch. *)
Definition separator_year_request : Body :=
  search_request (PyStr "madras-high") (PyStr "civil") (PyStr "1")
    (PyStr (String (ascii_of_nat 31) "2023")).

(** ** Upper case, letter by letter *)

Definition small_letters : list ascii :=
  list_ascii_of_string "abcdefghijklmnopqrstuvwxyz".

Definition capital_letters : list ascii :=
  list_ascii_of_string "ABCDEFGHIJKLMNOPQRSTUVWXYZ".

(** The capital of a small letter is the letter at the same place of the
    alphabet; any other character stands for itself. *)
Inductive capital_of : ascii -> ascii -> Prop :=
  | capital_letter k c C :
      small_letters !! k = Some c -> capital_letters !! k = Some C ->
      capital_of c C
  | capital_other c :
      c ∉ small_letters -> capital_of c c.

(** [up] is the text [t] in upper case. *)
Definition upper_case_of (t up : string) : Prop :=
  Forall2 capital_of (list_ascii_of_string t) (list_ascii_of_string up).

(** ** The rows of a day *)

(** The day [a] is before the day [b] on the calendar. *)
Definition day_before (a b : date) : Prop :=
  year a < year b
  \/ (year a = year b
      /\ (month a < month b \/ (month a = month b /\ day a < day b))).

#[global] Instance day_before_dec a b : Decision (day_before a b).
Proof. unfold day_before. apply _. Defined.

(** A row carrying a timestamp that is not before the start of the day
    [today]. *)
Definition stamped_since (today : date) (q : CaseQuery.t) : Prop :=
  match CaseQuery.query_timestamp q with
  | Some t => ~ day_before (dt_date t) today
  | None => False
  end.

#[global] Instance stamped_since_dec today q : Decision (stamped_since today q).
Proof. unfold stamped_since. destruct (CaseQuery.query_timestamp q); apply _. Defined.

(** The rows of the log stamped on the current day or later, and the
    successful rows of a list. *)
Definition rows_since (today : date) (d : DB.t) : list CaseQuery.t :=
  filter (stamped_since today) (DB.case_query d).

Definition successful (qs : list CaseQuery.t) : list CaseQuery.t :=
  filter (fun q => CaseQuery.success q = true) qs.

(** A dashboard read on the morning of 15 March 2025. *)
Definition march_env : Env :=
  MkEnv (fun n => Z.of_nat n * 7 + 3) 2600
        (DateTime (Date 2025 3 15) 14400000000)
        (DateTime (Date 2025 3 15) 34200000000)
        false false false.

Definition log_row (id : Z) (stamp : datetime) (success : bool)
    (response_time_ms : option Z) : CaseQuery.t :=
  CaseQuery.Build (Some id) (PyStr "delhi-high") (PyStr "writ") (PyStr "123") 2023
    (Some stamp) success response_time_ms None None.

(** A log whose rows are all of earlier days: the last microsecond of the
    day before, a later day of an earlier month, a later month of an
    earlier year. *)
Definition quiet_log : DB.t :=
  DB.Build
    [ log_row 1 (DateTime (Date 2024 12 31) 43200000000) true (Some 1900);
      log_row 2 (DateTime (Date 2025 2 28) 43200000000) true (Some 2100);
      log_row 3 (DateTime (Date 2025 3 14) 86399999999) false None ]
    [] [].

(** The same rows followed by four of the day or later (midnight sharp,
    the afternoon, an earlier day of a later month, an earlier month of a
    later year), three of them successful. *)
Definition busy_log : DB.t :=
  DB.Build
    (DB.case_query quiet_log
     ++ [ log_row 4 (DateTime (Date 2025 3 15) 0) true (Some 2000);
          log_row 5 (DateTime (Date 2025 3 15) 54000000000) false (Some 9000);
          log_row 6 (DateTime (Date 2025 4 1) 0) true (Some 2500);
          log_row 7 (DateTime (Date 2026 1 2) 0) true (Some 2500) ])
    [] [].

(** ** A store that fails *)

(** The sample environment with a store that fails on commit. *)
Definition commit_fault_env : Env :=
  MkEnv (fun n => Z.of_nat n * 7 + 3) 2600
        (DateTime (Date 2025 1 31) 36000000000)
        (DateTime (Date 2025 1 31) 55800000000)
        false false true.

Definition failed_search : Response * Process :=
  search_case commit_fault_env sample_request fresh_process.

(** ** The district of the shared eCourts scraper *)

(** A step of the request that leaves [ecourts_scraper.district] as it
    found it, whether it returns or raises. *)
Definition keeps_district {A} (c : M A) : Prop :=
  forall st r st',
    c st = (r, st') -> ecourts_district (proc st') = ecourts_district (proc st).

(** [ecourts_scraper.district] once the dispatch has run for [court]. *)
Definition district_after (court : pyval) (district : string) : string :=
  if decide (court = PyStr "delhi-district") then "delhi"
  else if decide (court = PyStr "faridabad-district") then "faridabad"
  else district.

(** * Properties *)

(** ** What a transaction writes *)

Lemma db_add_all_nil d : db_add_all [] d = d.
Proof. destruct d. unfold db_add_all. simpl. by rewrite !app_nil_r. Qed.

Lemma db_add_all_cons o os d :
  db_add_all (o :: os) d = db_add_all os (db_add_all [o] d).
Proof.
  unfold db_add_all. destruct o; simpl; rewrite ?app_nil_r, <- ?app_assoc; done.
Qed.

Lemma db_add_all_app os1 os2 d :
  db_add_all (os1 ++ os2) d = db_add_all os2 (db_add_all os1 d).
Proof.
  revert d. induction os1 as [|o os1 IH]; intros d; simpl.
  - by rewrite db_add_all_nil.
  - rewrite db_add_all_cons, IH. by rewrite <- db_add_all_cons.
Qed.

Lemma insert_spec env o d o' d' :
  insert env o d = inr (o', d') ->
  d' = db_add_all [o'] d /\ persisted d o o'.
Proof.
  unfold insert. destruct o as [q|c|o].
  - repeat case_match; try discriminate. intros [= <- <-].
    split; [unfold db_add_all; simpl; by rewrite !app_nil_r|].
    by constructor.
  - repeat case_match; try discriminate. intros [= <- <-].
    split; [unfold db_add_all; simpl; by rewrite !app_nil_r|].
    constructor; try done.
    by match goal with H : bool_decide _ = false |- _ =>
         apply bool_decide_eq_false in H end.
  - repeat case_match; try discriminate. intros [= <- <-].
    split; [unfold db_add_all; simpl; by rewrite !app_nil_r|].
    by constructor.
Qed.

Lemma insert_all_spec env os : forall d os' d',
  insert_all env os d = inr (os', d') ->
  d' = db_add_all os' d /\ persisted_all d os os'.
Proof.
  induction os as [|o os IH]; intros d os' d'; simpl.
  - intros [= <- <-]. split; [by rewrite db_add_all_nil | constructor].
  - destruct (insert env o d) as [e|[o1 d1]] eqn:Hins; [discriminate|].
    destruct (insert_all env os d1) as [e|[os1 d2]] eqn:Hall; [discriminate|].
    intros [= <- <-].
    apply insert_spec in Hins as [-> Hp].
    apply IH in Hall as [-> Hps].
    split; [by rewrite <- db_add_all_cons | by constructor].
Qed.

(** ** What a scraper returns *)

Lemma case_num_error case_type case_number filing_year court_name e :
  BaseScraper.case_num case_type case_number filing_year court_name = inl e ->
  exists c msg, exn_msg e = String c msg /\ c <> "I"%char.
Proof.
  unfold BaseScraper.case_num, BaseScraper.case_types_get, py_upper.
  repeat case_match; intros; simplify_eq; simpl; eauto.
Qed.

Lemma scrape_scraped env base lo hi court_name case_type case_number filing_year n :
  exists out n',
    BaseScraper.scrape env base lo hi court_name case_type case_number filing_year n
    = (inr out, n') /\ scraped out.
Proof.
  destruct (BaseScraper.case_num case_type case_number filing_year court_name)
    as [e|label] eqn:Hnum.
  - destruct (case_num_error _ _ _ _ _ Hnum) as (c & msg & Hmsg & Hc).
    cbv [BaseScraper.scrape BaseScraper.generate_mock_data BaseScraper.sleep
         try_except bind ret lift_exn uniform random randbelow].
    rewrite Hnum, Hmsg. eexists _, _. split; [reflexivity | by constructor].
  - cbv [BaseScraper.scrape BaseScraper.generate_mock_data BaseScraper.sleep
         try_except bind ret lift_exn uniform random randbelow randint choice
         fst snd].
    rewrite Hnum. eexists _, _. split; [reflexivity|].
    econstructor; [reflexivity| |reflexivity..].
    cbn [Result.case_data]. unfold payload_keys.
    rewrite !dom_insert_L, dom_empty_L, (right_id_L ∅ (∪)), !(assoc_L (∪)).
    reflexivity.
Qed.

Lemma lift_rng_scrape env base lo hi court_name case_type case_number filing_year st :
  exists out st',
    lift_rng (BaseScraper.scrape env base lo hi court_name case_type case_number
                filing_year) st = (inr out, st')
    /\ same_session st st' /\ scraped out.
Proof.
  destruct (scrape_scraped env base lo hi court_name case_type case_number
              filing_year (rng (proc st))) as (out & n' & Heq & Hout).
  unfold lift_rng. rewrite Heq. by eexists _, _.
Qed.

Lemma choose_scraper_spec env court case_type case_number filing_year st :
  exists chosen st',
    choose_scraper env court case_type case_number filing_year st = (inr chosen, st')
    /\ same_session st st'
    /\ match chosen with
       | None => st' = st /\ ~ supported court
       | Some out => supported court /\ scraped out
       end.
Proof.
  unfold choose_scraper, supported, supported_courts.
  destruct (decide (court = PyStr "delhi-high")) as [->|H1].
  { destruct (lift_rng_scrape env 2 0.5 1.5 "delhi-high" case_type case_number
                filing_year st) as (out & st' & Heq & Hs & Hout).
    unfold bind, DelhiHighCourtScraper.scrape_case_data. rewrite Heq.
    eexists _, _. split; [reflexivity|]. split; [done|]. split; [|done].
    set_solver. }
  destruct (decide (court = PyStr "supreme")) as [->|H2].
  { destruct (lift_rng_scrape env 1.5 0.5 1.0 "supreme" case_type case_number
                filing_year st) as (out & st' & Heq & Hs & Hout).
    unfold bind, SupremeCourtScraper.scrape_case_data. rewrite Heq.
    eexists _, _. split; [reflexivity|]. split; [done|]. split; [|done].
    set_solver. }
  destruct (decide (court = PyStr "bombay-high")) as [->|H3].
  { destruct (lift_rng_scrape env 1.8 0.5 1.2 "bombay-high" case_type case_number
                filing_year st) as (out & st' & Heq & Hs & Hout).
    unfold bind, BombayHighCourtScraper.scrape_case_data. rewrite Heq.
    eexists _, _. split; [reflexivity|]. split; [done|]. split; [|done].
    set_solver. }
  destruct (bool_decide (court = PyStr "delhi-district")
            || bool_decide (court = PyStr "faridabad-district")) eqn:Hd.
  - set (district := if decide (court = PyStr "delhi-district")
                     then "delhi" else "faridabad").
    destruct (lift_rng_scrape env 1 0.5 1.0 (district +:+ "-district") case_type
                case_number filing_year (set_district district st))
      as (out & st' & Heq & Hs & Hout).
    unfold bind, ECourtsScraper.scrape_case_data. simpl. rewrite Heq.
    eexists _, _. split; [reflexivity|]. split; [done|]. split; [|done].
    apply orb_true_iff in Hd as [Hd|Hd]; apply bool_decide_eq_true in Hd;
      subst court; set_solver.
  - eexists _, _. split; [reflexivity|]. split; [done|]. split; [done|].
    apply orb_false_iff in Hd as [Ha Hb].
    apply bool_decide_eq_false in Ha, Hb. simpl. intros Hin.
    repeat (apply elem_of_cons in Hin as [->|Hin]; [done|]).
    by apply elem_of_nil in Hin.
Qed.

(** ** The session, step by step *)

Lemma flush_spec env st r st' :
  session_flush env st = (r, st') ->
  (exists e, r = inl e /\ st' = st)
  \/ (exists os, r = inr os
                /\ (pending st = [] \/ flush_fault env = false)
                /\ persisted_all (txn st) (pending st) os
                /\ st' = MkState (proc st) (db_add_all os (txn st)) []).
Proof.
  unfold session_flush. destruct (pending st) as [|o pend] eqn:Hpend.
  - intros [= <- <-]. right. exists []. rewrite db_add_all_nil.
    repeat split; [by left | constructor |].
    destruct st; simpl in *. by subst.
  - destruct (flush_fault env); [intros [= <- <-]; left; eauto|].
    destruct (insert_all env (o :: pend) (txn st)) as [e|[os d]] eqn:Hall.
    + intros [= <- <-]. left. eauto.
    + intros [= <- <-]. apply insert_all_spec in Hall as [-> Hp].
      right. eauto 10.
Qed.

Lemma flush_nothing env st r st' :
  pending st = [] ->
  session_flush env st = (r, st') ->
  st' = st /\ (r = inr [] \/ exists e, r = inl e).
Proof.
  intros Hnil Hf. apply flush_spec in Hf as [(e & -> & ->)|(os & -> & _ & Hp & ->)].
  - eauto.
  - rewrite Hnil in Hp. inversion Hp; subst. rewrite db_add_all_nil.
    destruct st; simpl in *; subst. eauto.
Qed.

Lemma commit_spec env st r st' :
  session_commit env st = (r, st') ->
  (exists e, r = inl e /\ db (proc st') = db (proc st))
  \/ (exists os, r = inr tt
                /\ (pending st = [] \/ flush_fault env = false)
                /\ commit_fault env = false
                /\ persisted_all (txn st) (pending st) os
                /\ db (proc st') = db_add_all os (txn st)).
Proof.
  unfold session_commit, bind.
  destruct (session_flush env st) as [[e|os] st1] eqn:Hf.
  - intros [= <- <-]. left.
    apply flush_spec in Hf as [(? & _ & ->)|(? & ? & _)]; [eauto | done].
  - apply flush_spec in Hf as [(? & ? & _)|(os' & [= <-] & Hff & Hp & ->)]; [done|].
    destruct (commit_fault env).
    + intros [= <- <-]. left. eauto.
    + intros [= <- <-]. right. eauto 10.
Qed.

Lemma case_by_number_spec env label st r st' :
  pending st = [] ->
  case_by_number env label st = (r, st') ->
  st' = st
  /\ ((exists e, r = inl e)
      \/ (select_fault env = false
          /\ r = inr (head (filter (fun c => CaseData.case_number c = label)
                                   (DB.case_data (txn st)))))).
Proof.
  intros Hnil. unfold case_by_number, bind.
  destruct (session_flush env st) as [[e|os] st1] eqn:Hf;
    apply flush_nothing in Hf as [-> Hr]; try done.
  - intros [= <- <-]. eauto.
  - destruct (select_fault env); [intros [= <- <-]; eauto|].
    destruct (bindable label); intros [= <- <-]; eauto.
Qed.

Lemma head_filter_None (l : list CaseData.t) (label : pyval) :
  head (filter (fun c => CaseData.case_number c = label) l) = None ->
  label ∉ CaseData.case_number <$> l.
Proof.
  induction l as [|c l IH]; simpl.
  - intros _ Hin. by apply elem_of_nil in Hin.
  - rewrite filter_cons. destruct (decide (CaseData.case_number c = label)) as [Heq|Hne].
    + done.
    + intros Hh Hin. apply elem_of_cons in Hin as [Hin|Hin]; [done|]. by apply IH.
Qed.

Lemma head_filter_Some (l : list CaseData.t) (label : pyval) c :
  head (filter (fun c => CaseData.case_number c = label) l) = Some c ->
  label ∈ CaseData.case_number <$> l.
Proof.
  intros Hh. apply head_Some_elem_of in Hh. apply list_elem_of_filter in Hh as [Heq Hin].
  subst label. by apply list_elem_of_fmap_2.
Qed.

Lemma save_order_spec case_id order st r st' :
  save_order case_id order st = (r, st') ->
  proc st' = proc st /\ txn st' = txn st
  /\ (r = inr tt ->
      exists o, pending st' = pending st ++ [OOrder o]
                /\ CaseOrder.case_id o = case_id).
Proof.
  unfold save_order, bind, lift_exn, session_add.
  destruct (dict_item order "date") as [e|date_text]; [by intros [= <- <-]|].
  destruct (strptime_ymd date_text) as [e|order_date]; [by intros [= <- <-]|].
  destruct (dict_item order "description") as [e|description]; [by intros [= <- <-]|].
  intros [= <- <-]. simpl. eauto.
Qed.

Lemma save_orders_spec case_id orders : forall st r st',
  for_each orders (save_order case_id) st = (r, st') ->
  proc st' = proc st /\ txn st' = txn st
  /\ (r = inr tt ->
      exists os, pending st' = pending st ++ (OOrder <$> os)
                 /\ Forall (fun o => CaseOrder.case_id o = case_id) os
                 /\ length os = length orders).
Proof.
  induction orders as [|order orders IH]; intros st r st'; simpl.
  - intros [= <- <-]. repeat split. intros _. exists []. simpl.
    by rewrite app_nil_r.
  - unfold bind at 1.
    destruct (save_order case_id order st) as [[e|[]] st1] eqn:Hone.
    + intros [= <- <-]. apply save_order_spec in Hone as (-> & -> & _). done.
    + apply save_order_spec in Hone as (Hp1 & Ht1 & Hpe1).
      destruct (Hpe1 eq_refl) as (o & Hpe & Hid).
      intros Hrest. apply IH in Hrest as (Hp2 & Ht2 & Hpe2).
      rewrite Hp2, Ht2, Hp1, Ht1. repeat split. intros ->.
      destruct (Hpe2 eq_refl) as (os & Hpe' & Hall & Hlen).
      exists (o :: os). rewrite Hpe', Hpe, <- app_assoc. simpl.
      repeat split; [by constructor | by rewrite Hlen].
Qed.

Lemma save_new_case_spec env court result st r st' :
  pending st = [] ->
  save_new_case env court result st = (r, st') ->
  db (proc st') = db (proc st)
  /\ (r = inr tt ->
      exists label c os,
        Result.case_data result !! "case_number" = Some label
        /\ CaseData.case_number c = column_text label
        /\ CaseData.id c = Some (next_id (CaseData.id <$> DB.case_data (txn st)))
        /\ (column_text label ∉ case_numbers (txn st))
        /\ flush_fault env = false
        /\ txn st' = db_add_all [OCase c] (txn st)
        /\ pending st' = OOrder <$> os
        /\ Forall (fun o => CaseOrder.case_id o = CaseData.id c) os
        /\ length os = length (Result.orders result)).
Proof.
  intros Hnil. unfold save_new_case, dict_item.
  unfold bind at 1, lift_exn at 1.
  destruct (Result.case_data result !! "case_number") as [label|];
    [|by intros [= <- <-]].
  unfold bind at 1, lift_exn at 1.
  destruct (Result.case_data result !! "filing_date") as [filing_text|];
    [|by intros [= <- <-]].
  unfold bind at 1, lift_exn at 1.
  destruct (strptime_ymd filing_text) as [e|filing_date]; [by intros [= <- <-]|].
  unfold bind at 1, lift_exn at 1.
  destruct (Result.case_data result !! "next_hearing") as [hearing_text|];
    [|by intros [= <- <-]].
  unfold bind at 1, lift_exn at 1.
  destruct (strptime_ymd hearing_text) as [e|next_hearing_date]; [by intros [= <- <-]|].
  unfold bind at 1, session_add at 1. rewrite Hnil. simpl app.
  unfold bind at 1.
  match goal with |- context [session_flush env ?s] =>
    destruct (session_flush env s) as [[e|flushed] st1] eqn:Hf end.
  - intros [= <- <-].
    apply flush_spec in Hf as [(? & _ & ->)|(? & ? & _)]; done.
  - apply flush_spec in Hf as [(? & ? & _)|(os' & [= <-] & Hff & Hp & ->)]; [done|].
    destruct Hff as [Hff|Hff]; [done|].
    simpl in Hp. inversion Hp as [|? ? o' ? os'' Hone Hrest]; subst.
    inversion Hrest; subst. inversion Hone as [|? c' Hnum _ _ _ Hid Hfresh|]; subst.
    simpl in *. intros Hloop.
    apply save_orders_spec in Hloop as (Hp' & Ht' & Hpe').
    rewrite Hp'. split; [done|]. intros ->.
    destruct (Hpe' eq_refl) as (os & Hpe & Hall & Hlen). simpl in Hpe.
    exists label, c', os. rewrite Ht'. rewrite <- Hnum. by repeat split.
Qed.

Lemma persisted_all_orders q os : forall d written,
  persisted_all d ((OOrder <$> os) ++ [OQuery q]) written ->
  exists os' q',
    written = (OOrder <$> os') ++ [OQuery q']
    /\ Forall2 (fun o o' => CaseOrder.case_id o' = CaseOrder.case_id o) os os'
    /\ exists d', persisted d' (OQuery q) (OQuery q').
Proof.
  induction os as [|o os IH]; intros d written Hp; simpl in Hp.
  - inversion Hp as [|? ? o' ? os' Hone Hrest]; subst. inversion Hrest; subst.
    inversion Hone; subst. exists [], q'. repeat split; [done|]. by exists d.
  - inversion Hp as [|? ? o' ? os' Hone Hrest]; subst.
    apply IH in Hrest as (os2 & q' & -> & Hall & d' & Hq).
    inversion Hone; subst. eexists (_ :: os2), q'. simpl.
    repeat split; [by constructor | by exists d'].
Qed.

Lemma predict_total env case_data n :
  exists prediction n',
    CaseAnalytics.predict_case_outcome env case_data n = (inr prediction, n').
Proof.
  cbv [CaseAnalytics.predict_case_outcome bind ret randint randbelow uniform random].
  eauto.
Qed.

(** ** The outcomes of a search *)

Lemma bind_lift_exn {S A B} (r : exn + A) (k : A -> ES S B) s :
  bind (lift_exn r) k s = match r with inl e => (inl e, s) | inr a => k a s end.
Proof. by destruct r. Qed.

Lemma bind_ret {S A B} (a : A) (k : A -> ES S B) s : bind (ret a) k s = k a s.
Proof. done. Qed.

Lemma bind_session_add {B} (o : obj) (k : unit -> M B) st :
  bind (session_add o) k st = k tt (MkState (proc st) (txn st) (pending st ++ [o])).
Proof. done. Qed.

Lemma bind_eq {S A B} (c : ES S A) (k : A -> ES S B) s :
  bind c k s = match c s with
               | (inr a, s') => k a s'
               | (inl e, s') => (inl e, s')
               end.
Proof. done. Qed.

Lemma lift_rng_predict env case_data st :
  exists prediction st',
    lift_rng (CaseAnalytics.predict_case_outcome env case_data) st
    = (inr prediction, st')
    /\ db (proc st') = db (proc st)
    /\ exists n n', CaseAnalytics.predict_case_outcome env case_data n
                    = (inr prediction, n').
Proof.
  destruct (predict_total env case_data (rng (proc st))) as (pr & n' & Heq).
  unfold lift_rng. rewrite Heq. eexists _, _. eauto.
Qed.

Lemma add_commit_then {B} env q (k : unit -> M B) st res st' :
  bind (session_add (OQuery q)) (fun _ => bind (session_commit env) k) st = (res, st') ->
  (exists e, res = inl e /\ db (proc st') = db (proc st))
  \/ (exists written st2,
        flush_fault env = false /\ commit_fault env = false
        /\ persisted_all (txn st) (pending st ++ [OQuery q]) written
        /\ db (proc st2) = db_add_all written (txn st)
        /\ k tt st2 = (res, st')).
Proof.
  rewrite bind_session_add, bind_eq.
  match goal with |- context [session_commit env ?s] =>
    destruct (session_commit env s) as [[e|[]] st2] eqn:Hc end;
    apply commit_spec in Hc as [(e' & ? & Hdb)|(os & ? & Hff & Hcf & Hp & Hdb)];
    simplify_eq; simpl in *.
  - intros [= <- <-]. left. eauto.
  - intros Hk. right.
    destruct Hff as [Hnil|Hff]; [by destruct (pending st)|]. eauto 10.
Qed.

Lemma supported_column_text court :
  supported court -> column_text court = court.
Proof.
  unfold supported. intros Hin. apply list_elem_of_fmap in Hin as (s & -> & _). done.
Qed.

Lemma persisted_logged d data filing_year q q' :
  py_int (dict_get data "filing_year") = inr filing_year ->
  supported (dict_get data "court") ->
  CaseQuery.court_name q = dict_get data "court" ->
  CaseQuery.case_type q = dict_get data "case_type" ->
  CaseQuery.case_number q = dict_get data "case_number" ->
  CaseQuery.filing_year q = filing_year ->
  persisted d (OQuery q) (OQuery q') ->
  logged (BodyObject data) q'
  /\ CaseQuery.success q' = CaseQuery.success q
  /\ CaseQuery.raw_response q' = CaseQuery.raw_response q.
Proof.
  intros Hy Hsup Hc Ht Hn Hf Hp. inversion Hp; subst.
  pose proof (supported_column_text _ Hsup) as Hcourt.
  split; [|done]. exists data. repeat split; congruence.
Qed.

Lemma search_case_outcome env request p :
  search_outcome env request p
    (search_case env request p).1 (search_case env request p).2.
Proof.
  unfold search_case, search_case_body, teardown.
  rewrite bind_lift_exn.
  destruct (get_json request) as [e|data] eqn:Hjson; [by apply outcome_internal_error|].
  assert (request = BodyObject data) as -> by (destruct request; simpl in Hjson; by simplify_eq).
  clear Hjson. rewrite bind_lift_exn.
  destruct (py_int (dict_get data "filing_year")) as [e|filing_year] eqn:Hyear;
    [by apply outcome_internal_error|].
  rewrite bind_eq.
  destruct (choose_scraper_spec env (dict_get data "court") (dict_get data "case_type")
              (dict_get data "case_number") filing_year (MkState p (db p) []))
    as (chosen & st1 & -> & (Hdb & Htxn & Hpe) & Hch).
  simpl in Hdb, Htxn, Hpe.
  destruct chosen as [[result error]|];
    [|destruct Hch as [-> ?]; by eapply outcome_unsupported].
  destruct Hch as [Hsup Hsc].
  inversion Hsc as [r label Hnum Hkeys Htype Hsuccess Hai Hlen|c msg Hc]; subst.
  - (* the scraper produced a result *)
    rewrite bind_lift_exn. unfold dict_item. rewrite Hnum.
    rewrite bind_eq.
    destruct (case_by_number env (PyStr label) st1) as [[e|existing] st2] eqn:Hq;
      apply case_by_number_spec in Hq as [-> Hr]; try done.
    { simpl. by apply outcome_internal_error. }
    destruct Hr as [[e ?]|[Hsel [= ->]]]; [done|]. rewrite Htxn.
    destruct (head _) as [known|] eqn:Hhead.
    + (* the case is on file *)
      apply head_filter_Some in Hhead.
      rewrite bind_ret.
      match goal with |- context [bind (session_add ?o) ?k st1] =>
        destruct (bind (session_add o) k st1) as [res st3] eqn:Hrun end.
      apply add_commit_then in Hrun
        as [(e & -> & Hdb3)|(written & st2 & Hff & Hcf & Hp & Hdb2 & Hk)].
      { simpl. apply outcome_internal_error. by rewrite Hdb3. }
      rewrite Hpe, Htxn in Hp. simpl in Hp.
      inversion Hp as [|? ? o' ? os' Hone Hrest]; subst. inversion Hrest; subst.
      assert (exists q', o' = OQuery q') as [q' ->] by (inversion Hone; eauto).
      eapply persisted_logged in Hone as (Hlog & Hs & _); try done.
      rewrite bind_eq in Hk.
      destruct (lift_rng_predict env (Result.case_data r) st2)
        as (pr & st4 & Heq & Hdb4 & n & n' & Hpr).
      rewrite Heq in Hk. injection Hk as <- <-. simpl.
      eapply outcome_known_case with (label := PyStr label) (q := q'); try done.
      * repeat split; try done. simpl. eauto.
      * by rewrite Hdb4, Hdb2, Htxn.
    + (* first sighting *)
      apply head_filter_None in Hhead.
      rewrite bind_eq.
      destruct (save_new_case env (dict_get data "court") r st1) as [[e|[]] st2] eqn:Hsave;
        apply save_new_case_spec in Hsave as [Hdb2 Hnew]; try done.
      { simpl. apply outcome_internal_error. by rewrite Hdb2. }
      destruct (Hnew eq_refl)
        as (label' & cnew & os & Hnum' & Hcn & Hid & Hfresh & Hff & Htxn2 & Hpe2 & Hall & Hlen').
      rewrite Hnum in Hnum'. injection Hnum' as <-.
      match goal with |- context [bind (session_add ?o) ?k st2] =>
        destruct (bind (session_add o) k st2) as [res st3] eqn:Hrun end.
      apply add_commit_then in Hrun
        as [(e & -> & Hdb3)|(written & st4 & _ & Hcf & Hp & Hdb4 & Hk)].
      { simpl. apply outcome_internal_error. by rewrite Hdb3, Hdb2. }
      rewrite Hpe2 in Hp.
      apply persisted_all_orders in Hp as (os' & q' & -> & Hids & d' & Hone).
      eapply persisted_logged in Hone as (Hlog & Hs & _); try done.
      rewrite bind_eq in Hk.
      destruct (lift_rng_predict env (Result.case_data r) st4)
        as (pr & st5 & Heq & Hdb5 & n & n' & Hpr).
      rewrite Heq in Hk. injection Hk as <- <-. simpl.
      eapply outcome_new_case with (label := PyStr label) (q := q') (c := cnew) (os := os');
        try done.
      * repeat split; try done. simpl. eauto.
      * rewrite Hdb5, Hdb4, Htxn2, Htxn. by rewrite <- db_add_all_cons.
      * by rewrite <- Htxn.
      * clear -Hids Hall. induction Hids as [|o o' os os' Ho _ IH]; [done|].
        inversion Hall; subst. constructor; [congruence | by apply IH].
      * simpl. rewrite <- Hlen'. symmetry. by eapply Forall2_length.
  - (* the scraper reported an error *)
    match goal with |- context [bind (session_add ?o) ?k st1] =>
      destruct (bind (session_add o) k st1) as [res st3] eqn:Hrun end.
    apply add_commit_then in Hrun
      as [(e & -> & Hdb3)|(written & st2 & Hff & Hcf & Hp & Hdb2 & Hk)].
    { simpl. apply outcome_internal_error. by rewrite Hdb3. }
    rewrite Hpe, Htxn in Hp. simpl in Hp.
    inversion Hp as [|? ? o' ? os' Hone Hrest]; subst. inversion Hrest; subst.
    assert (exists q', o' = OQuery q') as [q' ->] by (inversion Hone; eauto).
    eapply persisted_logged in Hone as (Hlog & Hs & Hraw); try done.
    injection Hk as <- <-. simpl.
    eapply outcome_scrape_error with (q := q'); try done.
    by rewrite Hdb2, Htxn.
Qed.

(** ** Unsupported courts *)

Lemma unsupported_court_returns env data filing_year p :
  py_int (dict_get data "filing_year") = inr filing_year ->
  ~ supported (dict_get data "court") ->
  search_case env (BodyObject data) p
  = (JsonError "Unsupported court selected" 400, p).
Proof.
  intros Hyear Hunsup.
  unfold search_case, search_case_body, teardown.
  rewrite bind_lift_exn. simpl get_json. cbv beta iota.
  rewrite bind_lift_exn, Hyear, bind_eq.
  destruct (choose_scraper_spec env (dict_get data "court") (dict_get data "case_type")
              (dict_get data "case_number") filing_year (MkState p (db p) []))
    as (chosen & st1 & -> & _ & Hch).
  destruct chosen as [out|].
  - destruct Hch as [Hsup _]. done.
  - destruct Hch as [-> _]. done.
Qed.

(** C1. A request naming a court outside the five supported ones, its
    filing year convertible, is answered with the "Unsupported court
    selected" error and status 400, and the process is left exactly as it
    was: the [else] branch returns before the query record is added to the
    session, so the query log gains no row, with [success = false] or
    otherwise. *)
Theorem unsupported_court_answer env data filing_year p :
  py_int (dict_get data "filing_year") = inr filing_year ->
  ~ supported (dict_get data "court") ->
  search_case env (BodyObject data) p
  = (JsonError "Unsupported court selected" 400, p)
  /\ DB.case_query (db (search_case env (BodyObject data) p).2)
     = DB.case_query (db p).
Proof.
  intros Hyear Hunsup.
  by rewrite (unsupported_court_returns env data filing_year p Hyear Hunsup).
Qed.

Lemma unsupported_court_answer_witness :
  search_case sample_env
    (search_request (PyStr "madras-high") (PyStr "civil") (PyStr "1") (PyInt 2023))
    fresh_process
  = (JsonError "Unsupported court selected" 400, fresh_process).
Proof.
  apply (unsupported_court_answer sample_env _ 2023 fresh_process).
  - reflexivity.
  - apply (bool_decide_eq_false_1 _). vm_compute. reflexivity.
Defined.

(** ** Malformed requests *)

(** C2, counterexample. A non-integer filing year is answered with the
    generic internal error and status 500, not with a 4xx. *)
Lemma malformed_year_counterexample :
  let response :=
    (search_case sample_env
       (search_request (PyStr "delhi-high") (PyStr "writ") (PyStr "123") (PyStr "abc"))
       fresh_process).1 in
  response = JsonError "Internal server error" 500
  /\ ~ (400 <= status_code response < 500).
Proof. vm_compute. split; [reflexivity | intros [_ H]; discriminate H]. Qed.

(** C2, as the code has it. The route has no validation of its own.  When
    the body is not a JSON object, or its filing year is missing or is
    not convertible by [int()] (a year given as a string being of ASCII
    text), the exception is caught by the catch-all clause: the answer is
    the generic "Internal server error" with status 500 and the process
    is left as it was; so it is for a year that opens with the unit
    separator, also at a court outside the dispatch.  With a convertible
    year, a missing court is answered as an unsupported court (400), and
    a missing case type or case number, the court being supported, ends
    in the generic 500 with the database untouched. *)
Theorem malformed_request_answer env request p :
  (forall e,
     ascii_year request = true ->
     request_year request = inl e ->
     search_case env request p = (JsonError "Internal server error" 500, p))
  /\ search_case env separator_year_request p
     = (JsonError "Internal server error" 500, p)
  /\ (forall data filing_year,
        request = BodyObject data ->
        py_int (dict_get data "filing_year") = inr filing_year ->
        (dict_get data "court" = PyNone ->
         search_case env request p = (JsonError "Unsupported court selected" 400, p))
        /\ (supported (dict_get data "court") ->
            dict_get data "case_type" = PyNone \/ dict_get data "case_number" = PyNone ->
            (search_case env request p).1 = JsonError "Internal server error" 500
            /\ db (search_case env request p).2 = db p)).
Proof.
  assert (forall request' e,
            request_year request' = inl e ->
            search_case env request' p = (JsonError "Internal server error" 500, p))
    as Hraise.
  { intros request' e. unfold request_year, search_case, search_case_body, teardown.
    rewrite bind_lift_exn.
    destruct (get_json request') as [e'|data]; [done|].
    rewrite bind_lift_exn. by intros ->. }
  split; [|split].
  - intros e _. apply Hraise.
  - eapply Hraise. reflexivity.
  - intros data filing_year -> Hyear. split.
    + intros Hcourt. apply (unsupported_court_returns env data filing_year p Hyear).
      rewrite Hcourt. apply (bool_decide_eq_false_1 _). reflexivity.
    + intros Hsup Hmissing.
      pose proof (search_case_outcome env (BodyObject data) p) as Hout.
      destruct (search_case env (BodyObject data) p) as [response p']. simpl in *.
      assert (forall q, logged (BodyObject data) q -> False) as Hnolog.
      { intros q (data' & [= <-] & _ & Htype & Hnum & _ & _ & Hn1 & Hn2).
        rewrite Htype in Hn1. rewrite Hnum in Hn2.
        destruct Hmissing as [Hm|Hm]; rewrite Hm in *; done. }
      inversion Hout; subst; try (exfalso; eauto; fail).
      * done.
      * simplify_eq. done.
Qed.

Lemma malformed_request_answer_witness :
  ascii_year (search_request (PyStr "delhi-high") (PyStr "writ") (PyStr "123") PyNone)
  = true
  /\ request_year
       (search_request (PyStr "delhi-high") (PyStr "writ") (PyStr "123") PyNone)
     = inl (Raise "TypeError"
              "int() argument must be a string, a bytes-like object or a real number, not 'NoneType'")
  /\ search_case sample_env
       (search_request (PyStr "delhi-high") (PyStr "writ") (PyStr "123") PyNone)
       fresh_process
     = (JsonError "Internal server error" 500, fresh_process).
Proof.
  split; [reflexivity|]. split; [reflexivity|].
  eapply (proj1 (malformed_request_answer sample_env _ fresh_process));
    reflexivity.
Defined.

(** ** Case-number labels *)

Lemma upper_ascii_other c : c ∉ small_letters -> upper_ascii c = c.
Proof.
  intros Hout.
  destruct c as [[] [] [] [] [] [] [] []];
    first [reflexivity | exfalso; apply Hout; by apply (bool_decide_unpack _)].
Qed.

Lemma upper_ascii_letter k c C :
  small_letters !! k = Some c -> capital_letters !! k = Some C -> upper_ascii c = C.
Proof.
  intros Hc HC.
  do 26 (destruct k as [|k]; [injection Hc as <-; by injection HC as <-|]).
  discriminate Hc.
Qed.

Lemma capital_of_upper_ascii c C : capital_of c C <-> C = upper_ascii c.
Proof.
  split.
  - intros [k c' C' Hc HC|c' Hout].
    + symmetry. by eapply upper_ascii_letter.
    + symmetry. by apply upper_ascii_other.
  - intros ->. destruct (decide (c ∈ small_letters)) as [Hin|Hout].
    + apply list_elem_of_lookup in Hin as [k Hk].
      apply (capital_letter k); [done|].
      do 26 (destruct k as [|k]; [by injection Hk as <-|]).
      discriminate Hk.
    + rewrite upper_ascii_other by done. by apply capital_other.
Qed.

Lemma upper_case_of_upper t up : upper_case_of t up <-> up = upper t.
Proof.
  unfold upper_case_of. revert up. induction t as [|c t IH]; intros [|C up]; simpl.
  - split; [done | constructor].
  - split; [intros H; inversion H | done].
  - split; [intros H; inversion H | done].
  - split.
    + intros H. inversion H as [|? ? ? ? Hc Hrest]; subst.
      apply capital_of_upper_ascii in Hc as ->. f_equal. by apply IH.
    + intros [= -> ->]. constructor; [by apply capital_of_upper_ascii | by apply IH].
Qed.

(** C4, counterexample. At a district court a case type that is not a
    string has no label: [case_type.upper()] raises, no payload is
    generated, and the search is answered with the error. *)
Lemma district_label_counterexample :
  generated_label sample_env (PyInt 5) (PyStr "123") 2023 "delhi-district" 0 = None
  /\ generated_label sample_env PyNone (PyStr "123") 2023 "faridabad-district" 0 = None
  /\ numeric_type_search.1 = JsonError "'int' object has no attribute 'upper'" 500.
Proof. vm_compute. done. Qed.

(** C4, as the code has it. For every case type, case number and filing
    year the generated payload carries the label of the court.  At
    delhi-high: the entry of a string type in the label table, 'Civil
    Suit' when it has none or when the type is not a string, then the
    number, a slash and the year; a list or a dictionary, which cannot be
    looked up, has no label.  At supreme "Civil Appeal No. <number> of
    <year>" and at bombay-high "Writ Petition No. <number> of <year>",
    whatever the type.  At the two district courts a type that is a
    string of ASCII text gives that text in upper case (each small
    letter replaced by its capital, every other character kept), the
    number and the year joined by slashes, and a type that is not a
    string has no label.  The delhi-high search for writ 123 of 2023 is
    labelled "Writ Petition 123/2023", and the same search at the Delhi
    district court "WRIT/123/2023". *)
Theorem case_number_label_format env (case_type number : pyval) (y : Z) (n : nat) :
  (forall t, case_type = PyStr t ->
     generated_label env case_type number y "delhi-high" n
     = Some (PyStr (default "Civil Suit" (BaseScraper.case_types !! t)
                    +:+ " " +:+ py_str number +:+ "/" +:+ str_of_int y)))
  /\ ((forall t, case_type <> PyStr t) ->
      generated_label env case_type number y "delhi-high" n
      = if hashable case_type
        then Some (PyStr ("Civil Suit " +:+ py_str number +:+ "/" +:+ str_of_int y))
        else None)
  /\ generated_label env case_type number y "supreme" n
     = Some (PyStr ("Civil Appeal No. " +:+ py_str number +:+ " of " +:+ str_of_int y))
  /\ generated_label env case_type number y "bombay-high" n
     = Some (PyStr ("Writ Petition No. " +:+ py_str number +:+ " of " +:+ str_of_int y))
  /\ (forall t court,
        case_type = PyStr t -> ascii_text t = true ->
        court = "delhi-district" \/ court = "faridabad-district" ->
        exists up,
          upper_case_of t up
          /\ generated_label env case_type number y court n
             = Some (PyStr (up +:+ "/" +:+ py_str number +:+ "/" +:+ str_of_int y)))
  /\ ((forall t, case_type <> PyStr t) ->
      generated_label env case_type number y "delhi-district" n = None
      /\ generated_label env case_type number y "faridabad-district" n = None)
  /\ (exists r n',
        DelhiHighCourtScraper.scrape_case_data env (PyStr "writ") (PyStr "123") 2023 n
        = (inr (Some r, None), n')
        /\ Result.case_data r !! "case_number" = Some (PyStr "Writ Petition 123/2023"))
  /\ (exists r n',
        ECourtsScraper.scrape_case_data env "delhi" (PyStr "writ") (PyStr "123") 2023 n
        = (inr (Some r, None), n')
        /\ Result.case_data r !! "case_number" = Some (PyStr "WRIT/123/2023")).
Proof.
  split; [by intros t ->|].
  split; [by intros Hnot; destruct case_type; try reflexivity; destruct (Hnot s)|].
  split; [reflexivity|]. split; [reflexivity|].
  split.
  { intros t court -> _ Hcourt. exists (upper t).
    split; [by apply upper_case_of_upper|]. by destruct Hcourt as [->| ->]. }
  split.
  { intros Hnot. by destruct case_type; try (split; reflexivity); destruct (Hnot s). }
  split; eexists _, _; split; reflexivity.
Qed.

Lemma case_number_label_format_witness :
  exists up,
    upper_case_of "crl.m.c-2a" up
    /\ generated_label sample_env (PyStr "crl.m.c-2a") (PyInt 77) 2021
         "faridabad-district" 0
       = Some (PyStr (up +:+ "/77/2021"))
    /\ up = "CRL.M.C-2A".
Proof.
  destruct (proj1 (proj2 (proj2 (proj2 (proj2
              (case_number_label_format sample_env (PyStr "crl.m.c-2a") (PyInt 77)
                 2021 0%nat)))))
              "crl.m.c-2a" "faridabad-district" eq_refl eq_refl
              (or_intror eq_refl))
    as (up & Hup & Hlabel).
  exists up. split; [exact Hup|]. split; [exact Hlabel|].
  by apply upper_case_of_upper in Hup.
Defined.

(** ** Scrapers and their error branch *)

Lemma scrape_result env base lo hi court_name case_type case_number filing_year n label :
  BaseScraper.case_num case_type case_number filing_year court_name = inr label ->
  scrape_succeeds
    (BaseScraper.scrape env base lo hi court_name case_type case_number filing_year n).
Proof.
  intros Hnum.
  cbv [BaseScraper.scrape BaseScraper.generate_mock_data BaseScraper.sleep
       try_except bind ret lift_exn uniform random randbelow randint choice
       fst snd].
  rewrite Hnum. eexists _, _. split; reflexivity.
Qed.

(** C8, counterexample. A district-court scrape whose case type is
    missing ends in the error branch: [None.upper()] raises inside the
    [try]. *)
Lemma district_scrape_error_counterexample :
  ECourtsScraper.scrape_case_data sample_env "faridabad" PyNone (PyStr "1") 2023 0%nat
  = (inr (None, Some "'NoneType' object has no attribute 'upper'"), 1%nat).
Proof. reflexivity. Qed.

(** C8, as the code has it. With a case type that is a string, each of the
    four scrapers returns a result with [success = True] and no error,
    whatever the case number, the year and the random draws; the Supreme
    Court and Bombay scrapers do so for any case type at all. *)
Theorem scrape_case_data_succeeds env (t district : string)
    (case_type number : pyval) (y : Z) (n : nat) :
  scrape_succeeds (DelhiHighCourtScraper.scrape_case_data env (PyStr t) number y n)
  /\ scrape_succeeds (SupremeCourtScraper.scrape_case_data env case_type number y n)
  /\ scrape_succeeds (BombayHighCourtScraper.scrape_case_data env case_type number y n)
  /\ scrape_succeeds (ECourtsScraper.scrape_case_data env district (PyStr t) number y n).
Proof.
  repeat split.
  - by eapply scrape_result.
  - by eapply scrape_result.
  - by eapply scrape_result.
  - unfold ECourtsScraper.scrape_case_data.
    destruct (BaseScraper.case_num (PyStr t) number y (district +:+ "-district"))
      as [e|label] eqn:Hnum.
    + unfold BaseScraper.case_num in Hnum. simpl in Hnum.
      repeat case_match; discriminate.
    + by eapply scrape_result.
Qed.

(** ** Outcome prediction *)

(** C7. For every case payload and every state of the generator,
    [predict_case_outcome] returns a prediction whose favorable probability
    is the smaller of the score and 0.95, the score being 0.5, plus 0.2
    when the hardcoded case age exceeds 365 days, plus 0.1 when the
    payload's case type ('civil' when absent) is 'bail' or 'writ', plus 0.1
    when the court load drawn from [50, 200] is below 100; the probability
    is at most 0.95, the estimated disposal days lie in [30, 180], the
    confidence in [0.7, 0.9], and the three factor labels are always the
    same. *)
Theorem predict_case_outcome_spec env (case_data : pydict) (n : nat) :
  exists prediction n' court_load,
    CaseAnalytics.predict_case_outcome env case_data n = (inr prediction, n')
    /\ randint env 50 200 n = (inr court_load, S n)
    /\ 50 <= court_load <= 200
    /\ (Prediction.favorable_probability prediction ==
        Qmin (0.5
              + (if 365 <? CaseAnalytics.case_age_days then 0.2 else 0)
              + (if decide (dict_get_default case_data "case_type" (PyStr "civil")
                            ∈ [PyStr "bail"; PyStr "writ"])
                 then 0.1 else 0)
              + (if court_load <? 100 then 0.1 else 0))
             0.95)%Q
    /\ (Prediction.favorable_probability prediction <= 0.95)%Q
    /\ 30 <= Prediction.estimated_disposal_days prediction <= 180
    /\ (0.7 <= Prediction.confidence prediction <= 0.9)%Q
    /\ Prediction.key_factors prediction
       = ["Case age"; "Court efficiency"; "Case type complexity"].
Proof.
  cbv [CaseAnalytics.predict_case_outcome bind ret randint randbelow uniform random].
  eexists _, _, _. split; [reflexivity|]. split; [reflexivity|].
  cbn [Prediction.favorable_probability Prediction.estimated_disposal_days
       Prediction.confidence Prediction.key_factors].
  pose proof (Z.mod_pos_bound (tape env n) (200 - 50 + 1) eq_refl) as Hload.
  pose proof (Z.mod_pos_bound (tape env (S n)) (180 - 30 + 1) eq_refl) as Hdays.
  pose proof (Z.mod_pos_bound (tape env (S (S n))) (2 ^ 53) eq_refl) as Hconf.
  split; [lia|].
  set (case_type := dict_get_default case_data "case_type" (PyStr "civil")).
  assert (bool_decide (case_type = PyStr "bail") || bool_decide (case_type = PyStr "writ")
          = if decide (case_type ∈ [PyStr "bail"; PyStr "writ"]) then true else false)
    as ->.
  { destruct (decide (case_type ∈ [PyStr "bail"; PyStr "writ"])) as [Hin|Hout].
    - apply elem_of_cons in Hin as [->|Hin]; [done|].
      apply elem_of_cons in Hin as [->|Hin]; [done|]. by apply elem_of_nil in Hin.
    - apply orb_false_iff. split; apply bool_decide_eq_false; intros ->;
        apply Hout; repeat constructor. }
  split; [|split; [|split; [lia|split; [|done]]]].
  - (destruct (decide _), (_ <? 100); reflexivity).
  - (destruct (decide _), (_ <? 100); by vm_compute).
  - set (k := tape env (S (S n)) mod 2 ^ 53) in *.
    (unfold Qle; simpl; lia).
Qed.

(** C10. Whenever [/api/search] answers with a result, the payload it
    handed to [predict_case_outcome] has exactly the seven generated keys,
    ['case_type'] not among them; the case-age test compares the constant
    100 with 365 and fails; and the favorable probability of the returned
    prediction is 0.5 or 0.6. *)
Theorem search_favorable_probability env request p r p' :
  search_case env request p = (JsonResult r, p') ->
  dom (Result.case_data r) = payload_keys
  /\ Result.case_data r !! "case_type" = None
  /\ (365 <? CaseAnalytics.case_age_days) = false
  /\ exists prediction n n',
       Result.ai_prediction r = Some prediction
       /\ CaseAnalytics.predict_case_outcome env (Result.case_data r) n
          = (inr prediction, n')
       /\ (Prediction.favorable_probability prediction == 0.5
           \/ Prediction.favorable_probability prediction == 0.6)%Q.
Proof.
  intros Hsearch.
  pose proof (search_case_outcome env request p) as Hout.
  rewrite Hsearch in Hout. simpl in Hout.
  assert (exists label, answered env r label) as [label Hans]
    by (inversion Hout; eauto).
  destruct Hans as (_ & Hkeys & Htype & _ & prediction & n & n' & Hai & Hpr).
  repeat split; try done.
  exists prediction, n, n'. repeat split; try done.
  revert Hpr.
  cbv [CaseAnalytics.predict_case_outcome bind ret randint randbelow uniform random
       dict_get_default].
  rewrite Htype. intros [= <- _].
  cbn [Prediction.favorable_probability default].
  destruct (_ <? 100); [right | left]; reflexivity.
Qed.

Lemma search_favorable_probability_witness :
  search_case sample_env sample_request fresh_process
  = (JsonResult sample_result, sample_search.2)
  /\ exists prediction,
       Result.ai_prediction sample_result = Some prediction
       /\ (Prediction.favorable_probability prediction == 0.5
           \/ Prediction.favorable_probability prediction == 0.6)%Q.
Proof.
  assert (search_case sample_env sample_request fresh_process
          = (JsonResult sample_result, sample_search.2)) as Hsearch
    by (vm_compute; reflexivity).
  split; [exact Hsearch|].
  destruct (search_favorable_probability sample_env sample_request fresh_process
              sample_result sample_search.2 Hsearch)
    as (_ & _ & _ & prediction & _ & _ & Hai & _ & Hfp).
  exists prediction. split; [exact Hai | exact Hfp].
Defined.
(** ** Case trends *)

(** C9, on the last day of January 2025.  The six entries step back 30
    days at a time, so the two newest both fall in January: the month
    labels repeat and August 2024 is missing.  The entries are six, oldest
    first, each count in [50, 200]. *)
Theorem case_trends_month_end (tape_ : nat -> Z) (elapsed : Z) (utc : datetime)
    (time_of_day : Z) (sf ff cf : bool) (n : nat) :
  let env := MkEnv tape_ elapsed utc (DateTime (Date 2025 1 31) time_of_day) sf ff cf in
  exists trends,
    CaseAnalytics.get_case_trends env n = (inr trends, (n + 6)%nat)
    /\ Trend.month <$> trends
       = ["2024-09"; "2024-10"; "2024-11"; "2024-12"; "2025-01"; "2025-01"]
    /\ ~ NoDup (Trend.month <$> trends)
    /\ Forall (fun t => 50 <= Trend.count t <= 200) trends.
Proof.
  intros env.
  cbv [CaseAnalytics.get_case_trends trends_loop bind ret lift_exn randint randbelow
       env now dt_date tape].
  repeat match goal with
         | |- context [minus_days ?d ?k] =>
             let v := eval vm_compute in (minus_days d k) in
             change (minus_days d k) with v; cbv beta iota
         end.
  eexists. split; [f_equal; lia|].
  split; [reflexivity|]. split.
  - intros Hnd. vm_compute in Hnd.
    do 4 (apply NoDup_cons in Hnd as [_ Hnd]).
    apply NoDup_cons in Hnd as [Hnotin _]. apply Hnotin. constructor.
  - simpl. repeat constructor; simpl;
      try (match goal with |- context [?a mod ?b] =>
             pose proof (Z.mod_pos_bound a b eq_refl) end; lia).
Qed.

(** ** Dashboard statistics *)

Lemma round_half_even_near (q : Q) :
  2 * Z.abs (round_half_even q * Zpos (Qden q) - Qnum q) <= Zpos (Qden q).
Proof.
  unfold round_half_even.
  set (n := Qnum q). set (d := Zpos (Qden q)).
  assert (0 < d) as Hd by done.
  pose proof (Z.div_mod n d ltac:(lia)) as Hdm.
  pose proof (Z.mod_pos_bound n d Hd) as Hr.
  set (lo := n / d) in *. set (r := n mod d) in *.
  destruct (2 * r <? d) eqn:H1; [apply Z.ltb_lt in H1; lia|].
  apply Z.ltb_ge in H1.
  destruct (d <? 2 * r) eqn:H2; [apply Z.ltb_lt in H2; lia|].
  apply Z.ltb_ge in H2.
  destruct (Z.even lo); lia.
Qed.

Lemma round1_near (x : Q) : (Qabs (round1 x - x) <= 1 # 20)%Q.
Proof.
  pose proof (round_half_even_near (x * 10)) as Hnear.
  unfold round1. set (k := round_half_even (x * 10)) in *.
  destruct x as [n d]. simpl in Hnear.
  unfold Qle, Qabs, Qminus, Qplus, Qopp. simpl.
  rewrite Pos.mul_1_r in Hnear. lia.
Qed.

Lemma omap_id_fmap {A B} (f : A -> option B) (l : list A) :
  omap id (f <$> l) = omap f l.
Proof. induction l as [|a l IH]; csimpl; [done|]. destruct (f a); csimpl; by rewrite IH. Qed.

Lemma filter_since_success (today : date) (l : list CaseQuery.t) :
  filter (fun q => CaseAnalytics.since today q && CaseQuery.success q = true) l
  = filter (fun q => CaseQuery.success q = true)
      (filter (fun q => CaseAnalytics.since today q = true) l).
Proof.
  induction l as [|q l IH]; [done|].
  rewrite !filter_cons.
  destruct (CaseAnalytics.since today q) eqn:Hs, (CaseQuery.success q) eqn:Hq;
    simpl; repeat case_decide; try done; rewrite ?filter_cons; repeat case_decide;
    try done; try congruence.
Qed.

Lemma since_stamped (today : date) (q : CaseQuery.t) :
  CaseAnalytics.since today q = true <-> stamped_since today q.
Proof.
  unfold CaseAnalytics.since, stamped_since, date_leb, day_before.
  destruct (CaseQuery.query_timestamp q) as [t|]; [|done].
  destruct (dt_date t) as [y m dd], today as [y0 m0 d0]. cbn [year month day].
  rewrite !orb_true_iff, !andb_true_iff, !orb_true_iff, !andb_true_iff.
  rewrite !Z.ltb_lt, !Z.eqb_eq, Z.leb_le. lia.
Qed.

Lemma todays_rows_since env d : todays env d = rows_since (dt_date (now env)) d.
Proof.
  unfold todays, rows_since. apply list_filter_iff. intros q. apply since_stamped.
Qed.

(** C5. Over the rows of the query log whose timestamp is not before the
    start of the current day: [total_searches] is their number;
    [success_rate] is 0 when there are none, and otherwise a number of
    tenths within a twentieth of successes / total * 100; the average is
    taken over the response times on record of the day's successful rows,
    and [avg_response_time] is the integer part of their sum over their
    number when these times are not negative and add up to less than
    2^53 (the range in which the floating-point mean is the exact one);
    it is 0 when there are no such rows.  With no query today the rate
    and the average are 0, as for a log whose rows are all of earlier
    days; with 4 queries, 3 of them successful, the rate is 75.0, as for
    a log that has four rows of the day or later after three earlier
    ones, the successful ones with 2000, 2500 and 2500 ms: total 4, rate
    75.0, average 2333. *)
Theorem dashboard_stats_spec env d :
  let rows := rows_since (dt_date (now env)) d in
  let total := Z.of_nat (length rows) in
  let successes := Z.of_nat (length (successful rows)) in
  let times := response_times (successful rows) in
  let stats := CaseAnalytics.get_dashboard_stats env d in
  Stats.total_searches stats = total
  /\ (total = 0 -> Stats.success_rate stats == 0 /\ Stats.avg_response_time stats = 0)
  /\ (0 < total ->
      (exists k : Z, Stats.success_rate stats = (k # 10)%Q)
      /\ (Qabs (Stats.success_rate stats - (successes # 1) / (total # 1) * 100)
          <= 1 # 20)%Q)
  /\ (times = [] -> Stats.avg_response_time stats = 0)
  /\ (times <> [] -> Forall (fun t => 0 <= t) times -> sum_Z times < 2 ^ 53 ->
      Stats.avg_response_time stats = sum_Z times / Z.of_nat (length times)
      /\ Stats.avg_response_time stats * Z.of_nat (length times) <= sum_Z times
         < (Stats.avg_response_time stats + 1) * Z.of_nat (length times))
  /\ (total = 4 -> successes = 3 -> Stats.success_rate stats == 75)
  /\ CaseAnalytics.get_dashboard_stats march_env quiet_log = Stats.Build 0 (0 # 10) 0
  /\ CaseAnalytics.get_dashboard_stats march_env busy_log = Stats.Build 4 (750 # 10) 2333.
Proof.
  intros rows total successes times stats.
  assert (Stats.total_searches stats = total) as Htotal.
  { unfold total, rows. rewrite <- todays_rows_since. reflexivity. }
  assert (Stats.success_rate stats
          = round1 (if 0 <? total then (successes # 1) / (total # 1) * 100 else 0)%Q)
    as Hrate.
  { unfold stats, CaseAnalytics.get_dashboard_stats. cbn [Stats.success_rate].
    rewrite filter_since_success. unfold successes, total, rows.
    rewrite <- todays_rows_since. reflexivity. }
  assert (Stats.avg_response_time stats
          = match times with
            | [] => 0
            | _ => Z.quot (sum_Z times) (Z.of_nat (length times))
            end) as Havg.
  { unfold stats, CaseAnalytics.get_dashboard_stats, CaseAnalytics.sql_avg.
    cbn [Stats.avg_response_time].
    rewrite filter_since_success, omap_id_fmap.
    fold (todays env d). rewrite todays_rows_since. fold rows.
    fold (successful rows). fold (response_times (successful rows)). fold times.
    destruct times as [|t ts] eqn:Htimes; [reflexivity|].
    fold (sum_Z (t :: ts)).
    assert (Z.pos (Pos.of_nat (length (t :: ts))) = Z.of_nat (length (t :: ts))) as Hlen.
    { simpl length. lia. }
    destruct (Qeq_bool _ 0) eqn:Hz.
    - apply Qeq_bool_eq in Hz. unfold Qeq in Hz. cbn [Qnum Qden] in Hz.
      assert (sum_Z (t :: ts) = 0) as -> by lia.
      by rewrite Z.quot_0_l by (simpl length; lia).
    - unfold int_of_Q. cbn [Qnum Qden]. by rewrite Hlen. }
  split; [done|]. split; [|split; [|split; [|split; [|split; [|split]]]]].
  - intros H0. split.
    + rewrite Hrate, H0. reflexivity.
    + rewrite Havg. unfold times, response_times, successful.
      assert (rows = []) as -> by (apply length_zero_iff_nil; lia).
      reflexivity.
  - intros Hpos. rewrite Hrate.
    apply Z.ltb_lt in Hpos as ->. split; [by eexists | apply round1_near].
  - intros Hnil. by rewrite Havg, Hnil.
  - intros Hne Hpos _. rewrite Havg.
    assert (0 <= sum_Z times) as Hsum.
    { clear -Hpos. induction Hpos as [|t ts Ht _ IH]; simpl; [done|].
      unfold sum_Z in *. simpl. lia. }
    assert (0 < Z.of_nat (length times)) as Hlen by (destruct times; simpl; [done|lia]).
    destruct times as [|t ts]; [done|].
    set (len := Z.of_nat (length (t :: ts))) in *. set (s := sum_Z (t :: ts)) in *.
    rewrite Z.quot_div_nonneg by lia.
    pose proof (Z.div_mod s len ltac:(lia)). pose proof (Z.mod_pos_bound s len Hlen).
    split; [done | lia].
  - intros H4 H3. rewrite Hrate, H4, H3. reflexivity.
  - reflexivity.
  - reflexivity.
Qed.

Lemma dashboard_stats_spec_witness :
  response_times (successful (rows_since (dt_date (now march_env)) busy_log))
  = [2000; 2500; 2500]
  /\ Stats.avg_response_time (CaseAnalytics.get_dashboard_stats march_env busy_log)
     = 7000 / 3
  /\ Stats.success_rate (CaseAnalytics.get_dashboard_stats march_env busy_log) == 75.
Proof.
  pose proof (dashboard_stats_spec march_env busy_log) as H. cbv zeta in H.
  destruct H as (_ & _ & _ & _ & Havg & Hrate & _).
  split; [reflexivity|]. split.
  - apply Havg; [discriminate | repeat constructor; lia | reflexivity].
  - apply Hrate; reflexivity.
Defined.

(** ** Repeated searches *)

Lemma db_grows_refl d : db_grows d d.
Proof. by repeat split. Qed.

Lemma db_grows_trans d1 d2 d3 : db_grows d1 d2 -> db_grows d2 d3 -> db_grows d1 d3.
Proof.
  intros (Hin1 & Hl1 & Ho1 & Hn1) (Hin2 & Hl2 & Ho2 & Hn2). repeat split.
  - auto.
  - intros label Hlab. rewrite Hl2, Hl1; [done..|].
    unfold case_numbers in *. apply list_elem_of_fmap in Hlab as (c & -> & Hc).
    apply list_elem_of_fmap_2. auto.
  - intros c Hc. rewrite Ho2, Ho1; auto.
  - auto.
Qed.

Lemma next_id_bound (ids : list (option Z)) i :
  Some i ∈ ids -> i < next_id ids.
Proof.
  unfold next_id. induction ids as [|j ids IH]; intros Hin.
  - by apply elem_of_nil in Hin.
  - apply elem_of_cons in Hin as [<-|Hin]; simpl; [lia|].
    specialize (IH Hin). lia.
Qed.

Lemma next_id_fresh (cases : list CaseData.t) c :
  c ∈ cases -> CaseData.id c <> Some (next_id (CaseData.id <$> cases)).
Proof.
  intros Hin Heq.
  assert (Some (next_id (CaseData.id <$> cases)) ∈ CaseData.id <$> cases) as Hid.
  { rewrite <- Heq. by apply list_elem_of_fmap_2. }
  apply next_id_bound in Hid. lia.
Qed.

Lemma db_grows_add_query d q : db_grows d (db_add_all [OQuery q] d).
Proof.
  unfold db_grows, cases_labelled, orders_of_case, case_numbers, db_add_all. simpl.
  rewrite !app_nil_r. by repeat split.
Qed.

Lemma written_tables c os q d :
  DB.case_data (db_add_all (OCase c :: (OOrder <$> os) ++ [OQuery q]) d)
  = DB.case_data d ++ [c]
  /\ DB.case_order (db_add_all (OCase c :: (OOrder <$> os) ++ [OQuery q]) d)
     = DB.case_order d ++ os
  /\ DB.case_query (db_add_all (OCase c :: (OOrder <$> os) ++ [OQuery q]) d)
     = DB.case_query d ++ [q].
Proof.
  unfold db_add_all, cases_of, orders_of, queries_of. cbn [DB.case_data DB.case_order DB.case_query].
  repeat split; f_equal; csimpl.
  - f_equal. induction os as [|o os IH]; csimpl; done.
  - induction os as [|o os IH]; csimpl; [done|]. by rewrite IH.
  - induction os as [|o os IH]; csimpl; done.
Qed.

Lemma db_grows_new_case d c os q :
  CaseData.case_number c ∉ case_numbers d ->
  CaseData.id c = Some (next_id (CaseData.id <$> DB.case_data d)) ->
  Forall (fun o => CaseOrder.case_id o = CaseData.id c) os ->
  db_grows d (db_add_all (OCase c :: (OOrder <$> os) ++ [OQuery q]) d).
Proof.
  intros Hfresh Hid Hos.
  destruct (written_tables c os q d) as (Hcases & Horders & _).
  unfold db_grows, cases_labelled, orders_of_case, case_numbers.
  rewrite Hcases, Horders. repeat split.
  - intros c0 Hc0. apply elem_of_app. by left.
  - intros label Hlab. rewrite filter_app, filter_cons, filter_nil.
    case_decide as Heq; [|by rewrite app_nil_r].
    exfalso. apply Hfresh. by rewrite Heq.
  - intros c0 Hc0. rewrite filter_app.
    assert (filter (fun o => CaseOrder.case_id o = CaseData.id c0) os = []) as ->;
      [|by rewrite app_nil_r].
    apply next_id_fresh in Hc0. rewrite <- Hid in Hc0.
    clear -Hos Hc0. induction Hos as [|o os Ho _ IH]; [done|].
    rewrite filter_cons. case_decide as Heq; [congruence | done].
  - intros Hnd. rewrite fmap_app. apply NoDup_app. repeat split; [done| |].
    + intros label Hlab Hc. apply list_elem_of_singleton in Hc. by subst.
    + apply NoDup_singleton.
Qed.

Lemma search_grows env request p :
  db_grows (db p) (db (search_case env request p).2).
Proof.
  pose proof (search_case_outcome env request p) as Hout.
  destruct (search_case env request p) as [response p']. simpl in *.
  inversion Hout; subst;
    repeat match goal with H : db p' = _ |- _ => rewrite H; clear H end.
  - apply db_grows_refl.
  - apply db_grows_refl.
  - apply db_grows_add_query.
  - apply db_grows_add_query.
  - by apply db_grows_new_case.
Qed.

Lemma run_grows steps : forall p, db_grows (db p) (db (run steps p)).
Proof.
  induction steps as [|[env request] steps IH]; intros p; simpl.
  - apply db_grows_refl.
  - eapply db_grows_trans; [apply search_grows | apply IH].
Qed.

(** Whatever requests are served from an empty database, no two case
    records share a case number. *)
Lemma case_numbers_stay_unique steps ecourts n :
  NoDup (case_numbers (db (run steps (MkProcess DB.empty ecourts n)))).
Proof.
  destruct (run_grows steps (MkProcess DB.empty ecourts n)) as (_ & _ & _ & Hnd).
  apply Hnd. constructor.
Qed.

Lemma cases_labelled_unique (l : list CaseData.t) (label : pyval) :
  NoDup (CaseData.case_number <$> l) ->
  label ∈ CaseData.case_number <$> l ->
  exists c, filter (fun c => CaseData.case_number c = label) l = [c].
Proof.
  induction l as [|c l IH]; intros Hnd Hin; csimpl in *.
  - by apply elem_of_nil in Hin.
  - apply NoDup_cons in Hnd as [Hnotin Hnd].
    rewrite filter_cons. case_decide as Heq.
    + exists c. f_equal. subst label.
      clear -Hnotin. induction l as [|c' l IH]; [done|]. csimpl in *.
      apply not_elem_of_cons in Hnotin as [Hne Hnotin].
      rewrite filter_cons. case_decide; [congruence | by apply IH].
    + apply elem_of_cons in Hin as [Hin|Hin]; [congruence|]. by apply IH.
Qed.

Lemma answered_label env r label label' :
  answered env r label ->
  Result.case_data r !! "case_number" = Some label' ->
  label = label'.
Proof. intros (Hnum & _) Hnum'. congruence. Qed.

Lemma found_after_search env request p r p' label :
  search_case env request p = (JsonResult r, p') ->
  Result.case_data r !! "case_number" = Some label ->
  label ∈ case_numbers (db p')
  /\ (label ∈ case_numbers (db p) ->
      DB.case_data (db p') = DB.case_data (db p)
      /\ DB.case_order (db p') = DB.case_order (db p)).
Proof.
  intros Hsearch Hnum.
  pose proof (search_case_outcome env request p) as Hout.
  rewrite Hsearch in Hout. simpl in Hout.
  inversion Hout; subst;
    match goal with H : answered _ _ _ |- _ =>
      pose proof (answered_label _ _ _ _ H Hnum); subst end;
    match goal with H : db p' = _ |- _ => rewrite H; clear H end.
  - unfold case_numbers, db_add_all in *. simpl. rewrite !app_nil_r. done.
  - destruct (written_tables c os q (db p)) as (Hcases & Horders & _).
    unfold case_numbers in *. rewrite Hcases, fmap_app. split; [|done].
    apply elem_of_app. right. csimpl. apply list_elem_of_singleton. done.
Qed.

(** C3. Take a database whose case numbers are unique, a search that
    succeeds with some label, any number of further requests, and another
    search that succeeds with the same label.  After the first search the
    label names exactly one case record; after the last it names that very
    record, every column as it was; the orders owned by the record are the
    ones it had after the first search; and the last search itself adds
    nothing to the case and order tables. *)
Theorem repeated_search_one_case env1 request1 p0 r1 p1 steps env2 request2 r2 p3 label :
  NoDup (case_numbers (db p0)) ->
  search_case env1 request1 p0 = (JsonResult r1, p1) ->
  search_case env2 request2 (run steps p1) = (JsonResult r2, p3) ->
  Result.case_data r1 !! "case_number" = Some label ->
  Result.case_data r2 !! "case_number" = Some label ->
  exists c,
    cases_labelled label (db p1) = [c]
    /\ cases_labelled label (db p3) = [c]
    /\ orders_of_case c (db p3) = orders_of_case c (db p1)
    /\ DB.case_data (db p3) = DB.case_data (db (run steps p1))
    /\ DB.case_order (db p3) = DB.case_order (db (run steps p1)).
Proof.
  intros Hnd Hfirst Hsecond Hlabel1 Hlabel2.
  destruct (found_after_search _ _ _ _ _ _ Hfirst Hlabel1) as [Hin1 _].
  pose proof (search_grows env1 request1 p0) as Hg01. rewrite Hfirst in Hg01.
  simpl in Hg01. destruct Hg01 as (_ & _ & _ & Hnd1). specialize (Hnd1 Hnd).
  destruct (cases_labelled_unique _ _ Hnd1 Hin1) as [c Hc].
  pose proof (run_grows steps p1) as Hg12.
  pose proof (search_grows env2 request2 (run steps p1)) as Hg23.
  rewrite Hsecond in Hg23. simpl in Hg23.
  assert (label ∈ case_numbers (db (run steps p1))) as Hin2.
  { destruct Hg12 as (Hsub & _). unfold case_numbers in *.
    apply list_elem_of_fmap in Hin1 as (c' & -> & Hc').
    apply list_elem_of_fmap_2. auto. }
  destruct (found_after_search _ _ _ _ _ _ Hsecond Hlabel2) as [_ Hsame].
  destruct (Hsame Hin2) as [Hcases Horders].
  destruct (db_grows_trans _ _ _ Hg12 Hg23) as (_ & Hlab & Hord & _).
  exists c. repeat split; try done.
  - unfold cases_labelled in *. by rewrite (Hlab label Hin1).
  - apply Hord.
    assert (c ∈ filter (fun c => CaseData.case_number c = label) (DB.case_data (db p1)))
      as Hcin by (unfold cases_labelled in Hc; rewrite Hc; constructor).
    by apply list_elem_of_filter in Hcin as [_ ?].
Qed.

Lemma repeated_search_one_case_witness :
  exists c,
    cases_labelled (PyStr "Writ Petition 123/2023") (db sample_search.2) = [c]
    /\ cases_labelled (PyStr "Writ Petition 123/2023") (db sample_search_again.2) = [c]
    /\ orders_of_case c (db sample_search_again.2) = orders_of_case c (db sample_search.2).
Proof.
  assert (NoDup (case_numbers (db fresh_process))) as Hnd by (vm_compute; constructor).
  assert (search_case sample_env sample_request fresh_process
          = (JsonResult sample_result, sample_search.2)) as Hfirst
    by (vm_compute; reflexivity).
  assert (search_case sample_env sample_request
            (run [(sample_env, other_request)] sample_search.2)
          = (JsonResult sample_result_again, sample_search_again.2)) as Hsecond
    by (vm_compute; reflexivity).
  assert (Result.case_data sample_result !! "case_number"
          = Some (PyStr "Writ Petition 123/2023")) as Hlabel1
    by (vm_compute; reflexivity).
  assert (Result.case_data sample_result_again !! "case_number"
          = Some (PyStr "Writ Petition 123/2023")) as Hlabel2
    by (vm_compute; reflexivity).
  destruct (repeated_search_one_case sample_env sample_request fresh_process
              sample_result sample_search.2 [(sample_env, other_request)]
              sample_env sample_request sample_result_again sample_search_again.2
              (PyStr "Writ Petition 123/2023") Hnd Hfirst Hsecond Hlabel1 Hlabel2)
    as (c & H1 & H3 & Ho & _).
  exists c. split; [exact H1 | split; [exact H3 | exact Ho]].
Defined.

(** ** Atomic writes *)

(** C6. A request leaves the database in one of three states: untouched,
    the answer then not being a success; extended by the log row alone,
    the answer being a scraper error recorded with [success = False] or a
    result whose case is already on file; or extended by the new case, its
    orders (one per order of the result, each referring to the case) and
    the log row together, the answer being a result whose label was not on
    file.  When the store fails on flush or commit nothing is written and
    the answer is the generic internal error with status 500, for every
    request that has a write to make, which is every request naming a
    court of the dispatch with a filing year [int()] converts; the one
    other answer under such a store is the unsupported court, which
    writes nothing.  The generic internal error is only ever answered
    with the database untouched. *)
Theorem search_case_atomic env request p response p' :
  search_case env request p = (response, p') ->
  ((db p' = db p /\ status_code response <> 200)
   \/ (exists q,
         logged request q
         /\ db p' = db_add_all [OQuery q] (db p)
         /\ ((exists c msg,
                response = JsonError (String c msg) 500
                /\ CaseQuery.success q = false
                /\ CaseQuery.raw_response q = Some (String c msg))
             \/ (exists r label,
                   response = JsonResult r
                   /\ CaseQuery.success q = true
                   /\ Result.case_data r !! "case_number" = Some label
                   /\ label ∈ case_numbers (db p))))
   \/ (exists r label q c os,
         response = JsonResult r
         /\ logged request q
         /\ CaseQuery.success q = true
         /\ Result.case_data r !! "case_number" = Some label
         /\ (label ∉ case_numbers (db p))
         /\ CaseData.case_number c = label
         /\ Forall (fun o => CaseOrder.case_id o = CaseData.id c) os
         /\ length os = length (Result.orders r)
         /\ db p' = db_add_all (OCase c :: (OOrder <$> os) ++ [OQuery q]) (db p)))
  /\ ((flush_fault env = true \/ commit_fault env = true) ->
      db p' = db p
      /\ (response = JsonError "Internal server error" 500
          \/ response = JsonError "Unsupported court selected" 400)
      /\ (forall data filing_year,
            request = BodyObject data ->
            py_int (dict_get data "filing_year") = inr filing_year ->
            supported (dict_get data "court") ->
            response = JsonError "Internal server error" 500))
  /\ (response = JsonError "Internal server error" 500 -> db p' = db p).
Proof.
  intros Hsearch.
  pose proof (search_case_outcome env request p) as Hout.
  rewrite Hsearch in Hout. simpl in Hout.
  inversion Hout; subst.
  - split; [by left|]. split; [|done].
    intros _. split; [done|]. split; [by left | done].
  - split; [by left|]. split; [|done].
    intros _. split; [done|]. split; [by right|].
    by intros data' filing_year' [= <-] _ Hsup.
  - split; [|split].
    + right. left. eexists. repeat split; [done..|]. left. eauto.
    + intros [?|?]; congruence.
    + intros [= -> _]. done.
  - match goal with H : answered _ _ _ |- _ => destruct H as (Hnum & _) end.
    split; [|split].
    + right. left. eexists. repeat split; [done..|]. right. eauto 10.
    + intros [?|?]; congruence.
    + done.
  - match goal with H : answered _ _ _ |- _ => destruct H as (Hnum & _) end.
    split; [|split].
    + right. right. eexists _, _, _, _, _. repeat split; done.
    + intros [?|?]; congruence.
    + done.
Qed.

Lemma search_case_atomic_witness :
  commit_fault commit_fault_env = true
  /\ failed_search.1 = JsonError "Internal server error" 500
  /\ db failed_search.2 = db fresh_process.
Proof.
  assert (search_case commit_fault_env sample_request fresh_process
          = (failed_search.1, failed_search.2)) as Hsearch
    by (vm_compute; reflexivity).
  destruct (proj1 (proj2 (search_case_atomic commit_fault_env sample_request
                            fresh_process _ _ Hsearch))
              (or_intror eq_refl)) as (Hdb & _ & Hresp).
  split; [reflexivity|]. split; [|exact Hdb].
  apply (Hresp sample_data 2023); [reflexivity | reflexivity |].
  apply (bool_decide_unpack _). vm_compute. exact I.
Defined.

(** * Further properties *)

(** ** What the scrapers generate *)

Lemma mock_order_date date description :
  mock_order date description !! "date" = Some (PyStr date).
Proof. reflexivity. Qed.

Lemma mock_order_description date description :
  mock_order date description !! "description" = Some (PyStr description).
Proof. reflexivity. Qed.

Lemma mock_case_data_items label petitioner respondent filing_date next_hearing
    status judge :
  let d := mock_case_data label petitioner respondent filing_date next_hearing
             status judge in
  d !! "case_number" = Some (PyStr label)
  /\ d !! "petitioner" = Some (PyStr petitioner)
  /\ d !! "respondent" = Some (PyStr respondent)
  /\ d !! "filing_date" = Some (PyStr filing_date)
  /\ d !! "next_hearing" = Some (PyStr next_hearing)
  /\ d !! "status" = Some (PyStr status)
  /\ d !! "judge" = Some (PyStr judge).
Proof. repeat split; reflexivity. Qed.

Lemma choice_in env (seq : list string) (n : nat) :
  seq <> [] ->
  exists s, choice env seq n = (inr s, S n) /\ s ∈ seq.
Proof.
  intros Hne. unfold choice, bind, randbelow, ret.
  eexists. split; [reflexivity|].
  apply list_elem_of_In, nth_In.
  assert (0 < Z.of_nat (length seq)) as Hlen by (destruct seq; simpl; [done|lia]).
  pose proof (Z.mod_pos_bound (tape env n) (Z.of_nat (length seq)) Hlen). lia.
Qed.

Lemma randint_in env (a b : Z) (n : nat) :
  a <= b ->
  exists k, randint env a b n = (inr k, S n) /\ a <= k <= b.
Proof.
  intros Hab. unfold randint, bind, randbelow, ret.
  eexists. split; [reflexivity|].
  pose proof (Z.mod_pos_bound (tape env n) (b - a + 1) ltac:(lia)). lia.
Qed.

Lemma generate_mock_data_payload env case_type case_number filing_year court_name n label :
  BaseScraper.case_num case_type case_number filing_year court_name = inr label ->
  exists r,
    BaseScraper.generate_mock_data env case_type case_number filing_year court_name n
    = (inr (Result.case_data r, Result.orders r), (n + 10)%nat)
    /\ mock_payload env filing_year label r.
Proof.
  intros Hnum. unfold BaseScraper.generate_mock_data.
  rewrite bind_lift_exn, Hnum.
  destruct (choice_in env BaseScraper.petitioners n ltac:(done)) as (pet & Hpet & Hpin).
  rewrite bind_eq, Hpet.
  destruct (choice_in env BaseScraper.respondents (S n) ltac:(done)) as (res & Hres & Hrin).
  rewrite bind_eq, Hres.
  destruct (randint_in env 1 12 (S (S n)) ltac:(lia)) as (fm & Hfm & Hfmb).
  rewrite bind_eq, Hfm.
  destruct (randint_in env 1 28 (S (S (S n))) ltac:(lia)) as (fd & Hfd & Hfdb).
  rewrite bind_eq, Hfd.
  destruct (randint_in env 8 12 (S (S (S (S n)))) ltac:(lia)) as (hm & Hhm & Hhmb).
  rewrite bind_eq, Hhm.
  destruct (randint_in env 1 28 (S (S (S (S (S n))))) ltac:(lia)) as (hd & Hhd & Hhdb).
  rewrite bind_eq, Hhd.
  destruct (choice_in env ["pending"; "disposed"] (S (S (S (S (S (S n)))))) ltac:(done))
    as (status & Hst & Hstin).
  rewrite bind_eq, Hst.
  destruct (choice_in env BaseScraper.judges (S (S (S (S (S (S (S n))))))) ltac:(done))
    as (judge & Hj & Hjin).
  rewrite bind_eq, Hj.
  destruct (randint_in env 1 30 (S (S (S (S (S (S (S (S n)))))))) ltac:(lia))
    as (od & Hod & Hodb).
  rewrite bind_eq, Hod.
  destruct (choice_in env BaseScraper.order_descriptions
              (S (S (S (S (S (S (S (S (S n))))))))) ltac:(done)) as (desc & Hd & Hdin).
  rewrite bind_eq, Hd.
  eexists (Result.Build _ _ (elapsed_ms env) true None).
  split.
  - unfold ret. cbn [Result.case_data Result.orders]. f_equal. f_equal. lia.
  - exists pet, res, status, judge, desc, fm, fd, hm, hd, od.
    repeat split; try done; lia.
Qed.

Lemma scrape_payload env base lo hi court_name case_type case_number filing_year n label :
  BaseScraper.case_num case_type case_number filing_year court_name = inr label ->
  exists r,
    BaseScraper.scrape env base lo hi court_name case_type case_number filing_year n
    = (inr (Some r, None), (n + 11)%nat)
    /\ mock_payload env filing_year label r.
Proof.
  intros Hnum.
  destruct (generate_mock_data_payload env case_type case_number filing_year
              court_name (S n) label Hnum) as (r & Hgen & Hr).
  exists r. split; [|done].
  unfold BaseScraper.scrape, try_except.
  rewrite bind_eq. unfold uniform at 1, random, bind at 1, randbelow at 1, ret at 1.
  cbv beta iota. unfold bind at 1, ret at 1. cbv beta iota.
  rewrite bind_eq. unfold BaseScraper.sleep at 1, ret at 1. cbv beta iota.
  rewrite bind_eq, Hgen. unfold ret. cbn [fst snd].
  destruct Hr as (? & ? & ? & ? & ? & ? & ? & ? & ? & ? & _ & _ & _ & _ & _ & _ & _ & _ & _ & _ & ->).
  cbn [Result.case_data Result.orders]. f_equal. lia.
Qed.

Lemma scrape_error_exact env base lo hi court_name case_type case_number filing_year n e :
  BaseScraper.case_num case_type case_number filing_year court_name = inl e ->
  BaseScraper.scrape env base lo hi court_name case_type case_number filing_year n
  = (inr (None, Some (exn_msg e)), S n).
Proof.
  intros Hnum.
  cbv [BaseScraper.scrape BaseScraper.generate_mock_data BaseScraper.sleep
       try_except bind ret lift_exn uniform random randbelow].
  by rewrite Hnum.
Qed.

(** ** Parsing the generated dates *)

Lemma forallb_seqZ (P : Z -> bool) (lo n : Z) :
  forallb P (seqZ lo n) = true ->
  forall y, lo <= y < lo + n -> P y = true.
Proof.
  intros Hall y Hy. rewrite forallb_forall in Hall. apply Hall.
  apply list_elem_of_In, elem_of_seqZ. lia.
Qed.

Lemma four_digit_years : forallb four_digit_text (seqZ 1000 9000) = true.
Proof. vm_compute. reflexivity. Qed.

Lemma short_years : forallb short_text (seqZ 0 1000) = true.
Proof. vm_compute. reflexivity. Qed.

Lemma append_cons (a : ascii) (s t : string) :
  String a s +:+ t = String a (s +:+ t).
Proof. reflexivity. Qed.

Lemma append_nil (t : string) : "" +:+ t = t.
Proof. reflexivity. Qed.

Lemma month_field_fmt (m : Z) (rest : string) :
  1 <= m <= 12 ->
  month_field (fmt_02d m +:+ String "-" rest) = Some (m, rest).
Proof.
  intros Hm.
  assert (m = 1 \/ m = 2 \/ m = 3 \/ m = 4 \/ m = 5 \/ m = 6 \/ m = 7 \/ m = 8
          \/ m = 9 \/ m = 10 \/ m = 11 \/ m = 12) as Hcases by lia.
  repeat (destruct Hcases as [->|Hcases]; [reflexivity|]). by subst.
Qed.

Lemma day_field_fmt (d : Z) :
  1 <= d <= 31 -> day_field (fmt_02d d) = Some d.
Proof.
  intros Hd.
  assert (exists k : nat, (k < 31)%nat /\ d = 1 + Z.of_nat k) as (k & Hk & ->)
    by (exists (Z.to_nat (d - 1)); lia).
  do 31 (destruct k as [|k]; [reflexivity|]). lia.
Qed.

Lemma days_in_month_min (y m : Z) : 28 <= days_in_month y m.
Proof. unfold days_in_month. repeat case_match; lia. Qed.

Lemma strptime_date_text (y m d : Z) :
  1000 <= y <= 9999 -> 1 <= m <= 12 -> 1 <= d <= days_in_month y m ->
  strptime_ymd (PyStr (date_text (str_of_int y) m d)) = inr (Date y m d).
Proof.
  intros Hy Hm Hd.
  pose proof (forallb_seqZ _ _ _ four_digit_years y ltac:(lia)) as Hfour.
  unfold four_digit_text in Hfour.
  destruct (str_of_int y) as [|a [|b [|c [|e [|? ?]]]]]; try done.
  destruct (two_digits a b) as [hi|] eqn:Hhi; [|done].
  destruct (two_digits c e) as [lo|] eqn:Hlo; [|done].
  apply Z.eqb_eq in Hfour.
  unfold date_text. rewrite !append_cons, !append_nil. unfold strptime_ymd.
  rewrite Hhi, Hlo, month_field_fmt by done.
  assert (d <= 31) by (unfold days_in_month in Hd; repeat case_match; lia).
  rewrite day_field_fmt by lia.
  rewrite Hfour.
  replace (1 <=? y) with true by lia. replace (d <=? days_in_month y m) with true by lia.
  reflexivity.
Qed.

Lemma strptime_short_year (y m d : Z) :
  y < 1000 ->
  exists e, strptime_ymd (PyStr (date_text (str_of_int y) m d)) = inl e.
Proof.
  intros Hy. unfold date_text.
  destruct (decide (y < 0)) as [Hneg|Hpos].
  - destruct y as [|q|q]; try lia.
    unfold str_of_int. cbn [Z.to_int NilZero.string_of_int].
    rewrite !append_cons. unfold strptime_ymd.
    repeat (case_match; eauto).
  - pose proof (forallb_seqZ _ _ _ short_years y ltac:(lia)) as Hshort.
    unfold short_text in Hshort. apply Nat.ltb_lt in Hshort.
    destruct (str_of_int y) as [|a [|b [|c [|e s]]]]; simpl in Hshort; try lia;
      rewrite ?append_cons, ?append_nil; unfold strptime_ymd;
      repeat (case_match; eauto);
      unfold two_digits in *; repeat case_match; simplify_eq.
Qed.

(** ** Years of more than four digits *)

Lemma of_lu_bound (d : Decimal.uint) :
  (DecimalPos.Unsigned.of_lu d < 10 ^ N.of_nat (Decimal.nb_digits d))%N.
Proof.
  induction d; cbn [DecimalPos.Unsigned.of_lu Decimal.nb_digits];
    rewrite ?Nat2N.inj_succ, ?N.pow_succ_r'; simpl N.of_nat; rewrite ?N.pow_0_r; lia.
Qed.

Lemma digits_of_large (p : positive) :
  (10000 <= N.pos p)%N -> (5 <= Decimal.nb_digits (Pos.to_uint p))%nat.
Proof.
  intros Hp.
  pose proof (of_lu_bound (Decimal.rev (Pos.to_uint p))) as Hb.
  rewrite <- DecimalPos.Unsigned.of_uint_alt, DecimalPos.Unsigned.of_to,
    DecimalFacts.nb_digits_rev in Hb.
  destruct (le_lt_dec 5 (Decimal.nb_digits (Pos.to_uint p))) as [|Hlt]; [done|].
  exfalso.
  assert (10 ^ N.of_nat (Decimal.nb_digits (Pos.to_uint p)) <= 10 ^ 4)%N.
  { apply N.pow_le_mono_r; lia. }
  change (10 ^ 4)%N with 10000%N in *. lia.
Qed.

Lemma uint_text (u : Decimal.uint) :
  (1 <= Decimal.nb_digits u)%nat ->
  exists c u',
    NilEmpty.string_of_uint u = String c (NilEmpty.string_of_uint u')
    /\ In c ["0"; "1"; "2"; "3"; "4"; "5"; "6"; "7"; "8"; "9"]%char
    /\ Decimal.nb_digits u = S (Decimal.nb_digits u').
Proof.
  destruct u; simpl; [lia|..]; intros _; eexists _, _;
    (split; [reflexivity|]); (split; [|reflexivity]); tauto.
Qed.

Lemma long_year_text (y : Z) :
  9999 < y ->
  exists a b c d e s,
    str_of_int y = String a (String b (String c (String d (String e s))))
    /\ In e ["0"; "1"; "2"; "3"; "4"; "5"; "6"; "7"; "8"; "9"]%char.
Proof.
  intros Hy. destruct y as [|p|p]; try lia.
  unfold str_of_int. cbn [Z.to_int NilZero.string_of_int].
  pose proof (digits_of_large p ltac:(lia)) as Hlen.
  assert (NilZero.string_of_uint (Pos.to_uint p)
          = NilEmpty.string_of_uint (Pos.to_uint p)) as ->.
  { destruct (Pos.to_uint p); [simpl in Hlen; lia | reflexivity..]. }
  destruct (uint_text (Pos.to_uint p)) as (a & u1 & -> & _ & H1); [lia|].
  destruct (uint_text u1) as (b & u2 & -> & _ & H2); [lia|].
  destruct (uint_text u2) as (c & u3 & -> & _ & H3); [lia|].
  destruct (uint_text u3) as (d & u4 & -> & _ & H4); [lia|].
  destruct (uint_text u4) as (e & u5 & -> & He & H5); [lia|].
  by eexists _, _, _, _, _, _.
Qed.

Lemma strptime_long_year (y m d : Z) :
  9999 < y ->
  exists e, strptime_ymd (PyStr (date_text (str_of_int y) m d)) = inl e.
Proof.
  intros Hy. unfold date_text.
  destruct (long_year_text y Hy) as (a & b & c & d' & e & s & -> & He).
  rewrite !append_cons. unfold strptime_ymd.
  simpl in He.
  repeat (destruct He as [<-|He]; [eauto|]). done.
Qed.

(** ** The dispatch, by court *)

Lemma lift_rng_scrape_payload env base lo hi court_name case_type case_number
    filing_year st label :
  BaseScraper.case_num case_type case_number filing_year court_name = inr label ->
  exists r st',
    lift_rng (BaseScraper.scrape env base lo hi court_name case_type case_number
                filing_year) st = (inr (Some r, None), st')
    /\ same_session st st' /\ mock_payload env filing_year label r.
Proof.
  intros Hnum.
  destruct (scrape_payload env base lo hi court_name case_type case_number
              filing_year (rng (proc st)) label Hnum) as (r & Heq & Hr).
  unfold lift_rng. rewrite Heq. by eexists _, _.
Qed.

Lemma lift_rng_scrape_error env base lo hi court_name case_type case_number
    filing_year st e :
  BaseScraper.case_num case_type case_number filing_year court_name = inl e ->
  exists st',
    lift_rng (BaseScraper.scrape env base lo hi court_name case_type case_number
                filing_year) st = (inr (None, Some (exn_msg e)), st')
    /\ same_session st st'.
Proof.
  intros Hnum. unfold lift_rng.
  rewrite (scrape_error_exact env base lo hi court_name case_type case_number
             filing_year (rng (proc st)) e Hnum).
  by eexists.
Qed.

Lemma court_key_supported court key :
  court_key court = Some key -> court = PyStr key /\ supported court.
Proof.
  unfold court_key, supported, supported_courts.
  repeat case_match; intros; simplify_eq; (split; [done|]); csimpl;
    repeat constructor.
Qed.

Lemma supported_court_key court :
  supported court -> exists key, court_key court = Some key.
Proof.
  unfold supported, supported_courts, court_key. intros Hin.
  repeat case_match; eauto.
  exfalso. apply list_elem_of_fmap in Hin as (s & -> & Hs).
  repeat (apply elem_of_cons in Hs as [->|Hs]; [done|]).
  by apply elem_of_nil in Hs.
Qed.

Lemma choose_scraper_payload env court case_type case_number filing_year st key label :
  court_key court = Some key ->
  BaseScraper.case_num case_type case_number filing_year key = inr label ->
  exists r st',
    choose_scraper env court case_type case_number filing_year st
    = (inr (Some (Some r, None)), st')
    /\ same_session st st' /\ mock_payload env filing_year label r.
Proof.
  unfold court_key, choose_scraper.
  destruct (decide (court = PyStr "delhi-high")) as [->|H1].
  { intros [= <-] Hnum.
    destruct (lift_rng_scrape_payload env 2 0.5 1.5 _ _ _ _ st _ Hnum)
      as (r & st' & Heq & Hs & Hr).
    unfold bind, DelhiHighCourtScraper.scrape_case_data. rewrite Heq.
    by eexists _, _. }
  destruct (decide (court = PyStr "supreme")) as [->|H2].
  { intros [= <-] Hnum.
    destruct (lift_rng_scrape_payload env 1.5 0.5 1.0 _ _ _ _ st _ Hnum)
      as (r & st' & Heq & Hs & Hr).
    unfold bind, SupremeCourtScraper.scrape_case_data. rewrite Heq.
    by eexists _, _. }
  destruct (decide (court = PyStr "bombay-high")) as [->|H3].
  { intros [= <-] Hnum.
    destruct (lift_rng_scrape_payload env 1.8 0.5 1.2 _ _ _ _ st _ Hnum)
      as (r & st' & Heq & Hs & Hr).
    unfold bind, BombayHighCourtScraper.scrape_case_data. rewrite Heq.
    by eexists _, _. }
  destruct (decide (court = PyStr "delhi-district")) as [->|H4].
  { intros [= <-] Hnum.
    destruct (lift_rng_scrape_payload env 1 0.5 1.0 ("delhi" +:+ "-district") _ _ _
                (set_district "delhi" st) _ Hnum)
      as (r & st' & Heq & Hs & Hr).
    unfold bind, ECourtsScraper.scrape_case_data. simpl. rewrite Heq.
    by eexists _, _. }
  destruct (decide (court = PyStr "faridabad-district")) as [->|H5]; [|done].
  intros [= <-] Hnum.
  destruct (lift_rng_scrape_payload env 1 0.5 1.0 ("faridabad" +:+ "-district") _ _ _
              (set_district "faridabad" st) _ Hnum)
    as (r & st' & Heq & Hs & Hr).
  unfold bind, ECourtsScraper.scrape_case_data. simpl. rewrite Heq.
  by eexists _, _.
Qed.

Lemma choose_scraper_error env court case_type case_number filing_year st key e :
  court_key court = Some key ->
  BaseScraper.case_num case_type case_number filing_year key = inl e ->
  exists st',
    choose_scraper env court case_type case_number filing_year st
    = (inr (Some (None, Some (exn_msg e))), st')
    /\ same_session st st'.
Proof.
  unfold court_key, choose_scraper.
  destruct (decide (court = PyStr "delhi-high")) as [->|H1].
  { intros [= <-] Hnum.
    destruct (lift_rng_scrape_error env 2 0.5 1.5 _ _ _ _ st _ Hnum)
      as (st' & Heq & Hs).
    unfold bind, DelhiHighCourtScraper.scrape_case_data. rewrite Heq.
    exists st'. by split. }
  destruct (decide (court = PyStr "supreme")) as [->|H2].
  { intros [= <-] Hnum.
    destruct (lift_rng_scrape_error env 1.5 0.5 1.0 _ _ _ _ st _ Hnum)
      as (st' & Heq & Hs).
    unfold bind, SupremeCourtScraper.scrape_case_data. rewrite Heq.
    exists st'. by split. }
  destruct (decide (court = PyStr "bombay-high")) as [->|H3].
  { intros [= <-] Hnum.
    destruct (lift_rng_scrape_error env 1.8 0.5 1.2 _ _ _ _ st _ Hnum)
      as (st' & Heq & Hs).
    unfold bind, BombayHighCourtScraper.scrape_case_data. rewrite Heq.
    exists st'. by split. }
  destruct (decide (court = PyStr "delhi-district")) as [->|H4].
  { intros [= <-] Hnum.
    destruct (lift_rng_scrape_error env 1 0.5 1.0 ("delhi" +:+ "-district") _ _ _
                (set_district "delhi" st) _ Hnum)
      as (st' & Heq & Hs).
    unfold bind, ECourtsScraper.scrape_case_data. simpl. rewrite Heq.
    exists st'. by split. }
  destruct (decide (court = PyStr "faridabad-district")) as [->|H5]; [|done].
  intros [= <-] Hnum.
  destruct (lift_rng_scrape_error env 1 0.5 1.0 ("faridabad" +:+ "-district") _ _ _
              (set_district "faridabad" st) _ Hnum)
    as (st' & Heq & Hs).
  unfold bind, ECourtsScraper.scrape_case_data. simpl. rewrite Heq.
  exists st'. by split.
Qed.

(** ** Rows written, exactly *)

Lemma insert_stamp env o d o' d' :
  insert env o d = inr (o', d') -> o' = stamp env d o.
Proof.
  unfold insert, stamp. destruct o; repeat case_match; intros; by simplify_eq.
Qed.

Lemma insert_all_stamp env os : forall d os' d',
  insert_all env os d = inr (os', d') -> os' = stamp_all env d os.
Proof.
  induction os as [|o os IH]; intros d os' d'; simpl.
  - by intros [= <- <-].
  - destruct (insert env o d) as [e|[o1 d1]] eqn:Hins; [discriminate|].
    destruct (insert_all env os d1) as [e|[os1 d2]] eqn:Hall; [discriminate|].
    intros [= <- <-].
    pose proof (insert_stamp _ _ _ _ _ Hins) as ->.
    apply insert_spec in Hins as [-> _].
    by rewrite (IH _ _ _ Hall).
Qed.

Lemma flush_exact env st os st' :
  session_flush env st = (inr os, st') ->
  os = stamp_all env (txn st) (pending st)
  /\ st' = MkState (proc st) (db_add_all os (txn st)) [].
Proof.
  intros Hf. pose proof Hf as Hf'.
  apply flush_spec in Hf as [(? & ? & _)|(os' & [= <-] & _ & _ & ->)]; [done|].
  split; [|done].
  unfold session_flush in Hf'. destruct (pending st) as [|o pend]; [by simplify_eq|].
  destruct (flush_fault env); [done|].
  destruct (insert_all env (o :: pend) (txn st)) as [e|[os1 d]] eqn:Hall; [done|].
  simplify_eq. by apply insert_all_stamp in Hall.
Qed.

Lemma commit_exact env st st' :
  session_commit env st = (inr tt, st') ->
  db (proc st') = db_add_all (stamp_all env (txn st) (pending st)) (txn st).
Proof.
  unfold session_commit, bind.
  destruct (session_flush env st) as [[e|os] st1] eqn:Hf; [done|].
  apply flush_exact in Hf as [-> ->].
  destruct (commit_fault env); [done|]. by intros [= <-].
Qed.

Lemma add_commit_exact {B} env q (k : unit -> M B) st res st' :
  bind (session_add (OQuery q)) (fun _ => bind (session_commit env) k) st = (res, st') ->
  (exists e, res = inl e /\ db (proc st') = db (proc st))
  \/ (exists st2,
        db (proc st2)
        = db_add_all (stamp_all env (txn st) (pending st ++ [OQuery q])) (txn st)
        /\ k tt st2 = (res, st')).
Proof.
  rewrite bind_session_add, bind_eq.
  match goal with |- context [session_commit env ?s] =>
    destruct (session_commit env s) as [[e|[]] st2] eqn:Hc end.
  - apply commit_spec in Hc as [(e' & ? & Hdb)|(os & ? & _)]; [|done].
    simplify_eq. simpl in Hdb. intros [= <- <-]. left. eauto.
  - apply commit_exact in Hc. simpl in Hc. intros Hk. right. eauto.
Qed.

Lemma save_order_exact case_id order st st' :
  save_order case_id order st = (inr tt, st') ->
  exists o, order_of case_id order = inr o
            /\ st' = MkState (proc st) (txn st) (pending st ++ [OOrder o]).
Proof.
  unfold save_order, order_of, bind, lift_exn, session_add.
  destruct (dict_item order "date") as [e|date_text]; [done|].
  destruct (strptime_ymd date_text) as [e|order_date]; [done|].
  destruct (dict_item order "description") as [e|description]; [done|].
  intros [= <-]. eauto.
Qed.

Lemma save_orders_exact case_id orders : forall st st',
  for_each orders (save_order case_id) st = (inr tt, st') ->
  exists os,
    Forall2 (fun order o => order_of case_id order = inr o) orders os
    /\ st' = MkState (proc st) (txn st) (pending st ++ (OOrder <$> os)).
Proof.
  induction orders as [|order orders IH]; intros st st'; simpl.
  - intros [= <-]. exists []. split; [constructor|]. simpl. rewrite app_nil_r.
    by destruct st.
  - unfold bind at 1.
    destruct (save_order case_id order st) as [[e|[]] st1] eqn:Hone; [done|].
    apply save_order_exact in Hone as (o & Ho & ->).
    intros Hrest. apply IH in Hrest as (os & Hall & ->). simpl.
    exists (o :: os). split; [by constructor|]. by rewrite <- app_assoc.
Qed.

Lemma save_new_case_exact env court result st st' :
  pending st = [] ->
  save_new_case env court result st = (inr tt, st') ->
  exists label filing_date next_hearing_date os,
    Result.case_data result !! "case_number" = Some label
    /\ date_item (Result.case_data result) "filing_date" = inr filing_date
    /\ date_item (Result.case_data result) "next_hearing" = inr next_hearing_date
    /\ Forall2
         (fun order o =>
            order_of (Some (next_id (CaseData.id <$> DB.case_data (txn st)))) order
            = inr o)
         (Result.orders result) os
    /\ st' = MkState (proc st)
               (db_add_all
                  [stamp env (txn st)
                     (OCase (new_case_of court (Result.case_data result) label
                               filing_date next_hearing_date))]
                  (txn st))
               (OOrder <$> os).
Proof.
  intros Hnil. unfold save_new_case, date_item, dict_item.
  unfold bind at 1, lift_exn at 1.
  destruct (Result.case_data result !! "case_number") as [label|]; [|done].
  unfold bind at 1, lift_exn at 1.
  destruct (Result.case_data result !! "filing_date") as [filing_text|]; [|done].
  unfold bind at 1, lift_exn at 1.
  destruct (strptime_ymd filing_text) as [e|filing_date]; [done|].
  unfold bind at 1, lift_exn at 1.
  destruct (Result.case_data result !! "next_hearing") as [hearing_text|]; [|done].
  unfold bind at 1, lift_exn at 1.
  destruct (strptime_ymd hearing_text) as [e|next_hearing_date]; [done|].
  unfold bind at 1, session_add at 1. rewrite Hnil. simpl app.
  unfold bind at 1.
  match goal with |- context [session_flush env ?s] =>
    destruct (session_flush env s) as [[e|flushed] st1] eqn:Hf end; [done|].
  apply flush_exact in Hf as [-> ->]. simpl.
  intros Hloop. apply save_orders_exact in Hloop as (os & Hall & ->). simpl.
  exists label, filing_date, next_hearing_date, os. by repeat split.
Qed.

Lemma mock_payload_label env filing_year label r :
  mock_payload env filing_year label r ->
  Result.case_data r !! "case_number" = Some (PyStr label).
Proof.
  intros (? & ? & ? & ? & ? & ? & ? & ? & ? & ? & Hr).
  destruct Hr as (_ & _ & _ & _ & _ & _ & _ & _ & _ & _ & ->). reflexivity.
Qed.

Lemma search_case_effect env request p :
  search_effect env request p
    (search_case env request p).1 (search_case env request p).2.
Proof.
  unfold search_case, search_case_body, teardown.
  rewrite bind_lift_exn.
  destruct (get_json request) as [e|data] eqn:Hjson; [by apply effect_nothing|].
  assert (request = BodyObject data) as -> by (destruct request; simpl in Hjson; by simplify_eq).
  clear Hjson. rewrite bind_lift_exn.
  destruct (py_int (dict_get data "filing_year")) as [e|filing_year] eqn:Hyear;
    [by apply effect_nothing|].
  rewrite bind_eq.
  destruct (court_key (dict_get data "court")) as [key|] eqn:Hkey; cycle 1.
  { destruct (choose_scraper_spec env (dict_get data "court") (dict_get data "case_type")
                (dict_get data "case_number") filing_year (MkState p (db p) []))
      as (chosen & st1 & -> & _ & Hch).
    destruct chosen as [out|]; [|destruct Hch as [-> _]; by apply effect_nothing].
    destruct Hch as [Hsup _]. apply supported_court_key in Hsup as [key Hsup]. congruence. }
  destruct (BaseScraper.case_num (dict_get data "case_type") (dict_get data "case_number")
              filing_year key) as [e|label] eqn:Hnum.
  - (* the scraper reported an error *)
    destruct (choose_scraper_error env _ _ _ _ (MkState p (db p) []) _ _ Hkey Hnum)
      as (st1 & -> & Hdb & Htxn & Hpe).
    simpl in Hdb, Htxn, Hpe.
    destruct (case_num_error _ _ _ _ _ Hnum) as (c & msg & Hmsg & _). rewrite Hmsg.
    match goal with |- context [bind (session_add ?o) ?k st1] =>
      destruct (bind (session_add o) k st1) as [res st3] eqn:Hrun end.
    apply add_commit_exact in Hrun as [(e' & -> & Hdb3)|(st2 & Hdb2 & Hk)].
    { simpl. apply effect_nothing; [by rewrite Hdb3 | done]. }
    rewrite Hpe, Htxn in Hdb2. simpl app in Hdb2.
    injection Hk as <- <-. cbn [fst snd]. rewrite <- Hmsg in *.
    by eapply (effect_scrape_error env _ p data filing_year key e).
  - (* the scraper produced a result *)
    destruct (choose_scraper_payload env _ _ _ _ (MkState p (db p) []) _ _ Hkey Hnum)
      as (r & st1 & -> & (Hdb & Htxn & Hpe) & Hr).
    simpl in Hdb, Htxn, Hpe.
    pose proof (mock_payload_label _ _ _ _ Hr) as Hlabel.
    rewrite bind_lift_exn. unfold dict_item. rewrite Hlabel.
    rewrite bind_eq.
    destruct (case_by_number env (PyStr label) st1) as [[e|existing] st2] eqn:Hq;
      apply case_by_number_spec in Hq as [-> Hsel]; try done.
    { simpl. by apply effect_nothing. }
    destruct Hsel as [[e ?]|[Hsel [= ->]]]; [done|]. rewrite Htxn.
    destruct (head _) as [known|] eqn:Hhead.
    + apply head_filter_Some in Hhead.
      rewrite bind_ret.
      match goal with |- context [bind (session_add ?o) ?k st1] =>
        destruct (bind (session_add o) k st1) as [res st3] eqn:Hrun end.
      apply add_commit_exact in Hrun as [(e & -> & Hdb3)|(st2 & Hdb2 & Hk)].
      { simpl. apply effect_nothing; [by rewrite Hdb3 | done]. }
      rewrite Hpe, Htxn in Hdb2. simpl app in Hdb2.
      rewrite bind_eq in Hk.
      destruct (lift_rng_predict env (Result.case_data r) st2)
        as (pr & st4 & Heq & Hdb4 & n & n' & Hpr).
      rewrite Heq in Hk. injection Hk as <- <-. cbn [fst snd].
      eapply (effect_known_case env _ p data filing_year key r label pr n n');
        try done.
      by rewrite Hdb4, Hdb2.
    + apply head_filter_None in Hhead.
      rewrite bind_eq.
      destruct (save_new_case env (dict_get data "court") r st1) as [[e|[]] st2] eqn:Hsave.
      { apply save_new_case_spec in Hsave as [Hdb2 _]; [|done].
        simpl. apply effect_nothing; [by rewrite Hdb2 | done]. }
      apply save_new_case_exact in Hsave
        as (label' & fd & nh & os & Hnum' & Hfd & Hnh & Hall & ->); [|done].
      rewrite Hlabel in Hnum'. injection Hnum' as <-.
      match goal with |- context [bind (session_add ?o) ?k ?s] =>
        destruct (bind (session_add o) k s) as [res st3] eqn:Hrun end.
      apply add_commit_exact in Hrun as [(e & -> & Hdb3)|(st4 & Hdb4 & Hk)].
      { simpl. apply effect_nothing; [by rewrite Hdb3 | done]. }
      simpl in Hdb4. rewrite Htxn in Hdb4, Hall.
      rewrite bind_eq in Hk.
      destruct (lift_rng_predict env (Result.case_data r) st4)
        as (pr & st5 & Heq & Hdb5 & n & n' & Hpr).
      rewrite Heq in Hk. injection Hk as <- <-. cbn [fst snd].
      eapply (effect_new_case env _ p data filing_year key r label fd nh os pr n n');
        try done.
      rewrite Hdb5, Hdb4. simpl stamp_all. by rewrite <- db_add_all_cons.
Qed.

Lemma max_id_app (ids : list (option Z)) (k : Z) :
  fold_right (fun i acc => Z.max (default 0 i) acc) 0 (ids ++ [Some k])
  = Z.max (fold_right (fun i acc => Z.max (default 0 i) acc) 0 ids) (Z.max k 0).
Proof. induction ids as [|i ids IH]; simpl; [lia|]. rewrite IH. lia. Qed.

Lemma next_id_snoc (ids : list (option Z)) :
  next_id (ids ++ [Some (next_id ids)]) = next_id ids + 1.
Proof.
  unfold next_id. rewrite max_id_app.
  assert (0 <= fold_right (fun i acc => Z.max (default 0 i) acc) 0 ids) as Hpos.
  { induction ids as [|i ids IH]; simpl; lia. }
  lia.
Qed.

Lemma next_id_positive (ids : list (option Z)) : 1 <= next_id ids.
Proof.
  unfold next_id.
  assert (0 <= fold_right (fun i acc => Z.max (default 0 i) acc) 0 ids) as Hpos.
  { induction ids as [|i ids IH]; simpl; lia. }
  lia.
Qed.

Lemma stamp_query_same env d d' q :
  DB.case_query d' = DB.case_query d ->
  stamp env d' (OQuery q) = stamp env d (OQuery q).
Proof. intros Hd. unfold stamp. by rewrite Hd. Qed.

Lemma stamp_all_orders env q os : forall d,
  stamp_all env d ((OOrder <$> os) ++ [OQuery q])
  = (OOrder <$> number_orders (next_id (CaseOrder.id <$> DB.case_order d)) os)
    ++ [stamp env d (OQuery q)].
Proof.
  induction os as [|o os IH]; intros d; [done|].
  cbn [fmap list_fmap app stamp_all number_orders]. f_equal.
  rewrite IH. f_equal.
  - f_equal. f_equal. unfold db_add_all. cbn. rewrite fmap_app. cbn.
    apply next_id_snoc.
  - f_equal. apply stamp_query_same. unfold db_add_all. cbn. by rewrite app_nil_r.
Qed.

(** The rows of a first sighting: the case with the next case key, the
    orders numbered from the next order key, the log row with the next log
    key. *)
Lemma stamp_all_new_case env d c os q :
  stamp_all env d (OCase c :: (OOrder <$> os) ++ [OQuery q])
  = OCase (case_row env d c)
    :: (OOrder <$> order_rows d os) ++ [OQuery (query_row env d q)].
Proof.
  cbn [stamp_all]. f_equal. rewrite stamp_all_orders. f_equal.
  - f_equal. unfold order_rows, db_add_all. cbn. by rewrite app_nil_r.
  - f_equal. unfold query_row. rewrite (stamp_query_same env d); [done|].
    unfold db_add_all. cbn. by rewrite app_nil_r.
Qed.

Lemma stamp_all_query env d q :
  stamp_all env d [OQuery q] = [OQuery (query_row env d q)].
Proof. done. Qed.

Lemma tables_after_query d q :
  db_add_all [OQuery q] d
  = DB.Build (DB.case_query d ++ [q]) (DB.case_data d) (DB.case_order d).
Proof. unfold db_add_all. simpl. by rewrite !app_nil_r. Qed.

Lemma tables_after_new_case d c os q :
  db_add_all (OCase c :: (OOrder <$> os) ++ [OQuery q]) d
  = DB.Build (DB.case_query d ++ [q]) (DB.case_data d ++ [c]) (DB.case_order d ++ os).
Proof.
  destruct (written_tables c os q d) as (H1 & H2 & H3).
  destruct (db_add_all _ d) as [a b e]. simpl in *. by subst.
Qed.

(** ** Rows are kept, keys stay distinct, orders keep their case *)

(** The tables after a request, in terms of the tables before it. *)
Lemma search_case_tables env request p :
  let d := db p in
  let d' := db (search_case env request p).2 in
  d' = d
  \/ (exists q,
        CaseQuery.query_timestamp q = None
        /\ d' = DB.Build (DB.case_query d ++ [query_row env d q])
                  (DB.case_data d) (DB.case_order d))
  \/ (exists q c os,
        CaseQuery.query_timestamp q = None
        /\ (CaseData.case_number c ∉ case_numbers d)
        /\ Forall (fun o => CaseOrder.case_id o
                            = Some (next_id (CaseData.id <$> DB.case_data d))) os
        /\ d' = DB.Build (DB.case_query d ++ [query_row env d q])
                  (DB.case_data d ++ [case_row env d c])
                  (DB.case_order d ++ order_rows d os)).
Proof.
  intros d d'. subst d d'.
  pose proof (search_case_effect env request p) as Heff.
  destruct (search_case env request p) as [response p']. simpl in *.
  inversion Heff; subst;
    repeat match goal with H : db p' = _ |- _ => rewrite H; clear H end.
  - by left.
  - right. left. rewrite stamp_all_query, tables_after_query.
    eexists. split; [|reflexivity]. reflexivity.
  - right. left. rewrite stamp_all_query, tables_after_query.
    eexists. split; [|reflexivity]. reflexivity.
  - right. right. rewrite stamp_all_new_case, tables_after_new_case.
    eexists _, _, os. split; [|split; [|split]]. 4: reflexivity. 1, 2: done.
    match goal with H : Forall2 _ _ os |- _ => rename H into Hos end.
    clear -Hos. induction Hos as [|order o orders os Ho _ IH]; [done|].
    constructor; [|done]. unfold order_of in Ho. repeat case_match; by simplify_eq.
Qed.

Lemma search_case_keeps_rows env request p :
  DB.case_query (db p) `prefix_of` DB.case_query (db (search_case env request p).2)
  /\ DB.case_data (db p) `prefix_of` DB.case_data (db (search_case env request p).2)
  /\ DB.case_order (db p) `prefix_of` DB.case_order (db (search_case env request p).2)
  /\ (length (DB.case_query (db (search_case env request p).2))
      <= S (length (DB.case_query (db p))))%nat
  /\ (length (DB.case_data (db (search_case env request p).2))
      <= S (length (DB.case_data (db p))))%nat.
Proof.
  destruct (search_case_tables env request p)
    as [->|[(q & _ & ->)|(q & c & os & _ & _ & _ & ->)]]; simpl;
    rewrite ?length_app; simpl;
    repeat split; try done; try (by apply prefix_app_r); lia.
Qed.

(** X1. Serving requests never removes or rewrites a stored row: each
    table after any sequence of requests starts with the table as it was,
    and the query log and the case table gain at most one row per
    request. *)
Theorem stored_rows_are_kept steps : forall p,
  DB.case_query (db p) `prefix_of` DB.case_query (db (run steps p))
  /\ DB.case_data (db p) `prefix_of` DB.case_data (db (run steps p))
  /\ DB.case_order (db p) `prefix_of` DB.case_order (db (run steps p))
  /\ (length (DB.case_query (db (run steps p)))
      <= length (DB.case_query (db p)) + length steps)%nat
  /\ (length (DB.case_data (db (run steps p)))
      <= length (DB.case_data (db p)) + length steps)%nat.
Proof.
  induction steps as [|[env request] steps IH]; intros p; simpl.
  - repeat split; try done; lia.
  - destruct (search_case_keeps_rows env request p) as (Hq & Hc & Ho & Hlq & Hlc).
    destruct (IH (search_case env request p).2) as (Hq' & Hc' & Ho' & Hlq' & Hlc').
    repeat split; try (by etrans); lia.
Qed.

Lemma keys_distinct_snoc (ids : list (option Z)) :
  keys_distinct ids -> keys_distinct (ids ++ [Some (next_id ids)]).
Proof.
  intros [Hnd Hsome]. split.
  - apply NoDup_app. repeat split; [done| |apply NoDup_singleton].
    intros i Hi Hin. apply list_elem_of_singleton in Hin. subst i.
    apply next_id_bound in Hi. lia.
  - apply Forall_app. split; [done|]. by repeat constructor.
Qed.

Lemma keys_distinct_numbered os : forall (ids : list (option Z)),
  keys_distinct ids ->
  keys_distinct (ids ++ (CaseOrder.id <$> number_orders (next_id ids) os)).
Proof.
  induction os as [|o os IH]; intros ids Hids; simpl.
  - by rewrite app_nil_r.
  - rewrite <- next_id_snoc.
    change (?l ++ ?x :: ?r) with (l ++ [x] ++ r). rewrite app_assoc.
    apply IH. by apply keys_distinct_snoc.
Qed.

Lemma search_case_primary_keys env request p :
  primary_keys (db p) -> primary_keys (db (search_case env request p).2).
Proof.
  intros (Hq & Hc & Ho).
  destruct (search_case_tables env request p)
    as [->|[(q & _ & ->)|(q & c & os & _ & _ & _ & ->)]]; simpl.
  - done.
  - split; [|done]. simpl. rewrite fmap_app. by apply keys_distinct_snoc.
  - repeat split; simpl; rewrite fmap_app.
    + by apply keys_distinct_snoc.
    + by apply keys_distinct_snoc.
    + by apply keys_distinct_snoc.
    + by apply keys_distinct_snoc.
    + by apply keys_distinct_numbered.
    + by apply keys_distinct_numbered.
Qed.

(** X2. Primary keys: if in each table the keys are assigned and pairwise
    distinct, they still are after any sequence of requests. *)
Theorem primary_keys_preserved steps : forall p,
  primary_keys (db p) -> primary_keys (db (run steps p)).
Proof.
  induction steps as [|[env request] steps IH]; intros p Hp; simpl; [done|].
  by apply IH, search_case_primary_keys.
Qed.

Lemma primary_keys_preserved_witness :
  primary_keys (db fresh_process) /\ primary_keys (db (run sample_steps fresh_process)).
Proof.
  assert (primary_keys (db fresh_process)) as Hkeys
    by (vm_compute; repeat split; constructor).
  split; [exact Hkeys|]. exact (primary_keys_preserved sample_steps fresh_process Hkeys).
Defined.

Lemma search_case_orders_resolve env request p :
  orders_resolve (db p) -> orders_resolve (db (search_case env request p).2).
Proof.
  intros Hres.
  destruct (search_case_tables env request p)
    as [->|[(q & _ & ->)|(q & c & os & _ & _ & Hos & ->)]]; simpl; try done.
  intros o Ho. simpl in *. apply elem_of_app in Ho as [Ho|Ho].
  - destruct (Hres o Ho) as (c0 & k & Hc0 & Hk & Hid).
    exists c0, k. repeat split; [|done..]. apply elem_of_app. by left.
  - exists (case_row env (db p) c), (next_id (CaseData.id <$> DB.case_data (db p))).
    repeat split.
    + apply elem_of_app. right. constructor.
    + clear -Hos Ho. unfold order_rows in Ho.
      revert Ho. generalize (next_id (CaseOrder.id <$> DB.case_order (db p))).
      induction Hos as [|o' os Ho' _ IH]; intros k Ho; simpl in Ho.
      * by apply elem_of_nil in Ho.
      * apply elem_of_cons in Ho as [->|Ho]; [done|]. by eapply IH.
Qed.

(** X3. Foreign keys: if every order refers to a case on file, this is
    still so after any sequence of requests. *)
Theorem orders_resolve_preserved steps : forall p,
  orders_resolve (db p) -> orders_resolve (db (run steps p)).
Proof.
  induction steps as [|[env request] steps IH]; intros p Hp; simpl; [done|].
  by apply IH, search_case_orders_resolve.
Qed.

Lemma orders_resolve_preserved_witness :
  orders_resolve (db fresh_process)
  /\ orders_resolve (db (run sample_steps fresh_process)).
Proof.
  assert (orders_resolve (db fresh_process)) as Hres
    by (intros o Ho; vm_compute in Ho; inversion Ho).
  split; [exact Hres|].
  exact (orders_resolve_preserved sample_steps fresh_process Hres).
Defined.

(** ** Stored rows against the request and the answer *)

Lemma payload_lookup (case_data : pydict) (key : string) :
  dom case_data = payload_keys ->
  key ∈ payload_keys ->
  case_data !! key = Some (dict_get case_data key).
Proof.
  intros Hdom Hkey. rewrite <- Hdom in Hkey.
  apply elem_of_dom in Hkey as [v Hv]. unfold dict_get. by rewrite Hv.
Qed.

Lemma payload_key_in (key : string) :
  key ∈ ["case_number"; "petitioner"; "respondent"; "filing_date"; "next_hearing";
         "status"; "judge"] ->
  key ∈ payload_keys.
Proof.
  unfold payload_keys. rewrite !elem_of_union, !elem_of_singleton.
  intros Hin. repeat (apply elem_of_cons in Hin as [->|Hin]; [tauto|]).
  by apply elem_of_nil in Hin.
Qed.

Lemma order_rows_mirror case_id orders os : forall k,
  Forall (fun order => exists text, order !! "description" = Some (PyStr text)) orders ->
  Forall2 (fun order o => order_of case_id order = inr o) orders os ->
  Forall2 (order_mirrors case_id) orders (number_orders k os).
Proof.
  intros k Htext Hall. revert k.
  induction Hall as [|order o orders os Ho _ IH]; intros k; simpl; [constructor|].
  apply Forall_cons in Htext as [[text Htext] Hrest].
  constructor; [|by apply IH].
  unfold order_of, dict_item in Ho. unfold order_mirrors, date_item, dict_item. simpl.
  destruct (order !! "date") as [date_text|]; [|done].
  destruct (strptime_ymd date_text) as [e|order_date]; [done|].
  rewrite Htext in *. by simplify_eq.
Qed.

(** X4. On the first sighting of a label the case table gains one row and
    the order table one row per order of the answer, and they say what
    the answer says: the row carries the label, the court of the request,
    the petitioner, respondent, status and judge of the payload, its two
    dates parsed, and the current UTC time as [last_updated]; each order
    row carries the parsed date and the description of its order and the
    key of the new case. *)
Theorem first_sighting_rows env request p r p' label :
  search_case env request p = (JsonResult r, p') ->
  Result.case_data r !! "case_number" = Some label ->
  label ∉ case_numbers (db p) ->
  exists data c os,
    request = BodyObject data
    /\ DB.case_data (db p') = DB.case_data (db p) ++ [c]
    /\ DB.case_order (db p') = DB.case_order (db p) ++ os
    /\ CaseData.id c = Some (next_id (CaseData.id <$> DB.case_data (db p)))
    /\ CaseData.case_number c = label
    /\ CaseData.court_name c = dict_get data "court"
    /\ Result.case_data r !! "petitioner" = Some (CaseData.petitioner c)
    /\ Result.case_data r !! "respondent" = Some (CaseData.respondent c)
    /\ Result.case_data r !! "status" = Some (CaseData.case_status c)
    /\ Result.case_data r !! "judge" = Some (CaseData.judge_name c)
    /\ date_item (Result.case_data r) "filing_date" = inr (CaseData.filing_date c)
    /\ date_item (Result.case_data r) "next_hearing" = inr (CaseData.next_hearing_date c)
    /\ CaseData.last_updated c = Some (utcnow env)
    /\ Forall2 (order_mirrors (CaseData.id c)) (Result.orders r) os.
Proof.
  intros Hsearch Hlabel Hfresh.
  pose proof (search_case_effect env request p) as Heff.
  rewrite Hsearch in Heff. cbn [fst snd] in Heff.
  inversion Heff as [? ? Hdb Hstatus
                    |
                    |data y key r0 label0 pr n n' ? -> Hyear Hkey Hnum Hr Hknown Hpr Hdb
                    |data y key r0 label0 fd nh os pr n n' ? -> Hyear Hkey Hnum Hr Hnew
                       Hfd Hnh Hall Hpr Hdb];
    subst; [done| |].
  - (* the label would be on file *)
    exfalso. apply Hfresh.
    pose proof (mock_payload_label _ _ _ _ Hr) as Hl.
    cbn [with_prediction Result.case_data] in Hlabel.
    rewrite Hl in Hlabel. by injection Hlabel as <-.
  - rewrite stamp_all_new_case, tables_after_new_case in Hdb. rewrite Hdb.
    destruct (court_key_supported _ _ Hkey) as [Hcourt _].
    pose proof (mock_payload_label _ _ _ _ Hr) as Hl.
    cbn [with_prediction Result.case_data Result.orders] in *.
    rewrite Hl in Hlabel. injection Hlabel as <-.
    destruct Hr as (pet & res & status & judge & desc & fm & fdy & hm & hd & od
                    & _ & _ & _ & _ & _ & _ & _ & _ & _ & _ & ->).
    cbn [Result.case_data Result.orders] in *.
    eexists _, _, _. split; [done|]. split; [done|]. split; [done|].
    cbn [case_row stamp new_case_of CaseData.id CaseData.case_number
         CaseData.court_name CaseData.petitioner CaseData.respondent
         CaseData.case_status CaseData.judge_name CaseData.filing_date
         CaseData.next_hearing_date CaseData.last_updated DB.case_data].
    rewrite Hcourt.
    repeat (split; [done|]).
    apply order_rows_mirror; [|done].
    repeat constructor; eexists; reflexivity.
Qed.

Lemma first_sighting_rows_witness :
  search_case sample_env sample_request fresh_process
  = (JsonResult sample_result, sample_search.2)
  /\ exists c os,
       DB.case_data (db sample_search.2) = [c]
       /\ DB.case_order (db sample_search.2) = os
       /\ CaseData.id c = Some 1
       /\ CaseData.case_number c = PyStr "Writ Petition 123/2023"
       /\ CaseData.court_name c = PyStr "delhi-high"
       /\ Forall2 (order_mirrors (CaseData.id c)) (Result.orders sample_result) os.
Proof.
  assert (search_case sample_env sample_request fresh_process
          = (JsonResult sample_result, sample_search.2)) as Hsearch
    by (vm_compute; reflexivity).
  assert (Result.case_data sample_result !! "case_number"
          = Some (PyStr "Writ Petition 123/2023")) as Hlabel
    by (vm_compute; reflexivity).
  assert (PyStr "Writ Petition 123/2023" ∉ case_numbers (db fresh_process)) as Hfresh
    by (vm_compute; inversion 1).
  split; [exact Hsearch|].
  destruct (first_sighting_rows sample_env sample_request fresh_process sample_result
              sample_search.2 (PyStr "Writ Petition 123/2023") Hsearch Hlabel Hfresh)
    as (data & c & os & Hdata & Hcases & Horders & Hid & Hnum & Hcourt & _ & _ & _ & _
        & _ & _ & _ & Hmirror).
  exists c, os. split; [exact Hcases|]. split; [exact Horders|].
  split; [exact Hid|]. split; [exact Hnum|]. split; [|exact Hmirror].
  rewrite Hcourt. injection Hdata as <-. reflexivity.
Defined.

(** X5. Whenever a request adds to the query log, it adds one row, with
    the next key and the current UTC time.  The court column holds the
    court of the request, which is one of the dispatch; the case type and
    case number columns hold the fields of the request in the text form
    of their columns (a string as sent, a number as its text); the filing
    year is the converted year.  For an answer with a result the row has
    [success = True], the response time of the answer and the result as
    the scraper returned it (no prediction); for an error answer the
    status is 500 and the row has [success = False] and the error text of
    the answer as [raw_response]. *)
Theorem logged_row env request p response p' :
  search_case env request p = (response, p') ->
  DB.case_query (db p') <> DB.case_query (db p) ->
  exists data q,
    request = BodyObject data
    /\ DB.case_query (db p') = DB.case_query (db p) ++ [q]
    /\ CaseQuery.id q = Some (next_id (CaseQuery.id <$> DB.case_query (db p)))
    /\ supported (dict_get data "court")
    /\ CaseQuery.court_name q = dict_get data "court"
    /\ CaseQuery.case_type q = column_text (dict_get data "case_type")
    /\ CaseQuery.case_number q = column_text (dict_get data "case_number")
    /\ py_int (dict_get data "filing_year") = inr (CaseQuery.filing_year q)
    /\ CaseQuery.query_timestamp q = Some (utcnow env)
    /\ match response with
       | JsonResult r =>
           CaseQuery.success q = true
           /\ CaseQuery.response_time_ms q = Some (Result.response_time_ms r)
           /\ CaseQuery.raw_response q = None
           /\ CaseQuery.parsed_data q = Some (without_prediction r)
       | JsonError msg status =>
           status = 500
           /\ msg <> "Internal server error"
           /\ CaseQuery.success q = false
           /\ CaseQuery.response_time_ms q = None
           /\ CaseQuery.raw_response q = Some msg
           /\ CaseQuery.parsed_data q = None
       end.
Proof.
  intros Hsearch Hchanged.
  pose proof (search_case_effect env request p) as Heff.
  rewrite Hsearch in Heff. cbn [fst snd] in Heff.
  inversion Heff as [? ? Hdb Hstatus
                    |data y key e ? -> Hyear Hkey Hnum Hdb
                    |data y key r label pr n n' ? -> Hyear Hkey Hnum Hr Hknown Hpr Hdb
                    |data y key r label fd nh os pr n n' ? -> Hyear Hkey Hnum Hr Hnew
                       Hfd Hnh Hall Hpr Hdb];
    subst.
  - exfalso. apply Hchanged. congruence.
  - rewrite stamp_all_query, tables_after_query in Hdb. rewrite Hdb.
    destruct (court_key_supported _ _ Hkey) as [Hcourt Hsup].
    destruct (case_num_error _ _ _ _ _ Hnum) as (c & msg & Hmsg & Hc).
    eexists _, _. split; [done|]. split; [done|].
    cbn [query_row stamp query_record_of CaseQuery.id CaseQuery.court_name
         CaseQuery.case_type CaseQuery.case_number CaseQuery.filing_year
         CaseQuery.query_timestamp CaseQuery.success CaseQuery.response_time_ms
         CaseQuery.raw_response CaseQuery.parsed_data DB.case_query default].
    rewrite (supported_column_text _ Hsup).
    repeat (split; [done|]). split; [|done].
    rewrite Hmsg. intros [= Hbad _]. by apply Hc.
  - rewrite stamp_all_query, tables_after_query in Hdb. rewrite Hdb.
    destruct (court_key_supported _ _ Hkey) as [Hcourt Hsup].
    eexists _, _. split; [done|]. split; [done|].
    cbn [query_row stamp query_record_of CaseQuery.id CaseQuery.court_name
         CaseQuery.case_type CaseQuery.case_number CaseQuery.filing_year
         CaseQuery.query_timestamp CaseQuery.success CaseQuery.response_time_ms
         CaseQuery.raw_response CaseQuery.parsed_data DB.case_query default
         with_prediction Result.response_time_ms].
    rewrite (supported_column_text _ Hsup).
    repeat (split; [done|]).
    destruct Hr as (? & ? & ? & ? & ? & ? & ? & ? & ? & ? & Hr).
    destruct Hr as (_ & _ & _ & _ & _ & _ & _ & _ & _ & _ & ->). done.
  - rewrite stamp_all_new_case, tables_after_new_case in Hdb. rewrite Hdb.
    destruct (court_key_supported _ _ Hkey) as [Hcourt Hsup].
    eexists _, _. split; [done|]. split; [done|].
    cbn [query_row stamp query_record_of CaseQuery.id CaseQuery.court_name
         CaseQuery.case_type CaseQuery.case_number CaseQuery.filing_year
         CaseQuery.query_timestamp CaseQuery.success CaseQuery.response_time_ms
         CaseQuery.raw_response CaseQuery.parsed_data DB.case_query default
         with_prediction Result.response_time_ms].
    rewrite (supported_column_text _ Hsup).
    repeat (split; [done|]).
    destruct Hr as (? & ? & ? & ? & ? & ? & ? & ? & ? & ? & Hr).
    destruct Hr as (_ & _ & _ & _ & _ & _ & _ & _ & _ & _ & ->). done.
Qed.

Lemma logged_row_witness :
  numeric_type_search.1 = JsonError "'int' object has no attribute 'upper'" 500
  /\ exists q,
       DB.case_query (db numeric_type_search.2) = [q]
       /\ CaseQuery.id q = Some 1
       /\ CaseQuery.court_name q = PyStr "delhi-district"
       /\ CaseQuery.case_type q = PyStr "5"
       /\ CaseQuery.case_number q = PyStr "123"
       /\ CaseQuery.filing_year q = 2023
       /\ CaseQuery.success q = false
       /\ CaseQuery.raw_response q = Some "'int' object has no attribute 'upper'".
Proof.
  assert (search_case sample_env (BodyObject numeric_type_data) fresh_process
          = (JsonError "'int' object has no attribute 'upper'" 500,
             numeric_type_search.2)) as Hsearch
    by (vm_compute; reflexivity).
  assert (DB.case_query (db numeric_type_search.2) <> DB.case_query (db fresh_process))
    as Hchanged by (vm_compute; discriminate).
  split; [vm_compute; reflexivity|].
  destruct (logged_row sample_env (BodyObject numeric_type_data) fresh_process _
              numeric_type_search.2 Hsearch Hchanged)
    as (data & q & [= <-] & Hlog & Hid & _ & Hcourt & Htype & Hnumber & Hyear & _ & _
        & _ & Hsuccess & _ & Hraw & _).
  exists q. split; [exact Hlog|]. split; [exact Hid|].
  split; [exact Hcourt|]. split; [exact Htype|]. split; [exact Hnumber|].
  split; [by injection Hyear|]. split; [exact Hsuccess | exact Hraw].
Defined.

(** ** Statistics after a search *)

Lemma todays_snoc env (d : DB.t) (q : CaseQuery.t) :
  todays env (DB.Build (DB.case_query d ++ [q]) (DB.case_data d) (DB.case_order d))
  = todays env d ++ (if CaseAnalytics.since (dt_date (now env)) q then [q] else []).
Proof.
  unfold todays. simpl. rewrite filter_app, filter_cons, filter_nil.
  destruct (CaseAnalytics.since (dt_date (now env)) q); by case_decide.
Qed.

(** X6. The day's total on the dashboard after a request that added to the
    query log: it is the total before, plus one exactly when the UTC day
    at which the row was stamped is not before the local day the
    dashboard takes as today.  (Rows are stamped with [datetime.utcnow],
    the dashboard filters on [datetime.now().date()].) *)
Theorem stats_after_search env stats_env request p response p' :
  search_case env request p = (response, p') ->
  DB.case_query (db p') <> DB.case_query (db p) ->
  Stats.total_searches (CaseAnalytics.get_dashboard_stats stats_env (db p'))
  = Stats.total_searches (CaseAnalytics.get_dashboard_stats stats_env (db p))
    + (if date_leb (dt_date (now stats_env)) (dt_date (utcnow env)) then 1 else 0).
Proof.
  intros Hsearch Hchanged.
  pose proof (search_case_tables env request p) as Htab.
  rewrite Hsearch in Htab. cbn [fst snd] in Htab.
  assert (forall q, CaseQuery.query_timestamp q = None ->
            CaseAnalytics.since (dt_date (now stats_env)) (query_row env (db p) q)
            = date_leb (dt_date (now stats_env)) (dt_date (utcnow env))) as Hsince.
  { intros q Hq. unfold CaseAnalytics.since, query_row. simpl. by rewrite Hq. }
  assert (forall q cases orders,
            CaseQuery.query_timestamp q = None ->
            Stats.total_searches
              (CaseAnalytics.get_dashboard_stats stats_env
                 (DB.Build (DB.case_query (db p) ++ [query_row env (db p) q]) cases orders))
            = Stats.total_searches (CaseAnalytics.get_dashboard_stats stats_env (db p))
              + (if date_leb (dt_date (now stats_env)) (dt_date (utcnow env))
                 then 1 else 0)) as Hcount.
  { intros q cases orders Hq.
    unfold CaseAnalytics.get_dashboard_stats. cbn [Stats.total_searches DB.case_query].
    rewrite filter_app, filter_cons, filter_nil, length_app, (Hsince q Hq).
    destruct (date_leb _ _); case_decide; try done; simpl; lia. }
  destruct Htab as [Hsame|[(q & Hq & ->)|(q & c & os & Hq & _ & _ & ->)]].
  - exfalso. apply Hchanged. by rewrite Hsame.
  - by apply Hcount.
  - by apply Hcount.
Qed.

Lemma stats_after_search_witness :
  let p' := (search_case late_evening_utc_env sample_request fresh_process).2 in
  length (DB.case_query (db p')) = 1%nat
  /\ Stats.total_searches (CaseAnalytics.get_dashboard_stats late_evening_utc_env (db p'))
     = 0.
Proof.
  intros p'. split; [vm_compute; reflexivity|].
  assert (search_case late_evening_utc_env sample_request fresh_process
          = ((search_case late_evening_utc_env sample_request fresh_process).1, p'))
    as Hsearch by (vm_compute; reflexivity).
  assert (DB.case_query (db p') <> DB.case_query (db fresh_process)) as Hchanged
    by (vm_compute; discriminate).
  rewrite (stats_after_search late_evening_utc_env late_evening_utc_env sample_request
             fresh_process _ p' Hsearch Hchanged).
  vm_compute. reflexivity.
Defined.

(** ** When the statements go through *)

Lemma bindable_bind_error v : bindable v = true -> bind_error v = None.
Proof. destruct v; simpl; try done. by intros ->. Qed.

Lemma first_bind_error_none vs :
  Forall (fun v => bindable v = true) vs -> first_bind_error vs = None.
Proof.
  induction 1 as [|v vs Hv _ IH]; [done|]. simpl.
  by rewrite (bindable_bind_error v Hv).
Qed.

Lemma insert_query_ok env q d :
  bindable (CaseQuery.court_name q) = true ->
  bindable (CaseQuery.case_type q) = true ->
  bindable (CaseQuery.case_number q) = true ->
  int64 (CaseQuery.filing_year q) = true ->
  bindable (int_param (CaseQuery.response_time_ms q)) = true ->
  is_none (column_text (CaseQuery.court_name q)) = false ->
  is_none (column_text (CaseQuery.case_type q)) = false ->
  is_none (column_text (CaseQuery.case_number q)) = false ->
  insert env (OQuery q) d
  = inr (stamp env d (OQuery q), db_add_all [stamp env d (OQuery q)] d).
Proof.
  intros H1 H2 H3 H4 H5 H6 H7 H8. unfold insert.
  rewrite first_bind_error_none by (repeat constructor; done).
  rewrite H6, H7, H8. cbn [stamp].
  by rewrite tables_after_query.
Qed.

Lemma insert_order_ok env o d k :
  bindable (CaseOrder.order_description o) = true ->
  CaseOrder.case_id o = Some k ->
  insert env (OOrder o) d
  = inr (stamp env d (OOrder o), db_add_all [stamp env d (OOrder o)] d).
Proof.
  intros H1 H2. unfold insert. rewrite (bindable_bind_error _ H1), H2. cbn [stamp].
  unfold db_add_all. simpl. by rewrite !app_nil_r, H2.
Qed.

Lemma insert_case_ok env c d :
  bindable (CaseData.case_number c) = true ->
  bindable (CaseData.court_name c) = true ->
  bindable (CaseData.petitioner c) = true ->
  bindable (CaseData.respondent c) = true ->
  bindable (CaseData.case_status c) = true ->
  bindable (CaseData.judge_name c) = true ->
  is_none (column_text (CaseData.case_number c)) = false ->
  is_none (column_text (CaseData.court_name c)) = false ->
  column_text (CaseData.case_number c) ∉ case_numbers d ->
  insert env (OCase c) d
  = inr (stamp env d (OCase c), db_add_all [stamp env d (OCase c)] d).
Proof.
  intros H1 H2 H3 H4 H5 H6 H7 H8 H9. unfold insert.
  rewrite first_bind_error_none by (repeat constructor; done).
  rewrite H7, H8. cbn [stamp].
  rewrite bool_decide_eq_false_2 by done.
  unfold db_add_all. simpl. by rewrite !app_nil_r.
Qed.

Lemma insert_all_orders_query_ok env q os : forall d,
  Forall (fun o => bindable (CaseOrder.order_description o) = true
                   /\ is_Some (CaseOrder.case_id o)) os ->
  insert env (OQuery q) (db_add_all (stamp_all env d (OOrder <$> os)) d)
  = inr (stamp env (db_add_all (stamp_all env d (OOrder <$> os)) d) (OQuery q),
         db_add_all
           [stamp env (db_add_all (stamp_all env d (OOrder <$> os)) d) (OQuery q)]
           (db_add_all (stamp_all env d (OOrder <$> os)) d)) ->
  insert_all env ((OOrder <$> os) ++ [OQuery q]) d
  = inr (stamp_all env d ((OOrder <$> os) ++ [OQuery q]),
         db_add_all (stamp_all env d ((OOrder <$> os) ++ [OQuery q])) d).
Proof.
  induction os as [|o os IH]; intros d Hos Hq.
  - change ((OOrder <$> []) ++ [OQuery q]) with [OQuery q].
    change (stamp_all env d (OOrder <$> [])) with (@nil obj) in Hq.
    rewrite db_add_all_nil in Hq. cbn [insert_all stamp_all]. by rewrite Hq.
  - apply Forall_cons in Hos as [[Hb [k Hk]] Hos].
    change ((OOrder <$> o :: os) ++ [OQuery q])
      with (OOrder o :: ((OOrder <$> os) ++ [OQuery q])).
    change (stamp_all env d (OOrder <$> o :: os))
      with (stamp env d (OOrder o)
            :: stamp_all env (db_add_all [stamp env d (OOrder o)] d) (OOrder <$> os))
      in Hq.
    rewrite db_add_all_cons in Hq.
    cbn [insert_all stamp_all].
    rewrite (insert_order_ok env o d k Hb Hk), (IH _ Hos Hq).
    do 2 f_equal. symmetry. apply db_add_all_cons.
Qed.

Lemma commit_ok env st os d :
  flush_fault env = false -> commit_fault env = false ->
  insert_all env (pending st) (txn st) = inr (os, d) ->
  session_commit env st
  = (inr tt, MkState (MkProcess d (ecourts_district (proc st)) (rng (proc st))) d []).
Proof.
  intros Hf Hc Hall. unfold session_commit, bind, session_flush.
  destruct (pending st) as [|o pend] eqn:Hpend.
  - simpl in Hall. injection Hall as <- <-. rewrite Hc. simpl. by rewrite ?Hpend.
  - rewrite Hf, Hall, Hc. reflexivity.
Qed.

Lemma case_by_number_fresh env label st :
  select_fault env = false -> pending st = [] ->
  PyStr label ∉ case_numbers (txn st) ->
  case_by_number env (PyStr label) st = (inr None, st).
Proof.
  intros Hs Hnil Hfresh. unfold case_by_number, bind, session_flush.
  rewrite Hnil, Hs. simpl. repeat f_equal.
  destruct (head _) as [c|] eqn:Hhead; [|done].
  apply head_filter_Some in Hhead. by exfalso.
Qed.

(** ** A scraper that failed *)

(** X7. A court of the dispatch, a filing year within the 64 bits of its
    column, a case type and a case number the driver can bind and that
    their columns do not take as NULL, and a label that cannot be built
    (a case type that is no string, at a district court): with the store
    in order the request is answered with status 500 and the text of the
    exception as it was raised, and the only row written is the log
    entry: the court, the case type and number in the text form of their
    columns, [success] false and that same text as [raw_response]. *)
Theorem scraper_error_is_logged env data p key filing_year e :
  flush_fault env = false -> commit_fault env = false ->
  court_key (dict_get data "court") = Some key ->
  py_int (dict_get data "filing_year") = inr filing_year ->
  int64 filing_year = true ->
  bindable (dict_get data "case_type") = true ->
  is_none (column_text (dict_get data "case_type")) = false ->
  bindable (dict_get data "case_number") = true ->
  is_none (column_text (dict_get data "case_number")) = false ->
  BaseScraper.case_num (dict_get data "case_type") (dict_get data "case_number")
    filing_year key = inl e ->
  exists p',
    search_case env (BodyObject data) p = (JsonError (exn_msg e) 500, p')
    /\ DB.case_query (db p')
       = DB.case_query (db p)
         ++ [CaseQuery.Build
               (Some (next_id (CaseQuery.id <$> DB.case_query (db p))))
               (dict_get data "court")
               (column_text (dict_get data "case_type"))
               (column_text (dict_get data "case_number"))
               filing_year (Some (utcnow env)) false None (Some (exn_msg e)) None]
    /\ DB.case_data (db p') = DB.case_data (db p)
    /\ DB.case_order (db p') = DB.case_order (db p).
Proof.
  intros Hf Hc Hkey Hyear Hint Hbt Hnt Hbn Hnn Hnum.
  destruct (court_key_supported _ _ Hkey) as [Hcourt _].
  destruct (case_num_error _ _ _ _ _ Hnum) as (c & msg & Hmsg & _).
  unfold search_case, search_case_body.
  rewrite bind_lift_exn. cbn [get_json]. rewrite bind_lift_exn, Hyear, bind_eq.
  destruct (choose_scraper_error env _ _ _ _ (MkState p (db p) []) _ _ Hkey Hnum)
    as (st1 & -> & Hdb & Htxn & Hpe).
  simpl in Hdb, Htxn, Hpe. rewrite Hmsg.
  rewrite bind_session_add, bind_eq, Hpe, Htxn. cbn [app].
  set (q := CaseQuery.Build _ _ _ _ _ _ _ _ _ _).
  erewrite commit_ok; [| done | done |]; cycle 1.
  { cbn [pending txn insert_all].
    rewrite insert_query_ok; [reflexivity|subst q; cbn; by rewrite ?Hcourt..]. }
  eexists. split; [reflexivity|].
  cbn [teardown proc db].
  change (stamp env (db p) (OQuery q)) with (OQuery (query_row env (db p) q)).
  rewrite tables_after_query. cbn [DB.case_query DB.case_data DB.case_order].
  split; [|done]. subst q. cbn [query_row stamp CaseQuery.id CaseQuery.court_name
    CaseQuery.case_type CaseQuery.case_number CaseQuery.filing_year
    CaseQuery.query_timestamp CaseQuery.success CaseQuery.response_time_ms
    CaseQuery.raw_response CaseQuery.parsed_data default].
  by rewrite Hcourt.
Qed.

Lemma scraper_error_is_logged_witness :
  exists p',
    search_case sample_env (BodyObject numeric_type_data) fresh_process
    = (JsonError "'int' object has no attribute 'upper'" 500, p')
    /\ DB.case_query (db p')
       = DB.case_query (db fresh_process)
         ++ [CaseQuery.Build (Some 1) (PyStr "delhi-district") (PyStr "5") (PyStr "123")
               2023 (Some (utcnow sample_env)) false None
               (Some "'int' object has no attribute 'upper'") None]
    /\ DB.case_data (db p') = DB.case_data (db fresh_process)
    /\ DB.case_order (db p') = DB.case_order (db fresh_process).
Proof.
  apply (scraper_error_is_logged sample_env numeric_type_data fresh_process
           "delhi-district" 2023
           (Raise "AttributeError" "'int' object has no attribute 'upper'"));
    vm_compute; reflexivity.
Defined.

(** ** A first search that goes through *)

Lemma strptime_generated (y m d : Z) :
  1000 <= y <= 9999 -> 1 <= m <= 12 -> 1 <= d <= 28 ->
  strptime_ymd (PyStr (date_text (str_of_int y) m d)) = inr (Date y m d).
Proof.
  intros Hy Hm Hd. apply strptime_date_text; [done..|].
  pose proof (days_in_month_min y m). lia.
Qed.

Lemma strptime_2025 (m d : Z) :
  1 <= m <= 12 -> 1 <= d <= 28 ->
  strptime_ymd (PyStr (date_text "2025" m d)) = inr (Date 2025 m d).
Proof. intros Hm Hd. by apply (strptime_generated 2025). Qed.

Lemma strptime_july_2025 (d : Z) :
  1 <= d <= 30 ->
  strptime_ymd (PyStr (date_text "2025" 7 d)) = inr (Date 2025 7 d).
Proof.
  intros Hd. apply (strptime_date_text 2025 7 d); [lia..|].
  change (days_in_month 2025 7) with 31. lia.
Qed.

Lemma save_order_mock case_id date description order_date st :
  strptime_ymd (PyStr date) = inr order_date ->
  save_order case_id (mock_order date description) st
  = (inr tt,
     MkState (proc st) (txn st)
       (pending st
        ++ [OOrder (CaseOrder.Build None case_id order_date (PyStr description)
                      None None)])).
Proof.
  intros Hdate. unfold save_order, dict_item.
  rewrite mock_order_date, mock_order_description.
  by rewrite !bind_lift_exn, Hdate.
Qed.

Lemma save_new_case_mock env court st filing_year label r :
  flush_fault env = false ->
  pending st = [] ->
  1000 <= filing_year <= 9999 ->
  mock_payload env filing_year label r ->
  bindable court = true -> is_none (column_text court) = false ->
  PyStr label ∉ case_numbers (txn st) ->
  exists st', save_new_case env court r st = (inr tt, st').
Proof.
  intros Hf Hnil Hy Hr Hb Hn Hfresh.
  destruct Hr as (pet & res & status & judge & desc & fm & fd & hm & hd & od
                  & _ & _ & _ & _ & _ & Hfm & Hfd & Hhm & Hhd & Hod & ->).
  unfold save_new_case. cbn [Result.case_data Result.orders].
  destruct (mock_case_data_items label pet res
              (date_text (str_of_int filing_year) fm fd) (date_text "2025" hm hd)
              status judge) as (L1 & L2 & L3 & L4 & L5 & L6 & L7).
  unfold dict_item, dict_get. rewrite L1, L2, L3, L4, L5, L6, L7.
  rewrite !bind_lift_exn.
  rewrite strptime_generated by lia. rewrite !bind_lift_exn.
  rewrite strptime_2025 by lia.
  rewrite bind_session_add, bind_eq. unfold session_flush.
  rewrite Hnil. cbn [app pending txn]. rewrite Hf. cbn [insert_all].
  rewrite insert_case_ok by done.
  cbn [for_each flushed_case_id stamp CaseData.id].
  rewrite bind_eq, (save_order_mock _ _ _ (Date 2025 7 od))
    by (by apply strptime_july_2025).
  rewrite bind_eq, (save_order_mock _ _ _ (Date filing_year fm fd))
    by (by apply strptime_generated).
  by eexists.
Qed.

Lemma mock_orders_insertable case_id d1 s1 d2 s2 os :
  Forall2 (fun order o => order_of (Some case_id) order = inr o)
    [mock_order d1 s1; mock_order d2 s2] os ->
  length os = 2%nat
  /\ Forall (fun o => bindable (CaseOrder.order_description o) = true
                      /\ is_Some (CaseOrder.case_id o)) os.
Proof.
  intros Hall.
  apply Forall2_cons_inv_l in Hall as (o1 & os1 & H1 & Hall & ->).
  apply Forall2_cons_inv_l in Hall as (o2 & os2 & H2 & Hall & ->).
  apply Forall2_nil_inv_l in Hall as ->.
  split; [done|].
  unfold order_of, dict_item in H1, H2.
  rewrite mock_order_date, mock_order_description in H1, H2.
  repeat constructor; repeat case_match; simplify_eq; simpl; eauto.
Qed.

Lemma order_of_case_id case_id order o :
  order_of case_id order = inr o -> CaseOrder.case_id o = case_id.
Proof. unfold order_of. intros. repeat case_match; by simplify_eq. Qed.

(** X8. A court of the dispatch, a filing year between 1000 and 9999, a
    case type (of ASCII text, when it is a string) and a case number the
    driver can bind and that their columns do not take as NULL, a
    response time within 64 bits, a label that can be built and is not
    yet stored: with the store in order the first search is answered with
    status 200, the payload is one the generator builds for that label
    and year, and the request leaves one new case row under the label and
    the requested court, two order rows, and one log row with [success]
    true. *)
Theorem first_search_stores env data p key filing_year label :
  select_fault env = false -> flush_fault env = false -> commit_fault env = false ->
  int64 (elapsed_ms env) = true ->
  court_key (dict_get data "court") = Some key ->
  py_int (dict_get data "filing_year") = inr filing_year ->
  1000 <= filing_year <= 9999 ->
  ascii_value (dict_get data "case_type") = true ->
  bindable (dict_get data "case_type") = true ->
  is_none (column_text (dict_get data "case_type")) = false ->
  bindable (dict_get data "case_number") = true ->
  is_none (column_text (dict_get data "case_number")) = false ->
  BaseScraper.case_num (dict_get data "case_type") (dict_get data "case_number")
    filing_year key = inr label ->
  PyStr label ∉ case_numbers (db p) ->
  exists r prediction p' c o1 o2 q,
    search_case env (BodyObject data) p
    = (JsonResult (with_prediction r prediction), p')
    /\ mock_payload env filing_year label r
    /\ DB.case_data (db p') = DB.case_data (db p) ++ [c]
    /\ DB.case_order (db p') = DB.case_order (db p) ++ [o1; o2]
    /\ DB.case_query (db p') = DB.case_query (db p) ++ [q]
    /\ CaseData.case_number c = PyStr label
    /\ CaseData.court_name c = dict_get data "court"
    /\ CaseOrder.case_id o1 = CaseData.id c
    /\ CaseOrder.case_id o2 = CaseData.id c
    /\ CaseQuery.success q = true.
Proof.
  intros Hs Hf Hc Htime Hkey Hyear Hy _ Hbt Hnt Hbn Hnn Hnum Hfresh.
  destruct (court_key_supported _ _ Hkey) as [Hcourt _].
  unfold search_case, search_case_body.
  rewrite bind_lift_exn. cbn [get_json]. rewrite bind_lift_exn, Hyear, bind_eq.
  destruct (choose_scraper_payload env _ _ _ _ (MkState p (db p) []) _ _ Hkey Hnum)
    as (r & st1 & -> & (Hdb & Htxn & Hpe) & Hr).
  simpl in Hdb, Htxn, Hpe.
  pose proof (mock_payload_label _ _ _ _ Hr) as Hlabel.
  assert (Result.response_time_ms r = elapsed_ms env) as Hrt.
  { destruct Hr as (? & ? & ? & ? & ? & ? & ? & ? & ? & ? & Hr).
    destruct Hr as (_ & _ & _ & _ & _ & _ & _ & _ & _ & _ & ->). reflexivity. }
  assert (exists d1 s1 d2 s2, Result.orders r = [mock_order d1 s1; mock_order d2 s2])
    as (d1 & s1 & d2 & s2 & Horders).
  { destruct Hr as (? & ? & ? & ? & ? & ? & ? & ? & ? & ? & Hr).
    destruct Hr as (_ & _ & _ & _ & _ & _ & _ & _ & _ & _ & ->). by eexists _, _, _, _. }
  rewrite bind_lift_exn. unfold dict_item at 1. rewrite Hlabel.
  rewrite bind_eq, case_by_number_fresh by (by rewrite ?Htxn).
  rewrite bind_eq.
  destruct (save_new_case_mock env (dict_get data "court") st1 filing_year label r)
    as (st2 & Hsave); try done; try (by rewrite Hcourt); try (by rewrite Htxn).
  rewrite Hsave.
  apply save_new_case_exact in Hsave
    as (label' & fdate & nh & os & Hnum' & Hfd & Hnh & Hall & ->); [|done].
  rewrite Hlabel in Hnum'. injection Hnum' as <-.
  rewrite Horders in Hall.
  destruct (mock_orders_insertable _ _ _ _ _ _ Hall) as [Hlen Hins].
  rewrite bind_session_add, bind_eq. cbn [pending txn proc].
  set (q := CaseQuery.Build _ _ _ _ _ _ _ _ _ _).
  set (c := new_case_of _ _ _ _ _).
  assert (int64 filing_year = true) as Hint.
  { unfold int64. change (2 ^ 63) with 9223372036854775808.
    apply andb_true_iff. split; [apply Z.leb_le | apply Z.ltb_lt]; lia. }
  erewrite commit_ok; [| done | done |]; cycle 1.
  { cbn [pending txn]. apply insert_all_orders_query_ok; [done|].
    apply insert_query_ok; subst q; cbn [CaseQuery.court_name CaseQuery.case_type
      CaseQuery.case_number CaseQuery.filing_year CaseQuery.response_time_ms
      int_param bindable]; by rewrite ?Hcourt, ?Hrt. }
  rewrite bind_eq.
  match goal with |- context [lift_rng ?f ?s] =>
    destruct (lift_rng_predict env (Result.case_data r) s)
      as (pr & st5 & Heq & Hdb5 & _) end.
  rewrite Heq. cbn [ret teardown].
  destruct os as [|o1 [|o2 [|? ?]]]; try done.
  exists r, pr, (proc st5), (case_row env (db p) c).
  eexists _, _, (query_row env (db p) q).
  split; [reflexivity|]. split; [done|].
  rewrite Hdb5. cbn [proc db]. rewrite Htxn.
  rewrite <- (db_add_all_cons (stamp env (db p) (OCase c))).
  change (stamp env (db p) (OCase c)
          :: stamp_all env (db_add_all [stamp env (db p) (OCase c)] (db p))
               ((OOrder <$> [o1; o2]) ++ [OQuery q]))
    with (stamp_all env (db p) (OCase c :: (OOrder <$> [o1; o2]) ++ [OQuery q])).
  rewrite stamp_all_new_case, tables_after_new_case.
  cbn [DB.case_query DB.case_data DB.case_order].
  rewrite Htxn in Hall.
  apply Forall2_cons_1 in Hall as [H1 Hall]. apply Forall2_cons_1 in Hall as [H2 _].
  apply order_of_case_id in H1, H2.
  split; [reflexivity|]. split; [reflexivity|]. split; [reflexivity|].
  subst c. cbn [case_row stamp new_case_of CaseData.id CaseData.case_number
    CaseData.court_name column_text].
  rewrite Hcourt. by repeat split.
Qed.

Lemma first_search_stores_witness :
  exists r prediction p' c o1 o2 q,
    search_case sample_env (BodyObject sample_data) fresh_process
    = (JsonResult (with_prediction r prediction), p')
    /\ mock_payload sample_env 2023 "Writ Petition 123/2023" r
    /\ DB.case_data (db p') = DB.case_data (db fresh_process) ++ [c]
    /\ DB.case_order (db p') = DB.case_order (db fresh_process) ++ [o1; o2]
    /\ DB.case_query (db p') = DB.case_query (db fresh_process) ++ [q]
    /\ CaseData.case_number c = PyStr "Writ Petition 123/2023"
    /\ CaseData.court_name c = dict_get sample_data "court"
    /\ CaseOrder.case_id o1 = CaseData.id c
    /\ CaseOrder.case_id o2 = CaseData.id c
    /\ CaseQuery.success q = true.
Proof.
  apply (first_search_stores sample_env sample_data fresh_process "delhi-high" 2023
           "Writ Petition 123/2023");
    try (vm_compute; reflexivity); try lia.
  vm_compute. inversion 1.
Defined.

(** ** Filing years that are not four digits long *)

Lemma save_new_case_odd_year env court st filing_year label r :
  filing_year < 1000 \/ 9999 < filing_year ->
  mock_payload env filing_year label r ->
  exists e, save_new_case env court r st = (inl e, st).
Proof.
  intros Hy Hr.
  destruct Hr as (pet & res & status & judge & desc & fm & fd & hm & hd & od
                  & _ & _ & _ & _ & _ & Hfm & Hfd & Hhm & Hhd & Hod & ->).
  unfold save_new_case. cbn [Result.case_data Result.orders].
  destruct (mock_case_data_items label pet res
              (date_text (str_of_int filing_year) fm fd) (date_text "2025" hm hd)
              status judge) as (L1 & L2 & L3 & L4 & L5 & L6 & L7).
  unfold dict_item. rewrite L1, L4.
  rewrite !bind_lift_exn.
  assert (exists e, strptime_ymd (PyStr (date_text (str_of_int filing_year) fm fd))
                    = inl e) as [e ->]
    by (destruct Hy; [by apply strptime_short_year | by apply strptime_long_year]).
  by exists e.
Qed.

(** X9. A supported court, a filing year below 1000 or above 9999 and a
    label not yet stored: the generated filing date carries the year as
    [str] prints it, [strptime] with [%Y] wants exactly four digits and
    rejects it, and the request is answered with status 500 and the
    generic message, whatever the state of the store; no row is written,
    not even the log entry. *)
Theorem odd_year_first_search env data p key filing_year label :
  court_key (dict_get data "court") = Some key ->
  py_int (dict_get data "filing_year") = inr filing_year ->
  filing_year < 1000 \/ 9999 < filing_year ->
  BaseScraper.case_num (dict_get data "case_type") (dict_get data "case_number")
    filing_year key = inr label ->
  PyStr label ∉ case_numbers (db p) ->
  exists p',
    search_case env (BodyObject data) p = (JsonError "Internal server error" 500, p')
    /\ db p' = db p.
Proof.
  intros Hkey Hyear Hy Hnum Hfresh.
  unfold search_case, search_case_body.
  rewrite bind_lift_exn. cbn [get_json]. rewrite bind_lift_exn, Hyear, bind_eq.
  destruct (choose_scraper_payload env _ _ _ _ (MkState p (db p) []) _ _ Hkey Hnum)
    as (r & st1 & -> & (Hdb & Htxn & Hpe) & Hr).
  simpl in Hdb, Htxn, Hpe.
  assert (Result.case_data r !! "case_number" = Some (PyStr label)) as Hlabel.
  { destruct Hr as (? & ? & ? & ? & ? & ? & ? & ? & ? & ? & Hr).
    destruct Hr as (_ & _ & _ & _ & _ & _ & _ & _ & _ & _ & ->). reflexivity. }
  rewrite bind_lift_exn. unfold dict_item at 1. rewrite Hlabel.
  rewrite bind_eq.
  destruct (case_by_number env (PyStr label) st1) as [[e|existing] st2] eqn:Hq;
    apply case_by_number_spec in Hq as [-> Hq]; try done.
  { exists (proc st1). by split. }
  destruct Hq as [[e ?]|[_ [= ->]]]; [done|].
  destruct (head _) as [known|] eqn:Hhead.
  { apply head_filter_Some in Hhead. rewrite Htxn in Hhead. done. }
  rewrite bind_eq.
  destruct (save_new_case_odd_year env (dict_get data "court") st1 _ _ _ Hy Hr)
    as [e ->].
  exists (proc st1). by split.
Qed.

Lemma odd_year_first_search_witness :
  exists p',
    search_case sample_env (BodyObject early_year_data) fresh_process
    = (JsonError "Internal server error" 500, p')
    /\ db p' = db fresh_process.
Proof.
  apply (odd_year_first_search sample_env early_year_data fresh_process "supreme" 999
           "Civil Appeal No. 77 of 999");
    try (vm_compute; reflexivity).
  - left. lia.
  - vm_compute. inversion 1.
Defined.

(** ** The court list and the dispatch *)

(** X10. The courts [/api/courts] lists are the courts [/api/search]
    serves: for a request whose filing year converts, the court is among
    the listed ids exactly when the answer is not the "Unsupported court
    selected" error. *)
Theorem listed_courts_are_served env data p filing_year :
  py_int (dict_get data "filing_year") = inr filing_year ->
  dict_get data "court" ∈ PyStr <$> (Court.id <$> get_courts)
  <-> (search_case env (BodyObject data) p).1
      <> JsonError "Unsupported court selected" 400.
Proof.
  intros Hyear.
  change (PyStr <$> (Court.id <$> get_courts)) with (PyStr <$> supported_courts).
  fold (supported (dict_get data "court")). split.
  - intros Hsup Hresp.
    pose proof (search_case_outcome env (BodyObject data) p) as Hout.
    rewrite Hresp in Hout. inversion Hout; by simplify_eq.
  - intros Hresp. destruct (decide (supported (dict_get data "court"))) as [|Hunsup];
      [done|].
    exfalso. apply Hresp.
    by rewrite (unsupported_court_returns env data filing_year p Hyear Hunsup).
Qed.

Lemma listed_courts_are_served_witness :
  dict_get sample_data "court" ∈ PyStr <$> (Court.id <$> get_courts)
  <-> (search_case sample_env (BodyObject sample_data) fresh_process).1
      <> JsonError "Unsupported court selected" 400.
Proof.
  apply (listed_courts_are_served sample_env sample_data fresh_process 2023).
  reflexivity.
Defined.

(** ** Placeholder series *)

(** X11. The status distribution: four entries, Pending, Disposed,
    Transferred and Adjourned in this order, their counts within
    [100, 300], [50, 150], [10, 50] and [20, 80]; four draws are taken
    from the generator, whatever it holds. *)
Theorem status_distribution_spec env n :
  exists pending disposed transferred adjourned,
    get_status_distribution env n
    = (inr [ StatusCount.Build "Pending" pending;
             StatusCount.Build "Disposed" disposed;
             StatusCount.Build "Transferred" transferred;
             StatusCount.Build "Adjourned" adjourned ],
       (n + 4)%nat)
    /\ 100 <= pending <= 300 /\ 50 <= disposed <= 150
    /\ 10 <= transferred <= 50 /\ 20 <= adjourned <= 80.
Proof.
  unfold get_status_distribution.
  destruct (randint_in env 100 300 n ltac:(lia)) as (a & Ha & Hra).
  destruct (randint_in env 50 150 (S n) ltac:(lia)) as (b & Hb & Hrb).
  destruct (randint_in env 10 50 (S (S n)) ltac:(lia)) as (c & Hc & Hrc).
  destruct (randint_in env 20 80 (S (S (S n))) ltac:(lia)) as (d & Hd & Hrd).
  rewrite bind_eq, Ha, bind_eq, Hb, bind_eq, Hc, bind_eq, Hd.
  exists a, b, c, d. split; [|done]. unfold ret. do 2 f_equal. lia.
Qed.

Lemma prev_day_year (d : date) :
  year (prev_day d) = year d \/ prev_day d = Date (year d - 1) 12 31.
Proof. unfold prev_day. repeat case_match; simpl; auto. Qed.

Lemma december_back (y : Z) (k : nat) :
  (k <= 150)%nat -> year (Nat.iter k prev_day (Date y 12 31)) = y.
Proof.
  intros Hk. do 151 (destruct k as [|k]; [vm_compute; reflexivity|]). lia.
Qed.

Lemma days_back_year (k : nat) : forall d,
  (k <= 150)%nat -> year d - 1 <= year (Nat.iter k prev_day d) <= year d.
Proof.
  induction k as [|k IH]; intros d Hk; [simpl; lia|].
  rewrite Nat.iter_succ_r.
  destruct (prev_day_year d) as [Hsame|Hdec].
  - rewrite <- Hsame. apply IH. lia.
  - rewrite Hdec, december_back by lia. simpl. lia.
Qed.

Lemma minus_days_ok (d : date) (k : nat) :
  2 <= year d -> (k <= 150)%nat ->
  minus_days d k = inr (Nat.iter k prev_day d).
Proof.
  intros Hy Hk. unfold minus_days.
  pose proof (days_back_year k d Hk).
  replace (1 <=? year (Nat.iter k prev_day d)) with true by lia. done.
Qed.

Lemma trends_loop_ok env (d : date) (n : nat) : forall (i m : nat),
  2 <= year d -> (30 * (i + n) <= 180)%nat ->
  exists trends,
    trends_loop env d i n m = (inr trends, (m + n)%nat)
    /\ Trend.month <$> trends
       = (fun j => strftime_ym (Nat.iter (30 * j) prev_day d)) <$> seq i n
    /\ Forall (fun t => 50 <= Trend.count t <= 200) trends.
Proof.
  induction n as [|n IH]; intros i m Hy Hi.
  - exists []. simpl. unfold ret. rewrite Nat.add_0_r. by repeat split.
  - cbn [trends_loop].
    rewrite bind_lift_exn, minus_days_ok by lia.
    destruct (randint_in env 50 200 m ltac:(lia)) as (c & Hc & Hrc).
    rewrite bind_eq, Hc.
    destruct (IH (S i) (S m) Hy ltac:(lia)) as (rest & Hrest & Hmonths & Hcounts).
    rewrite bind_eq, Hrest.
    exists (Trend.Build (strftime_ym (Nat.iter (30 * i) prev_day d)) c :: rest).
    split; [unfold ret; f_equal; lia|].
    split; [csimpl; by rewrite Hmonths | by constructor].
Qed.

Lemma fmap_rev {A B} (f : A -> B) (l : list A) : f <$> rev l = rev (f <$> l).
Proof. induction l as [|x l IH]; [done|]. simpl. by rewrite fmap_app, IH. Qed.

Lemma status_distribution_facts env n :
  exists statuses,
    get_status_distribution env n = (inr statuses, (n + 4)%nat)
    /\ StatusCount.status <$> statuses
       = ["Pending"; "Disposed"; "Transferred"; "Adjourned"].
Proof.
  unfold get_status_distribution.
  cbv [bind randint randbelow ret]. eexists. split; [f_equal; lia | done].
Qed.

(** X12. [/api/analytics], for a clock from the year 2 on: the answer has
    status 200; its six trend entries are labelled with the months of
    the days 150, 120, 90, 60, 30 and 0 days before today, in this order,
    so that the last is the current month, each with a count within
    [50, 200]; then come the four status entries.  Ten draws are taken
    from the generator and the database is left alone. *)
Theorem analytics_answer env p :
  2 <= year (dt_date (now env)) ->
  exists trends statuses,
    get_analytics env p
    = (AnalyticsJson (Analytics.Build trends statuses),
       MkProcess (db p) (ecourts_district p) (rng p + 10)%nat)
    /\ Trend.month <$> trends
       = (fun j => strftime_ym (Nat.iter (30 * j) prev_day (dt_date (now env))))
         <$> [5; 4; 3; 2; 1; 0]%nat
    /\ Forall (fun t => 50 <= Trend.count t <= 200) trends
    /\ StatusCount.status <$> statuses
       = ["Pending"; "Disposed"; "Transferred"; "Adjourned"].
Proof.
  intros Hy. unfold get_analytics, CaseAnalytics.get_case_trends.
  destruct (trends_loop_ok env (dt_date (now env)) 6 0 (rng p) Hy ltac:(lia))
    as (trends & Hloop & Hmonths & Hcounts).
  destruct (status_distribution_facts env (rng p + 6)%nat)
    as (statuses & Hstatus & Hlabels).
  rewrite bind_eq, bind_eq, Hloop. unfold ret at 1. cbv beta iota.
  rewrite bind_eq, Hstatus. unfold ret.
  exists (rev trends), statuses. split; [do 2 f_equal; lia|].
  split; [|split; [by apply Forall_rev | done]].
  by rewrite fmap_rev, Hmonths.
Qed.

Lemma analytics_answer_witness :
  exists trends statuses,
    get_analytics sample_env fresh_process
    = (AnalyticsJson (Analytics.Build trends statuses),
       MkProcess (db fresh_process) (ecourts_district fresh_process)
         (rng fresh_process + 10)%nat)
    /\ Trend.month <$> trends
       = (fun j => strftime_ym (Nat.iter (30 * j) prev_day (dt_date (now sample_env))))
         <$> [5; 4; 3; 2; 1; 0]%nat
    /\ Forall (fun t => 50 <= Trend.count t <= 200) trends
    /\ StatusCount.status <$> statuses
       = ["Pending"; "Disposed"; "Transferred"; "Adjourned"].
Proof. apply (analytics_answer sample_env fresh_process). simpl. lia. Defined.

(** ** The district attribute *)

Lemma keeps_district_ret {A} (a : A) : keeps_district (ret a).
Proof. by intros st r st' [= <- <-]. Qed.

Lemma keeps_district_raise {A} (e : exn) : keeps_district (@raise State A e).
Proof. by intros st r st' [= <- <-]. Qed.

Lemma keeps_district_lift_exn {A} (r : exn + A) : keeps_district (lift_exn r).
Proof. by intros st r' st' [= <- <-]. Qed.

Lemma keeps_district_bind {A B} (c : M A) (k : A -> M B) :
  keeps_district c -> (forall a, keeps_district (k a)) -> keeps_district (bind c k).
Proof.
  intros Hc Hk st r st'. unfold bind.
  destruct (c st) as [[e|a] st1] eqn:Hrun.
  - intros [= <- <-]. by eapply Hc.
  - intros Hrest. rewrite (Hk a _ _ _ Hrest). by eapply Hc.
Qed.

Lemma keeps_district_lift_rng {A} (c : Rnd A) : keeps_district (lift_rng c).
Proof.
  intros st r st'. unfold lift_rng. destruct (c (rng (proc st))) as [r1 n].
  by intros [= <- <-].
Qed.

Lemma keeps_district_session_add o : keeps_district (session_add o).
Proof. by intros st r st' [= <- <-]. Qed.

Lemma keeps_district_session_flush env : keeps_district (session_flush env).
Proof.
  intros st r st'. unfold session_flush.
  repeat case_match; by intros [= <- <-].
Qed.

Lemma keeps_district_session_commit env : keeps_district (session_commit env).
Proof.
  apply keeps_district_bind; [apply keeps_district_session_flush|].
  intros _ st r st'. by destruct (commit_fault env); intros [= <- <-].
Qed.

Lemma keeps_district_case_by_number env label :
  keeps_district (case_by_number env label).
Proof.
  apply keeps_district_bind; [apply keeps_district_session_flush|].
  intros _ st r st'. repeat case_match; by intros [= <- <-].
Qed.

Lemma keeps_district_for_each {A} (xs : list A) (body : A -> M unit) :
  (forall x, keeps_district (body x)) -> keeps_district (for_each xs body).
Proof.
  intros Hbody. induction xs as [|x xs IH]; simpl.
  - apply keeps_district_ret.
  - by apply keeps_district_bind.
Qed.

Lemma keeps_district_save_order case_id order :
  keeps_district (save_order case_id order).
Proof.
  unfold save_order.
  repeat (apply keeps_district_bind; [apply keeps_district_lift_exn|]; intros ?).
  apply keeps_district_session_add.
Qed.

Lemma keeps_district_save_new_case env court result :
  keeps_district (save_new_case env court result).
Proof.
  unfold save_new_case.
  repeat (apply keeps_district_bind; [apply keeps_district_lift_exn|]; intros ?).
  apply keeps_district_bind; [apply keeps_district_session_add|]. intros _.
  apply keeps_district_bind; [apply keeps_district_session_flush|]. intros flushed.
  apply keeps_district_for_each. intros order. apply keeps_district_save_order.
Qed.

Lemma choose_scraper_district env court case_type case_number filing_year st r st' :
  choose_scraper env court case_type case_number filing_year st = (r, st') ->
  ecourts_district (proc st') = district_after court (ecourts_district (proc st)).
Proof.
  unfold choose_scraper, district_after.
  destruct (decide (court = PyStr "delhi-high")) as [->|H1].
  { intros Hrun. rewrite decide_False, decide_False by done.
    revert Hrun. apply keeps_district_bind; [apply keeps_district_lift_rng|].
    intros ?. apply keeps_district_ret. }
  destruct (decide (court = PyStr "supreme")) as [->|H2].
  { intros Hrun. rewrite decide_False, decide_False by done.
    revert Hrun. apply keeps_district_bind; [apply keeps_district_lift_rng|].
    intros ?. apply keeps_district_ret. }
  destruct (decide (court = PyStr "bombay-high")) as [->|H3].
  { intros Hrun. rewrite decide_False, decide_False by done.
    revert Hrun. apply keeps_district_bind; [apply keeps_district_lift_rng|].
    intros ?. apply keeps_district_ret. }
  destruct (decide (court = PyStr "delhi-district")) as [->|H4].
  { rewrite bool_decide_eq_true_2 by done. cbn [orb].
    rewrite bind_eq. cbv beta iota. rewrite bind_eq. cbv beta iota.
    intros Hrun.
    assert (keeps_district
              (r <- lift_rng (ECourtsScraper.scrape_case_data env
                                (ecourts_district (proc (set_district "delhi" st)))
                                case_type case_number filing_year) ;;
               ret (Some r))) as Hk.
    { apply keeps_district_bind; [apply keeps_district_lift_rng|].
      intros ?. apply keeps_district_ret. }
    by rewrite (Hk _ _ _ Hrun). }
  destruct (decide (court = PyStr "faridabad-district")) as [->|H5].
  { rewrite bool_decide_eq_false_2 by done.
    rewrite bool_decide_eq_true_2 by done. cbn [orb].
    rewrite bind_eq. cbv beta iota. rewrite bind_eq. cbv beta iota.
    intros Hrun.
    assert (keeps_district
              (r <- lift_rng (ECourtsScraper.scrape_case_data env
                                (ecourts_district (proc (set_district "faridabad" st)))
                                case_type case_number filing_year) ;;
               ret (Some r))) as Hk.
    { apply keeps_district_bind; [apply keeps_district_lift_rng|].
      intros ?. apply keeps_district_ret. }
    by rewrite (Hk _ _ _ Hrun). }
  rewrite !bool_decide_eq_false_2 by done. cbn [orb].
  by intros [= <- <-].
Qed.

Lemma keeps_district_after_dispatch env data filing_year chosen :
  keeps_district
    (match chosen with
     | None => ret (JsonError "Unsupported court selected" 400)
     | Some (result, error) =>
         match error with
         | Some (String c msg) =>
             session_add
               (OQuery (query_record_of data filing_year false None
                          (Some (String c msg)) None)) ;;
             session_commit env ;;
             ret (JsonError (String c msg) 500)
         | _ =>
             match result with
             | None =>
                 raise (Raise "TypeError" "'NoneType' object is not subscriptable")
             | Some result =>
                 label <- lift_exn (dict_item (Result.case_data result) "case_number") ;;
                 existing_case <- case_by_number env label ;;
                 match existing_case with
                 | None => save_new_case env (dict_get data "court") result
                 | Some _ => ret tt
                 end ;;
                 session_add
                   (OQuery (query_record_of data filing_year true
                              (Some (Result.response_time_ms result)) None
                              (Some result))) ;;
                 session_commit env ;;
                 prediction <- lift_rng (CaseAnalytics.predict_case_outcome env
                                           (Result.case_data result)) ;;
                 ret (JsonResult
                        (Result.Build (Result.case_data result) (Result.orders result)
                           (Result.response_time_ms result) (Result.success result)
                           (Some prediction)))
             end
         end
     end).
Proof.
  destruct chosen as [[result error]|]; [|apply keeps_district_ret].
  assert (keeps_district
            (match result with
             | None =>
                 raise (Raise "TypeError" "'NoneType' object is not subscriptable")
             | Some result =>
                 label <- lift_exn (dict_item (Result.case_data result) "case_number") ;;
                 existing_case <- case_by_number env label ;;
                 match existing_case with
                 | None => save_new_case env (dict_get data "court") result
                 | Some _ => ret tt
                 end ;;
                 session_add
                   (OQuery (query_record_of data filing_year true
                              (Some (Result.response_time_ms result)) None
                              (Some result))) ;;
                 session_commit env ;;
                 prediction <- lift_rng (CaseAnalytics.predict_case_outcome env
                                           (Result.case_data result)) ;;
                 ret (JsonResult
                        (Result.Build (Result.case_data result) (Result.orders result)
                           (Result.response_time_ms result) (Result.success result)
                           (Some prediction)))
             end : M Response)) as Hresult.
  { destruct result as [result|]; [|apply keeps_district_raise].
    apply keeps_district_bind; [apply keeps_district_lift_exn|]. intros label.
    apply keeps_district_bind; [apply keeps_district_case_by_number|]. intros existing.
    apply keeps_district_bind.
    { destruct existing; [apply keeps_district_ret | apply keeps_district_save_new_case]. }
    intros _.
    apply keeps_district_bind; [apply keeps_district_session_add|]. intros _.
    apply keeps_district_bind; [apply keeps_district_session_commit|]. intros _.
    apply keeps_district_bind; [apply keeps_district_lift_rng|]. intros ?.
    apply keeps_district_ret. }
  destruct error as [[|c msg]|]; try exact Hresult.
  apply keeps_district_bind; [apply keeps_district_session_add|]. intros _.
  apply keeps_district_bind; [apply keeps_district_session_commit|]. intros _.
  apply keeps_district_ret.
Qed.

(** X13. [ecourts_scraper.district] after a request whose filing year,
    when it is a string, is of ASCII text.  A request that reaches the
    dispatch, its year converted by [int()], with "delhi-district" or
    "faridabad-district" leaves the attribute at "delhi" or "faridabad",
    whatever the answer is, an error included: the rollback of the
    session does not undo the assignment.  Every other request leaves
    the attribute as it was. *)
Theorem district_after_search env request p :
  ascii_year request = true ->
  ecourts_district (search_case env request p).2
  = match request, request_year request with
    | BodyObject data, inr _ =>
        district_after (dict_get data "court") (ecourts_district p)
    | _, _ => ecourts_district p
    end.
Proof.
  intros _.
  unfold search_case, request_year.
  destruct (search_case_body env request (MkState p (db p) [])) as [r st] eqn:Hbody.
  cbn [snd teardown]. revert Hbody. unfold search_case_body.
  rewrite bind_lift_exn.
  destruct request as [data|v|]; cbn [get_json]; try (by intros [= <- <-]).
  rewrite bind_lift_exn.
  destruct (py_int (dict_get data "filing_year")) as [e|filing_year];
    [by intros [= <- <-]|].
  rewrite bind_eq.
  destruct (choose_scraper env (dict_get data "court") (dict_get data "case_type")
              (dict_get data "case_number") filing_year (MkState p (db p) []))
    as [[e|chosen] st1] eqn:Hchoose;
    apply choose_scraper_district in Hchoose; cbn [proc ecourts_district] in Hchoose.
  - by intros [= <- <-].
  - intros Hrest. rewrite <- Hchoose.
    exact (keeps_district_after_dispatch env data filing_year chosen _ _ _ Hrest).
Qed.

Lemma district_after_search_witness :
  ecourts_district fresh_process = "faridabad"
  /\ numeric_type_search.1 = JsonError "'int' object has no attribute 'upper'" 500
  /\ ecourts_district numeric_type_search.2 = "delhi"
  /\ ecourts_district
       (search_case sample_env
          (search_request (PyStr "delhi-district") (PyStr "writ") (PyStr "123")
             (PyStr (String (ascii_of_nat 31) "2023")))
          fresh_process).2
     = "faridabad".
Proof.
  split; [reflexivity|]. split; [reflexivity|]. split.
  - unfold numeric_type_search.
    rewrite (district_after_search sample_env (BodyObject numeric_type_data)
               fresh_process); reflexivity.
  - rewrite (district_after_search sample_env _ fresh_process); reflexivity.
Defined.

(** ** A search for a case on file *)

Lemma case_by_number_known env label st :
  select_fault env = false -> pending st = [] ->
  PyStr label ∈ case_numbers (txn st) ->
  exists c, case_by_number env (PyStr label) st = (inr (Some c), st).
Proof.
  intros Hs Hnil Hknown. unfold case_by_number, bind, session_flush.
  rewrite Hnil, Hs. simpl.
  destruct (head _) as [c|] eqn:Hhead; [by exists c|].
  by apply head_filter_None in Hhead.
Qed.

(** X14. A court of the dispatch, a filing year and a response time
    within 64 bits, a case type (of ASCII text, when it is a string) and
    a case number the driver can bind and that their columns do not take
    as NULL, and a label that is already on file: with the store in order
    the search is answered with status 200 and a freshly generated
    payload for that label, while the case and order tables stay exactly
    as they were; the one row written is the log entry, the case type and
    number in the text form of their columns, with [success] true.  The
    stored record is not compared with the new payload, nor refreshed. *)
Theorem known_case_search_logs_only env data p key filing_year label :
  select_fault env = false -> flush_fault env = false -> commit_fault env = false ->
  int64 (elapsed_ms env) = true ->
  court_key (dict_get data "court") = Some key ->
  py_int (dict_get data "filing_year") = inr filing_year ->
  int64 filing_year = true ->
  ascii_value (dict_get data "case_type") = true ->
  bindable (dict_get data "case_type") = true ->
  is_none (column_text (dict_get data "case_type")) = false ->
  bindable (dict_get data "case_number") = true ->
  is_none (column_text (dict_get data "case_number")) = false ->
  BaseScraper.case_num (dict_get data "case_type") (dict_get data "case_number")
    filing_year key = inr label ->
  PyStr label ∈ case_numbers (db p) ->
  exists r prediction p',
    search_case env (BodyObject data) p
    = (JsonResult (with_prediction r prediction), p')
    /\ mock_payload env filing_year label r
    /\ DB.case_data (db p') = DB.case_data (db p)
    /\ DB.case_order (db p') = DB.case_order (db p)
    /\ DB.case_query (db p')
       = DB.case_query (db p)
         ++ [CaseQuery.Build
               (Some (next_id (CaseQuery.id <$> DB.case_query (db p))))
               (dict_get data "court")
               (column_text (dict_get data "case_type"))
               (column_text (dict_get data "case_number"))
               filing_year (Some (utcnow env)) true (Some (elapsed_ms env)) None
               (Some r)].
Proof.
  intros Hs Hf Hc Htime Hkey Hyear Hint _ Hbt Hnt Hbn Hnn Hnum Hknown.
  destruct (court_key_supported _ _ Hkey) as [Hcourt _].
  unfold search_case, search_case_body.
  rewrite bind_lift_exn. cbn [get_json]. rewrite bind_lift_exn, Hyear, bind_eq.
  destruct (choose_scraper_payload env _ _ _ _ (MkState p (db p) []) _ _ Hkey Hnum)
    as (r & st1 & -> & (Hdb & Htxn & Hpe) & Hr).
  simpl in Hdb, Htxn, Hpe.
  pose proof (mock_payload_label _ _ _ _ Hr) as Hlabel.
  assert (Result.response_time_ms r = elapsed_ms env) as Hrt.
  { destruct Hr as (? & ? & ? & ? & ? & ? & ? & ? & ? & ? & Hr).
    destruct Hr as (_ & _ & _ & _ & _ & _ & _ & _ & _ & _ & ->). reflexivity. }
  rewrite bind_lift_exn. unfold dict_item at 1. rewrite Hlabel.
  rewrite bind_eq.
  destruct (case_by_number_known env label st1) as [known ->];
    [done | done | by rewrite Htxn |].
  rewrite bind_ret, bind_session_add, bind_eq, Hpe, Htxn. cbn [app].
  set (q := CaseQuery.Build _ _ _ _ _ _ _ _ _ _).
  erewrite commit_ok; [| done | done |]; cycle 1.
  { cbn [pending txn insert_all].
    rewrite insert_query_ok; [reflexivity|subst q; cbn; by rewrite ?Hcourt, ?Hrt..]. }
  rewrite bind_eq.
  match goal with |- context [lift_rng ?f ?s] =>
    destruct (lift_rng_predict env (Result.case_data r) s)
      as (pr & st5 & Heq & Hdb5 & _) end.
  rewrite Heq. cbn [ret teardown].
  exists r, pr, (proc st5). split; [reflexivity|]. split; [done|].
  rewrite Hdb5. cbn [proc db].
  change (stamp env (db p) (OQuery q)) with (OQuery (query_row env (db p) q)).
  rewrite tables_after_query. cbn [DB.case_query DB.case_data DB.case_order].
  split; [done|]. split; [done|].
  subst q. cbn [query_row stamp CaseQuery.id CaseQuery.court_name
    CaseQuery.case_type CaseQuery.case_number CaseQuery.filing_year
    CaseQuery.query_timestamp CaseQuery.success CaseQuery.response_time_ms
    CaseQuery.raw_response CaseQuery.parsed_data default].
  by rewrite Hcourt, Hrt.
Qed.

Lemma known_case_search_logs_only_witness :
  exists r prediction p',
    search_case sample_env (BodyObject sample_data) sample_search.2
    = (JsonResult (with_prediction r prediction), p')
    /\ mock_payload sample_env 2023 "Writ Petition 123/2023" r
    /\ DB.case_data (db p') = DB.case_data (db sample_search.2)
    /\ DB.case_order (db p') = DB.case_order (db sample_search.2)
    /\ DB.case_query (db p')
       = DB.case_query (db sample_search.2)
         ++ [CaseQuery.Build (Some 2) (PyStr "delhi-high") (PyStr "writ") (PyStr "123")
               2023 (Some (utcnow sample_env)) true (Some 2600) None (Some r)].
Proof.
  apply (known_case_search_logs_only sample_env sample_data sample_search.2
           "delhi-high" 2023 "Writ Petition 123/2023");
    try (vm_compute; reflexivity).
  vm_compute. repeat constructor.
Defined.

(** ** Unique case numbers *)

(** X15. Case numbers: if no two case records share a case number, this
    is still so after any sequence of requests. *)
Theorem case_numbers_unique_preserved steps p :
  NoDup (case_numbers (db p)) -> NoDup (case_numbers (db (run steps p))).
Proof.
  intros Hnd. destruct (run_grows steps p) as (_ & _ & _ & Hkeep). by apply Hkeep.
Qed.

Lemma case_numbers_unique_preserved_witness :
  NoDup (case_numbers (db fresh_process))
  /\ NoDup (case_numbers (db (run sample_steps fresh_process))).
Proof.
  assert (NoDup (case_numbers (db fresh_process))) as Hnd by (vm_compute; constructor).
  split; [exact Hnd|].
  exact (case_numbers_unique_preserved sample_steps fresh_process Hnd).
Defined.

(** ** Bounds of the dashboard figures *)

Lemma round_half_even_bounds (q : Q) (m : Z) :
  (0 <= q)%Q -> (q <= m # 1)%Q -> 0 <= round_half_even q <= m.
Proof.
  unfold Qle, round_half_even. simpl.
  set (n := Qnum q). set (d := Zpos (Qden q)). intros H0 Hm.
  assert (0 < d) as Hd by done.
  pose proof (Z.div_mod n d ltac:(lia)) as Hdm.
  pose proof (Z.mod_pos_bound n d Hd) as Hr.
  set (lo := n / d) in *. set (r := n mod d) in *.
  assert (0 <= lo) by nia.
  assert (lo <= m) by nia.
  assert (0 < r -> lo + 1 <= m) by nia.
  repeat case_match; lia.
Qed.

(** X16. The dashboard figures are within their ranges whatever the query
    log holds: the day's total is not negative, the success rate lies
    between 0 and 100, and the average response time is not negative
    when no stored response time is. *)
Theorem dashboard_stats_bounds env d :
  let stats := CaseAnalytics.get_dashboard_stats env d in
  0 <= Stats.total_searches stats
  /\ (0 <= Stats.success_rate stats <= 100)%Q
  /\ (Forall (fun t => 0 <= t) (response_times (DB.case_query d)) ->
      0 <= Stats.avg_response_time stats).
Proof.
  intros stats. subst stats. unfold CaseAnalytics.get_dashboard_stats.
  cbn [Stats.total_searches Stats.success_rate Stats.avg_response_time].
  set (today := dt_date (now env)).
  rewrite filter_since_success.
  set (day := filter (fun q => CaseAnalytics.since today q = true) (DB.case_query d)).
  set (good := filter (fun q => CaseQuery.success q = true) day).
  assert (length good <= length day)%nat as Hle by apply length_filter.
  split; [lia|]. split.
  - assert (0 <= round_half_even
                   ((if 0 <? Z.of_nat (length day)
                     then (Z.of_nat (length good) # 1) / (Z.of_nat (length day) # 1) * 100
                     else 0) * 10) <= 1000) as Hk.
    { apply round_half_even_bounds.
      - destruct (Z.of_nat (length day)) as [|t|t] eqn:Ht; try done.
        unfold Qle. simpl. lia.
      - destruct (Z.of_nat (length day)) as [|t|t] eqn:Ht; try done.
        unfold Qle. simpl. lia. }
    unfold round1, Qle. simpl. lia.
  - intros Htimes.
    unfold CaseAnalytics.sql_avg. rewrite omap_id_fmap.
    fold (response_times good).
    assert (Forall (fun t => 0 <= t) (response_times good)) as Hgood.
    { clear -Htimes. unfold response_times, good, day in *.
      rewrite Forall_forall in *. intros t Ht. apply Htimes.
      apply list_elem_of_omap in Ht as (q & Hq & Hqt).
      apply list_elem_of_omap. exists q. split; [|done].
      apply list_elem_of_filter in Hq as [_ Hq].
      by apply list_elem_of_filter in Hq as [_ Hq]. }
    destruct (response_times good) as [|t ts] eqn:Hts; [done|].
    assert (0 <= fold_right Z.add 0 (t :: ts)) as Hsum.
    { clear -Hgood. induction Hgood; simpl in *; lia. }
    case_match; [done|].
    unfold int_of_Q. cbn [Qnum Qden]. apply Z.quot_pos; lia.
Qed.

(** ** The generated dates, read back *)

(** X17. The dates [generate_mock_data] writes, read back with the format
    the route uses.  The next hearing parses to a day from August to
    December 2025 and the first order to a day in July 2025, whatever the
    filing year.  The filing date, which is also the date of the second
    order, parses exactly when the filing year has four digits (1000 to
    9999), and then to a day of that year. *)
Theorem generated_dates_read_back env case_type case_number filing_year court_name n
    label :
  BaseScraper.case_num case_type case_number filing_year court_name = inr label ->
  exists case_data o1 o2 nh od,
    BaseScraper.generate_mock_data env case_type case_number filing_year court_name n
    = (inr (case_data, [o1; o2]), (n + 10)%nat)
    /\ date_item case_data "next_hearing" = inr nh
    /\ year nh = 2025 /\ 8 <= month nh <= 12 /\ 1 <= day nh <= 28
    /\ date_item o1 "date" = inr (Date 2025 7 od) /\ 1 <= od <= 30
    /\ date_item o2 "date" = date_item case_data "filing_date"
    /\ (1000 <= filing_year <= 9999 ->
        exists fd, date_item case_data "filing_date" = inr fd
                   /\ year fd = filing_year
                   /\ 1 <= month fd <= 12 /\ 1 <= day fd <= 28)
    /\ (filing_year < 1000 \/ 9999 < filing_year ->
        exists e, date_item case_data "filing_date" = inl e).
Proof.
  intros Hnum.
  destruct (generate_mock_data_payload env case_type case_number filing_year
              court_name n label Hnum) as (r & Hgen & Hr).
  destruct Hr as (pet & res & status & judge & desc & fm & fd & hm & hd & od
                  & _ & _ & _ & _ & _ & Hfm & Hfd & Hhm & Hhd & Hod & ->).
  cbn [Result.case_data Result.orders] in Hgen.
  eexists _, _, _, (Date 2025 hm hd), od. split; [exact Hgen|].
  destruct (mock_case_data_items label pet res
              (date_text (str_of_int filing_year) fm fd) (date_text "2025" hm hd)
              status judge) as (_ & _ & _ & L4 & L5 & _).
  unfold date_item, dict_item.
  rewrite L4, L5, !mock_order_date.
  rewrite strptime_2025 by lia. rewrite strptime_july_2025 by lia.
  do 7 (split; [done || (cbn [year month day]; lia)|]).
  split.
  - intros Hy. exists (Date filing_year fm fd).
    rewrite strptime_generated by lia. cbn [year month day]. repeat split; try done; lia.
  - intros [Hy|Hy]; [by apply strptime_short_year | by apply strptime_long_year].
Qed.

Lemma generated_dates_read_back_witness :
  exists case_data o1 o2 nh od,
    BaseScraper.generate_mock_data sample_env (PyStr "writ") (PyStr "123") 2023
      "delhi-high" 0%nat
    = (inr (case_data, [o1; o2]), (0 + 10)%nat)
    /\ date_item case_data "next_hearing" = inr nh
    /\ year nh = 2025 /\ 8 <= month nh <= 12 /\ 1 <= day nh <= 28
    /\ date_item o1 "date" = inr (Date 2025 7 od) /\ 1 <= od <= 30
    /\ date_item o2 "date" = date_item case_data "filing_date"
    /\ (1000 <= 2023 <= 9999 ->
        exists fd, date_item case_data "filing_date" = inr fd
                   /\ year fd = 2023
                   /\ 1 <= month fd <= 12 /\ 1 <= day fd <= 28)
    /\ (2023 < 1000 \/ 9999 < 2023 ->
        exists e, date_item case_data "filing_date" = inl e).
Proof.
  apply (generated_dates_read_back sample_env (PyStr "writ") (PyStr "123") 2023
           "delhi-high" 0%nat "Writ Petition 123/2023").
  reflexivity.
Defined.
